(** * Weather risk dashboards: scoring and aggregation engine

    A shallow embedding of the decision logic of
    [ChokepointRiskDashboard.py] and [PortOperationsWeatherDashboard.py]:
    factor scoring, composite classification, transit difficulty index,
    dominant driver, six hour outlook, hourly risk strip and the global
    roll-up.

    Numbers read from the forecast are Python floats.  A float is embedded
    as the rational it is ([Q]), so every comparison against a threshold is
    the comparison the interpreter performs.  Sums, quotients and
    differences of readings are rounded to the nearest binary64 number as
    the interpreter rounds them ([Py.fl]).  Python [int]s are [Z]. *)

From Stdlib Require Import ZArith QArith Qround Qabs Qpower Lqa.
From Stdlib Require Import List String Ascii Bool Lia.
From Stdlib Require Import DecimalString.
Import ListNotations.

Local Open Scope string_scope.
Local Open Scope Z_scope.

(** ** The fragment of the Python runtime the scripts rely on *)

Module Py.

(** Built-in exceptions the modelled code can raise. *)
Inductive exn : Set :=
| KeyError      (* d[k] on a missing key *)
| IndexError    (* l[i] past the end of a list *)
| ValueError.   (* max()/min() of an empty sequence *)

Definition exn_name (e : exn) : string :=
  match e with
  | KeyError => "KeyError"
  | IndexError => "IndexError"
  | ValueError => "ValueError"
  end.

Inductive result (A : Type) : Type :=
| Ok (a : A)
| Raise (e : exn).
Arguments Ok {A} a.
Arguments Raise {A} e.

Definition bind {A B} (m : result A) (k : A -> result B) : result B :=
  match m with
  | Ok a => k a
  | Raise e => Raise e
  end.

(** [for x in xs: out.append(body(x))], stopping at the first exception. *)
Fixpoint for_each {A B} (body : A -> result B) (xs : list A) : result (list B) :=
  match xs with
  | [] => Ok []
  | x :: xs' =>
      bind (body x) (fun y =>
      bind (for_each body xs') (fun ys => Ok (y :: ys)))
  end.

(** [range(n)] *)
Definition range (n : nat) : list nat := seq 0 n.

(** [d[k]]: a key of a JSON object is present or not. *)
Definition getkey {A} (field : option A) : result A :=
  match field with
  | Some a => Ok a
  | None => Raise KeyError
  end.

(** [l[i]] for a non-negative literal or loop index [i]. *)
Definition getitem {A} (l : list A) (i : nat) : result A :=
  match nth_error l i with
  | Some a => Ok a
  | None => Raise IndexError
  end.

(** [l[lo:hi]] for non-negative bounds: never raises, clips to the list. *)
Definition slice {A} (l : list A) (lo hi : nat) : list A :=
  firstn (hi - lo) (skipn lo l).

(** Comparisons of float readings. *)
Definition ltb (x y : Q) : bool := negb (Qle_bool y x).
Definition leb (x y : Q) : bool := Qle_bool x y.
Definition gtb (x y : Q) : bool := ltb y x.
Definition eqb (x y : Q) : bool := Qeq_bool x y.

(** [max(l)]: keeps the first of the largest items, [ValueError] on [[]]. *)
Definition max_by {A} (gt : A -> A -> bool) (l : list A) : result A :=
  match l with
  | [] => Raise ValueError
  | x :: rest => Ok (fold_left (fun best y => if gt y best then y else best) rest x)
  end.

(** [min(l)]: keeps the first of the smallest items. *)
Definition min_by {A} (lt : A -> A -> bool) (l : list A) : result A :=
  match l with
  | [] => Raise ValueError
  | x :: rest => Ok (fold_left (fun best y => if lt y best then y else best) rest x)
  end.

Definition max (l : list Q) : result Q := max_by gtb l.
Definition min (l : list Q) : result Q := min_by ltb l.
Definition max_int (l : list Z) : result Z := max_by Z.gtb l.

(** [round(x)] with one argument: nearest integer, halves to the even one. *)
Definition round (x : Q) : Z :=
  let f := Qfloor x in
  let d := (x - inject_Z f)%Q in
  if ltb d (1 # 2) then f
  else if ltb (1 # 2) d then f + 1
  else if Z.even f then f else f + 1.

(** The nearest binary64 number to a rational, ties to the even significand:
    53 significant bits, exponents down to the subnormal 2^-1074.  Results
    of magnitude 2^1024 and more, which overflow to infinity, are outside the
    model. *)
Definition fl (x : Q) : Q :=
  let q := Qred x in
  if Qeq_bool q 0 then 0%Q
  else
    let a := Qabs q in
    let l0 := Z.log2 (Qnum a) - Z.log2 (Zpos (Qden a)) in
    let l := if ltb a (2 ^ l0)%Q then l0 - 1 else l0 in
    let e := Z.max (l - 52) (-1074) in
    let m := round (a * 2 ^ (- e))%Q in
    Qred ((if ltb q 0 then -1 else 1) * inject_Z m * 2 ^ e)%Q.

(** [x + y], [x - y], [x / y] on floats: the exact result, rounded.  The
    operands are floats; one written in decimal stands for the float the
    parser reads it as. *)
Definition fadd (x y : Q) : Q := fl (fl x + fl y)%Q.
Definition fsub (x y : Q) : Q := fl (fl x - fl y)%Q.
Definition fdiv (x y : Q) : Q := fl (fl x / fl y)%Q.

(** [sum(l)] of floats: starts from 0 and adds from the left, rounding each
    partial sum (CPython 3.11; from 3.12 on a compensation term is carried
    along). *)
Definition sum (l : list Q) : Q := fold_left fadd l 0%Q.

(** [str(n)] as an f-string prints an [int]. *)
Definition str_int (n : Z) : string := NilZero.string_of_int (Z.to_int n).

(** [s.capitalize()] on ASCII text: first letter upper case, rest lower. *)
Definition upper (c : ascii) : ascii :=
  let n := nat_of_ascii c in
  if (97 <=? n)%nat && (n <=? 122)%nat then ascii_of_nat (n - 32) else c.
Definition lower (c : ascii) : ascii :=
  let n := nat_of_ascii c in
  if (65 <=? n)%nat && (n <=? 90)%nat then ascii_of_nat (n + 32) else c.
Fixpoint map_string (f : ascii -> ascii) (s : string) : string :=
  match s with
  | EmptyString => EmptyString
  | String c s' => String (f c) (map_string f s')
  end.
Definition capitalize (s : string) : string :=
  match s with
  | EmptyString => EmptyString
  | String c s' => String (upper c) (map_string lower s')
  end.

(** A [dict] keeps its keys in insertion order; storing under a key that is
    already present overwrites the value in place. *)
Definition dict (K V : Type) : Type := list (K * V).

Fixpoint dict_set {K V} (eqk : K -> K -> bool) (k : K) (v : V) (d : dict K V)
  : dict K V :=
  match d with
  | [] => [(k, v)]
  | (k', v') :: d' =>
      if eqk k k' then (k', v) :: d' else (k', v') :: dict_set eqk k v d'
  end.

Definition keys {K V} (d : dict K V) : list K := map fst d.

Fixpoint dict_get {K V} (eqk : K -> K -> bool) (d : dict K V) (k : K) : result V :=
  match d with
  | [] => Raise KeyError
  | (k', v') :: d' => if eqk k k' then Ok v' else dict_get eqk d' k
  end.

(** [max(d, key=d.get)]: the first key, in insertion order, whose stored
    value is the largest.  [d.get] on one of [d]'s own keys is the stored
    value, so the items are compared by their second component. *)
Definition max_key {K} (d : dict K Z) : result K :=
  bind (max_by (fun a b => snd a >? snd b) d) (fun kv => Ok (fst kv)).

End Py.

Import Py.

Notation "x <- m ;; k" := (Py.bind m (fun x => k))
  (at level 61, m at next level, right associativity).

(** ** Data shared by the two dashboards *)

(** The [hourly] object of a forecast response: one array per variable; a key
    may be absent. *)
Record hourly : Type := {
  time : option (list string);
  temperature_2m : option (list Q);
  windspeed_10m : option (list Q);
  visibility : option (list Q);
  precipitation : option (list Q)
}.

(** One element of [forecast_24h]. *)
Record hour : Type := {
  hour_time : string;
  hour_temp : Q;
  hour_wind : Q;
  hour_vis : Q;
  hour_precip : Q
}.

(** The [current] block of an entry. *)
Record current_conditions : Type := {
  temperature_c : Q;
  wind_kmh : Q;
  visibility_m : Q;
  precip_mm : Q
}.

(** The three level strings. *)
Inductive risk_level : Set := low | moderate | high.

Definition level_str (l : risk_level) : string :=
  match l with
  | low => "low"
  | moderate => "moderate"
  | high => "high"
  end.

(** The [counts] dictionary of [compute_global_metrics]. *)
Record level_counts : Type := {
  count_low : Z;
  count_moderate : Z;
  count_high : Z
}.

Definition count_incr (c : level_counts) (l : risk_level) : level_counts :=
  match l with
  | low => {| count_low := count_low c + 1; count_moderate := count_moderate c;
              count_high := count_high c |}
  | moderate => {| count_low := count_low c; count_moderate := count_moderate c + 1;
                   count_high := count_high c |}
  | high => {| count_low := count_low c; count_moderate := count_moderate c;
               count_high := count_high c + 1 |}
  end.

(** ** ChokepointRiskDashboard.py *)

Module Chokepoint.

(** [extract_24h] *)
Definition extract_24h (hourly : hourly) : result (list hour) :=
  for_each (fun i =>
    ts <- getkey (time hourly) ;; t <- getitem ts i ;;
    temps <- getkey (temperature_2m hourly) ;; temp <- getitem temps i ;;
    ws <- getkey (windspeed_10m hourly) ;; wind <- getitem ws i ;;
    vs <- getkey (visibility hourly) ;; vis <- getitem vs i ;;
    ps <- getkey (precipitation hourly) ;; precip <- getitem ps i ;;
    Ok {| hour_time := t; hour_temp := temp; hour_wind := wind;
          hour_vis := vis; hour_precip := precip |})
    (range 24).

(** The three step tables.  The source writes each chain twice, once on the
    window aggregates and once inside the strip loop, with the same
    constants. *)
Definition wind_risk_of (w : Q) : Z :=
  if ltb w 20 then 5
  else if ltb w 40 then 15
  else if ltb w 60 then 30
  else 40.

Definition vis_risk_of (v : Q) : Z :=
  if gtb v 10000 then 0
  else if gtb v 5000 then 5
  else if gtb v 1000 then 10
  else 20.

Definition precip_risk_of (p : Q) : Z :=
  if eqb p 0 then 0
  else if ltb p 2 then 5
  else if ltb p 10 then 10
  else 20.

Definition level_of (score : Z) : risk_level :=
  if score <? 30 then low
  else if score <? 60 then moderate
  else high.

Definition color_of (score : Z) : string :=
  if score <? 30 then "#2ECC71"
  else if score <? 60 then "#F1C40F"
  else "#E74C3C".

(** Transit Difficulty Index (0-100, scaled from max 80).  The composites the
    script can produce are multiples of 5, for which [score / 80 * 100] is a
    multiple of 6.25 and exact in binary floating point. *)
Definition max_possible : Z := 40 + 20 + 20.

Definition tdi_score_of (score : Z) : Z :=
  Py.round ((inject_Z score / inject_Z max_possible) * 100)%Q.

Definition tdi_category_of (tdi_score : Z) : string :=
  if tdi_score <? 20 then "Routine"
  else if tdi_score <? 40 then "Caution"
  else if tdi_score <? 60 then "Challenging"
  else if tdi_score <? 80 then "Hazardous"
  else "Severe".

(** Dominant risk driver: a dictionary keyed by the three scores. *)
Definition driver_map (wind_risk vis_risk precip_risk : Z) : dict Z string :=
  dict_set Z.eqb precip_risk "Heavy precipitation"
    (dict_set Z.eqb vis_risk "Visibility degradation"
       (dict_set Z.eqb wind_risk "Wind-driven risk" [])).

Definition dominant_driver_of (wind_risk vis_risk precip_risk : Z) : result string :=
  let driver_map := driver_map wind_risk vis_risk precip_risk in
  k <- max_int (keys driver_map) ;;
  dict_get Z.eqb driver_map k.

(** Next 6 hours outlook *)
Definition avg (seq : list Q) : Q :=
  match seq with
  | [] => 0
  | _ => fdiv (Py.sum seq) (inject_Z (Z.of_nat (List.length seq)))
  end.

Definition outlook_of (winds vis precip : list Q) : string :=
  let first_3_wind := avg (slice winds 0 3) in
  let next_3_wind := avg (slice winds 3 6) in
  let first_3_vis := avg (slice vis 0 3) in
  let next_3_vis := avg (slice vis 3 6) in
  let first_3_precip := avg (slice precip 0 3) in
  let next_3_precip := avg (slice precip 3 6) in
  let d_wind := fsub next_3_wind first_3_wind in
  let d_vis := fsub next_3_vis first_3_vis in
  let d_precip := fsub next_3_precip first_3_precip in
  let worsening := gtb d_wind 5 || ltb d_vis (-2000) || gtb d_precip 2 in
  let improving := ltb d_wind (-5) || gtb d_vis 2000 || ltb d_precip (-2) in
  if worsening && negb improving then
    "Conditions deteriorating over the next 6 hours."
  else if improving && negb worsening then
    "Conditions improving over the next 6 hours."
  else if worsening && improving then
    "Mixed signals: some factors improving, others deteriorating."
  else
    "Stable conditions expected over the next 6 hours.".

(** 24-hour risk strip (hour-by-hour) *)
Definition hr_score_of (w v p : Q) : Z :=
  wind_risk_of w + vis_risk_of v + precip_risk_of p.

Definition hourly_risk_strip_of (winds vis precip : list Q) : result (list risk_level) :=
  for_each (fun i =>
    w <- getitem winds i ;;
    v <- getitem vis i ;;
    p <- getitem precip i ;;
    Ok (level_of (hr_score_of w v p)))
    (range 24).

(** The [factors] block: keys [wind], [visibility], [precipitation]. *)
Record factors : Type := {
  factor_wind : Z;
  factor_visibility : Z;
  factor_precipitation : Z
}.

(** The dictionary [compute_risk] returns; [factors_of] is its key
    [factors]. *)
Record risk : Type := {
  score : Z;
  level : risk_level;
  color : string;
  tdi_score : Z;
  tdi_category : string;
  outlook_6h : string;
  dominant_driver : string;
  hourly_risk_strip : list risk_level;
  factors_of : factors
}.

(** [compute_risk] *)
Definition compute_risk (hourly : hourly) : result risk :=
  all_winds <- getkey (windspeed_10m hourly) ;;
  let winds := slice all_winds 0 24 in
  all_vis <- getkey (visibility hourly) ;;
  let vis := slice all_vis 0 24 in
  all_precip <- getkey (precipitation hourly) ;;
  let precip := slice all_precip 0 24 in
  max_wind <- Py.max winds ;;
  min_vis <- Py.min vis ;;
  max_precip <- Py.max precip ;;
  let wind_risk := wind_risk_of max_wind in
  let vis_risk := vis_risk_of min_vis in
  let precip_risk := precip_risk_of max_precip in
  let score := wind_risk + vis_risk + precip_risk in
  let tdi_score := tdi_score_of score in
  dominant_driver <- dominant_driver_of wind_risk vis_risk precip_risk ;;
  let outlook_6h := outlook_of winds vis precip in
  hourly_risk_strip <- hourly_risk_strip_of winds vis precip ;;
  Ok {| score := score;
        level := level_of score;
        color := color_of score;
        tdi_score := tdi_score;
        tdi_category := tdi_category_of tdi_score;
        outlook_6h := outlook_6h;
        dominant_driver := dominant_driver;
        hourly_risk_strip := hourly_risk_strip;
        factors_of := {| factor_wind := wind_risk;
                         factor_visibility := vis_risk;
                         factor_precipitation := precip_risk |} |}.

(** An element of [results], built by the body of [main]'s loop from the
    fetched [hourly] object [h]. *)
Record entry : Type := {
  name : string;
  coords : Q * Q;
  current : current_conditions;
  forecast_24h : list hour;
  risk_of : risk
}.

Definition make_entry (cp_name : string) (lat lon : Q) (h : hourly) : result entry :=
  temps <- getkey (temperature_2m h) ;; t0 <- getitem temps 0 ;;
  ws <- getkey (windspeed_10m h) ;; w0 <- getitem ws 0 ;;
  vs <- getkey (visibility h) ;; v0 <- getitem vs 0 ;;
  ps <- getkey (precipitation h) ;; p0 <- getitem ps 0 ;;
  fc <- extract_24h h ;;
  r <- compute_risk h ;;
  Ok {| name := cp_name; coords := (lat, lon);
        current := {| temperature_c := t0; wind_kmh := w0;
                      visibility_m := v0; precip_mm := p0 |};
        forecast_24h := fc; risk_of := r |}.

(** [compute_global_metrics]: the variables of the loop over the entries. *)
Record scan : Type := {
  max_score : Z;
  highest_cp : option entry;
  counts : level_counts
}.

Definition scan_init : scan :=
  {| max_score := -1; highest_cp := None;
     counts := {| count_low := 0; count_moderate := 0; count_high := 0 |} |}.

Definition scan_step (st : scan) (cp : entry) : scan :=
  let level := level (risk_of cp) in
  let score := score (risk_of cp) in
  let counts := count_incr (counts st) level in
  if score >? max_score st then
    {| max_score := score; highest_cp := Some cp; counts := counts |}
  else
    {| max_score := max_score st; highest_cp := highest_cp st; counts := counts |}.

Definition scan_all (chokepoints : list entry) : scan :=
  fold_left scan_step chokepoints scan_init.

Definition posture_line_of (global_level : risk_level) : string :=
  match global_level with
  | low =>
      "Overall chokepoint risk remains low. " ++
      "Moderate conditions are limited and localized. " ++
      "No high-risk weather disruptions are expected within the next 24 hours."
  | moderate =>
      "Global chokepoint risk is elevated to moderate. " ++
      "Weather-driven constraints may impact operations at select locations. " ++
      "No widespread high-risk disruptions are currently assessed."
  | high =>
      "Global chokepoint risk is high. " ++
      "Weather conditions at one or more locations may significantly impact maritime operations " ++
      "within the next 24 hours."
  end%string.

Definition highest_line_of (highest_cp : option entry) : string :=
  match highest_cp with
  | Some cp =>
      "Highest operational risk: " ++ name cp ++ " " ++
      "(Score " ++ str_int (score (risk_of cp)) ++ ", " ++
      level_str (level (risk_of cp)) ++ " risk)."
  | None => "No chokepoints currently assessed."
  end%string.

Definition counts_line_of (counts : level_counts) : string :=
  ("Risk distribution: " ++ str_int (count_low counts) ++ " low, " ++
   str_int (count_moderate counts) ++ " moderate, " ++
   str_int (count_high counts) ++ " high.")%string.

Record global_metrics : Type := {
  global_index : Z;
  global_level : risk_level;
  posture_line : string;
  highest_line : string;
  counts_line : string
}.

Definition compute_global_metrics (chokepoints : list entry) : global_metrics :=
  let st := scan_all chokepoints in
  let global_level := level_of (max_score st) in
  {| global_index := max_score st;
     global_level := global_level;
     posture_line := posture_line_of global_level;
     highest_line := highest_line_of (highest_cp st);
     counts_line := counts_line_of (counts st) |}.

(** [assess_operational_impact]: reads the three factor scores and the level
    of an entry. *)
Definition assess_operational_impact (cp : entry) : string :=
  let r := risk_of cp in
  let wind := factor_wind (factors_of r) in
  let vis := factor_visibility (factors_of r) in
  let precip := factor_precipitation (factors_of r) in
  let level := level r in
  let impacts :=
    ((if wind >=? 30 then
        ["High winds may affect vessel maneuverability and transit safety."]
      else if wind >=? 15 then
        ["Elevated winds could require increased caution during transits."]
      else [])
     ++
     (if vis >=? 10 then
        ["Reduced visibility may slow traffic and increase collision risk."]
      else if vis >=? 5 then
        ["Visibility degradation may require speed reductions and tighter traffic control."]
      else [])
     ++
     (if precip >=? 10 then
        ["Heavy precipitation may degrade sensor performance and complicate navigation."]
      else if precip >=? 5 then
        ["Precipitation may reduce situational awareness and increase workload on bridge teams."]
      else []))%list in
  match impacts with
  | [] =>
      match level with
      | low =>
          "No significant weather-driven operational impacts are expected at this chokepoint."
      | _ =>
          "Weather conditions may require routine caution but are not assessed as significantly disruptive."
      end
  | _ => String.concat " " impacts
  end.

(** The colour of one cell of the 24-hour strip in [generate_html_dashboard]. *)
Definition strip_color (level : risk_level) : string :=
  match level with
  | low => "#2ECC71"
  | moderate => "#F1C40F"
  | high => "#E74C3C"
  end.

End Chokepoint.

(** ** PortOperationsWeatherDashboard.py *)

Module PortOps.

(** [extract_24h] *)
Definition extract_24h (hourly : hourly) : result (list hour) :=
  for_each (fun i =>
    ts <- getkey (time hourly) ;; t <- getitem ts i ;;
    temps <- getkey (temperature_2m hourly) ;; temp <- getitem temps i ;;
    ws <- getkey (windspeed_10m hourly) ;; wind <- getitem ws i ;;
    vs <- getkey (visibility hourly) ;; vis <- getitem vs i ;;
    ps <- getkey (precipitation hourly) ;; precip <- getitem ps i ;;
    Ok {| hour_time := t; hour_temp := temp; hour_wind := wind;
          hour_vis := vis; hour_precip := precip |})
    (range 24).

(** WIND SCORE (0-50) *)
Definition wind_score_of (wind : Q) : Z :=
  if leb wind 15 then 0
  else if leb wind 25 then 10
  else if leb wind 35 then 20
  else if leb wind 45 then 35
  else 50.

(** VISIBILITY SCORE (0-30) *)
Definition vis_score_of (vis : Q) : Z :=
  if gtb vis 10000 then 0
  else if gtb vis 5000 then 5
  else if gtb vis 2000 then 10
  else if gtb vis 500 then 20
  else 30.

(** PRECIP SCORE (0-20) *)
Definition precip_score_of (precip : Q) : Z :=
  if leb precip 0.5 then 0
  else if leb precip 2 then 5
  else if leb precip 5 then 10
  else if leb precip 10 then 15
  else 20.

Definition score_of (wind_score vis_score precip_score : Z) : Z :=
  Z.min (wind_score + vis_score + precip_score) 100.

Definition level_of (score : Z) : risk_level :=
  if score <? 30 then low
  else if score <? 60 then moderate
  else high.

Definition color_of (score : Z) : string :=
  if score <? 30 then "#2ECC71"
  else if score <? 60 then "#F1C40F"
  else "#E74C3C".

Definition drivers (wind_score vis_score precip_score : Z) : dict string Z :=
  dict_set String.eqb "precipitation" precip_score
    (dict_set String.eqb "visibility" vis_score
       (dict_set String.eqb "wind" wind_score [])).

Definition dominant_of (wind_score vis_score precip_score : Z) : result string :=
  max_key (drivers wind_score vis_score precip_score).

Definition outlook_of (wind wind_future : Q) : string :=
  let trend := fsub wind_future wind in
  if gtb trend 5 then "Deteriorating"
  else if ltb trend (-5) then "Improving"
  else "Stable".

(** The strip loop adds the three scores without the cap at 100. *)
Definition strip_level_of (w v p : Q) : risk_level :=
  let s := wind_score_of w + vis_score_of v + precip_score_of p in
  if s <? 30 then low
  else if s <? 60 then moderate
  else high.

Definition strip_of (hourly : hourly) : result (list risk_level) :=
  for_each (fun i =>
    ws <- getkey (windspeed_10m hourly) ;; w <- getitem ws i ;;
    vs <- getkey (visibility hourly) ;; v <- getitem vs i ;;
    ps <- getkey (precipitation hourly) ;; p <- getitem ps i ;;
    Ok (strip_level_of w v p))
    (range 24).

Record risk : Type := {
  score : Z;
  level : risk_level;
  color : string;
  dominant_driver : string;
  outlook_6h : string;
  hourly_risk_strip : list risk_level;
  tdi_score : Z;
  tdi_category : string
}.

(** [compute_risk] *)
Definition compute_risk (hourly : hourly) : result risk :=
  ws <- getkey (windspeed_10m hourly) ;; wind <- getitem ws 0 ;;
  vs <- getkey (visibility hourly) ;; vis <- getitem vs 0 ;;
  ps <- getkey (precipitation hourly) ;; precip <- getitem ps 0 ;;
  let wind_score := wind_score_of wind in
  let vis_score := vis_score_of vis in
  let precip_score := precip_score_of precip in
  let score := score_of wind_score vis_score precip_score in
  let level := level_of score in
  dominant <- dominant_of wind_score vis_score precip_score ;;
  ws' <- getkey (windspeed_10m hourly) ;; wind_future <- getitem ws' 6 ;;
  let outlook := outlook_of wind wind_future in
  strip <- strip_of hourly ;;
  Ok {| score := score;
        level := level;
        color := color_of score;
        dominant_driver := dominant;
        outlook_6h := outlook;
        hourly_risk_strip := strip;
        tdi_score := score;
        tdi_category := capitalize (level_str level) |}.

(** An element of [ports_output] as [main] builds it, before the impact
    text is attached. *)
Record entry : Type := {
  name : string;
  coords : Q * Q;
  current : current_conditions;
  forecast_24h : list hour;
  risk_of : risk
}.

Definition make_entry (port_name : string) (lat lon : Q) (h : hourly) : result entry :=
  temps <- getkey (temperature_2m h) ;; t0 <- getitem temps 0 ;;
  ws <- getkey (windspeed_10m h) ;; w0 <- getitem ws 0 ;;
  vs <- getkey (visibility h) ;; v0 <- getitem vs 0 ;;
  ps <- getkey (precipitation h) ;; p0 <- getitem ps 0 ;;
  fc <- extract_24h h ;;
  r <- compute_risk h ;;
  Ok {| name := port_name; coords := (lat, lon);
        current := {| temperature_c := t0; wind_kmh := w0;
                      visibility_m := v0; precip_mm := p0 |};
        forecast_24h := fc; risk_of := r |}.

(** [compute_global_metrics]: the variables of the loop over the ports. *)
Record scan : Type := {
  max_score : Z;
  highest : option entry;
  counts : level_counts
}.

Definition scan_init : scan :=
  {| max_score := -1; highest := None;
     counts := {| count_low := 0; count_moderate := 0; count_high := 0 |} |}.

Definition scan_step (st : scan) (p : entry) : scan :=
  let lvl := level (risk_of p) in
  let score := score (risk_of p) in
  let counts := count_incr (counts st) lvl in
  if score >? max_score st then
    {| max_score := score; highest := Some p; counts := counts |}
  else
    {| max_score := max_score st; highest := highest st; counts := counts |}.

Definition scan_all (ports : list entry) : scan :=
  fold_left scan_step ports scan_init.

Record global_metrics : Type := {
  global_level : risk_level;
  global_index : Z;
  highest_name : string;
  global_counts : level_counts
}.

Definition compute_global_metrics (ports : list entry) : global_metrics :=
  let st := scan_all ports in
  {| global_level := level_of (max_score st);
     global_index := max_score st;
     highest_name := match highest st with Some p => name p | None => "N/A" end;
     global_counts := counts st |}.

(** [assess_operational_impact]: reads the [current] block of an entry. *)
Definition assess_operational_impact (entry : entry) : string :=
  let wind := wind_kmh (current entry) in
  let vis := visibility_m (current entry) in
  let precip := precip_mm (current entry) in
  let impacts :=
    ((if gtb wind 45 then
        ["High winds may halt STS crane operations, delay pilotage, and require tug assistance for berthing."]
      else if gtb wind 35 then
        ["Elevated winds may reduce crane speeds, affect mooring integrity, and slow berthing operations."]
      else if gtb wind 25 then
        ["Moderate winds may require caution during cargo handling and vessel maneuvering."]
      else if gtb wind 15 then
        ["Light to moderate winds with minor operational impact."]
      else [])
     ++
     (if ltb vis 500 then
        ["Severely reduced visibility may suspend pilotage and restrict vessel movements."]
      else if ltb vis 2000 then
        ["Reduced visibility may slow pilot boarding and inbound traffic."]
      else [])
     ++
     (if gtb precip 10 then
        ["Heavy precipitation may halt container and bulk cargo operations."]
      else if gtb precip 5 then
        ["Rain may reduce cargo handling efficiency and slow yard operations."]
      else if gtb precip 1 then
        ["Light precipitation with minor operational impact."]
      else []))%list in
  match impacts with
  | [] =>
      "Normal operating conditions with no significant weather‑related restrictions."
  | _ => String.concat " " impacts
  end.

(** The colour of one cell of the 24-hour strip in [generate_html]. *)
Definition strip_color (lvl : risk_level) : string :=
  match lvl with
  | low => "#2ECC71"
  | moderate => "#F1C40F"
  | high => "#E74C3C"
  end.

End PortOps.

(** ** The class-based dashboard at the end of ChokepointRiskDashboard.py

    Only the roll-up of [MaritimeDashboard] is embedded; its weather and
    forecast fields are display data. *)

Module Maritime.

Inductive RiskLevel : Set := LOW | MODERATE | HIGH | CRITICAL.

Definition threshold (l : RiskLevel) : Z :=
  match l with
  | LOW => 5
  | MODERATE => 30
  | HIGH => 70
  | CRITICAL => 100
  end.

Record ChokePoint : Type := {
  name : string;
  risk_score : Z;
  transit_difficulty : Z
}.

(** [for level in RiskLevel: if score <= level.threshold: return level] *)
Definition risk_level_for (score : Z) : RiskLevel :=
  match find (fun l => score <=? threshold l) [LOW; MODERATE; HIGH; CRITICAL] with
  | Some l => l
  | None => CRITICAL
  end.

Definition get_risk_level (cp : ChokePoint) : RiskLevel :=
  risk_level_for (risk_score cp).

(** [int(sum(...) / len(...))]: the quotient truncated towards zero; for
    sums below 2^53 truncating the float quotient and truncating the exact
    one give the same integer. *)
Definition get_global_risk_index (chokepoints : list ChokePoint) : Z :=
  match chokepoints with
  | [] => 0
  | _ => Z.quot (fold_left Z.add (map risk_score chokepoints) 0)
                (Z.of_nat (List.length chokepoints))
  end.

Definition get_global_risk_level (chokepoints : list ChokePoint) : RiskLevel :=
  risk_level_for (get_global_risk_index chokepoints).

Definition get_highest_risk_chokepoint (chokepoints : list ChokePoint)
  : option ChokePoint :=
  match chokepoints with
  | [] => None
  | cp :: rest =>
      Some (fold_left (fun best c =>
              if risk_score c >? risk_score best then c else best) rest cp)
  end.

Inductive TransitDifficulty : Set := ROUTINE | CAUTION | HAZARDOUS.

Definition difficulty_threshold (d : TransitDifficulty) : Z :=
  match d with
  | ROUTINE => 10
  | CAUTION => 30
  | HAZARDOUS => 60
  end.

(** [for difficulty in TransitDifficulty: if ... <= difficulty.threshold] *)
Definition get_difficulty_level (cp : ChokePoint) : TransitDifficulty :=
  match find (fun d => transit_difficulty cp <=? difficulty_threshold d)
             [ROUTINE; CAUTION; HAZARDOUS] with
  | Some d => d
  | None => HAZARDOUS
  end.

(** The [distribution] dictionary of [get_risk_distribution]. *)
Record distribution : Type := {
  dist_low : Z;
  dist_moderate : Z;
  dist_high : Z;
  dist_critical : Z
}.

Definition distribution_step (d : distribution) (cp : ChokePoint) : distribution :=
  match get_risk_level cp with
  | LOW => {| dist_low := dist_low d + 1; dist_moderate := dist_moderate d;
              dist_high := dist_high d; dist_critical := dist_critical d |}
  | MODERATE => {| dist_low := dist_low d; dist_moderate := dist_moderate d + 1;
                   dist_high := dist_high d; dist_critical := dist_critical d |}
  | HIGH => {| dist_low := dist_low d; dist_moderate := dist_moderate d;
               dist_high := dist_high d + 1; dist_critical := dist_critical d |}
  | CRITICAL => {| dist_low := dist_low d; dist_moderate := dist_moderate d;
                   dist_high := dist_high d; dist_critical := dist_critical d + 1 |}
  end.

Definition get_risk_distribution (chokepoints : list ChokePoint) : distribution :=
  fold_left distribution_step chokepoints
    {| dist_low := 0; dist_moderate := 0; dist_high := 0; dist_critical := 0 |}.

End Maritime.

(** ** The engine as the specification words it

    Second definitions, written from the specification's sentences, to be
    compared with the functions embedded from the two scripts. *)

Module Spec.

(** An ordered list of (bound, score) pairs evaluated top to bottom, the
    first matching bound wins, with a score for "else". *)
Fixpoint step (matches : Q -> Q -> bool) (table : list (Q * Z)) (otherwise : Z)
  (value : Q) : Z :=
  match table with
  | [] => otherwise
  | (bound, s) :: table' =>
      if matches value bound then s else step matches table' otherwise value
  end.

Definition clamp (lo hi x : Z) : Z := Z.max lo (Z.min hi x).

(** Level buckets: [<30] low, [<60] moderate, else high. *)
Definition in_bucket (l : risk_level) (s : Z) : Prop :=
  match l with
  | low => s < 30
  | moderate => 30 <= s < 60
  | high => 60 <= s
  end.

(** Difficulty: [round(composite / max_possible * 100)] clamped to [0,100]. *)
Definition difficulty_index (max_possible composite : Z) : Z :=
  clamp 0 100 (Py.round (inject_Z composite / inject_Z max_possible * 100)%Q).

Inductive category : Set := routine | caution | challenging | hazardous | severe.

Definition category_of (index : Z) : category :=
  if index <? 20 then routine
  else if index <? 40 then caution
  else if index <? 60 then challenging
  else if index <? 80 then hazardous
  else severe.

(** Dominant driver: the largest contribution, ties resolved by the
    priority wind > visibility > precipitation. *)
Inductive factor : Set := wind | visibility | precipitation.

Definition dominant (w v p : Z) : factor :=
  if (v <=? w) && (p <=? w) then wind
  else if p <=? v then visibility
  else precipitation.

(** Outlook from the near window, hours [0,3), and the mid window, hours
    [3,6).  Averages and deltas are floating-point ones, as an
    implementation computes them. *)
Inductive trend : Set := stable | improving | deteriorating | mixed.

Definition at_hour (xs : list Q) (i : nat) : Q := nth i xs 0%Q.

Definition window_mean (xs : list Q) (start : nat) : Q :=
  fdiv (Py.sum [at_hour xs start; at_hour xs (start + 1); at_hour xs (start + 2)])
       3.

Definition outlook (winds vis precip : list Q) : trend :=
  let d_wind := fsub (window_mean winds 3) (window_mean winds 0) in
  let d_vis := fsub (window_mean vis 3) (window_mean vis 0) in
  let d_precip := fsub (window_mean precip 3) (window_mean precip 0) in
  let is_worsening := ltb 5 d_wind || ltb d_vis (-2000) || ltb 2 d_precip in
  let is_improving := ltb d_wind (-5) || ltb 2000 d_vis || ltb d_precip (-2) in
  match is_worsening, is_improving with
  | true, false => deteriorating
  | false, true => improving
  | true, true => mixed
  | false, false => stable
  end.

(** The reduced variant: reference-hour wind against hour+6 wind. *)
Definition wind_only_outlook (wind_now wind_plus_6 : Q) : trend :=
  let d := fsub wind_plus_6 wind_now in
  if ltb 5 d then deteriorating
  else if ltb d (-5) then improving
  else stable.

(** The two presets: per factor the comparison, the (bound, score) pairs
    and the score for "else"; and the largest possible composite. *)
Record table : Type := {
  matches : Q -> Q -> bool;
  pairs : list (Q * Z);
  otherwise : Z
}.

Definition score (t : table) (value : Q) : Z :=
  step (matches t) (pairs t) (otherwise t) value.

Record policy : Type := {
  wind_table : table;
  visibility_table : table;
  precipitation_table : table;
  max_possible : Z
}.

(** Precipitation of the chokepoint preset starts with [=0 -> 0]; the pair
    list holds the bands after it. *)
Definition chokepoint_transit : policy :=
  {| wind_table :=
       {| matches := ltb;
          pairs := [(20%Q, 5); (40%Q, 15); (60%Q, 30)]; otherwise := 40 |};
     visibility_table :=
       {| matches := gtb;
          pairs := [(10000%Q, 0); (5000%Q, 5); (1000%Q, 10)]; otherwise := 20 |};
     precipitation_table :=
       {| matches := ltb;
          pairs := [(2%Q, 5); (10%Q, 10)]; otherwise := 20 |};
     max_possible := 80 |}.

Definition port_operations : policy :=
  {| wind_table :=
       {| matches := leb;
          pairs := [(15%Q, 0); (25%Q, 10); (35%Q, 20); (45%Q, 35)];
          otherwise := 50 |};
     visibility_table :=
       {| matches := gtb;
          pairs := [(10000%Q, 0); (5000%Q, 5); (2000%Q, 10); (500%Q, 20)];
          otherwise := 30 |};
     precipitation_table :=
       {| matches := leb;
          pairs := [(0.5%Q, 0); (2%Q, 5); (5%Q, 10); (10%Q, 15)];
          otherwise := 20 |};
     max_possible := 100 |}.

(** Error taxonomy of the specification. *)
Definition InsufficientDataError : string := "InsufficientDataError".
Definition MalformedSeriesError : string := "MalformedSeriesError".

End Spec.

(** How each script prints the specification's categories. *)

Definition chokepoint_driver_label (f : Spec.factor) : string :=
  match f with
  | Spec.wind => "Wind-driven risk"
  | Spec.visibility => "Visibility degradation"
  | Spec.precipitation => "Heavy precipitation"
  end.

Definition port_driver_label (f : Spec.factor) : string :=
  match f with
  | Spec.wind => "wind"
  | Spec.visibility => "visibility"
  | Spec.precipitation => "precipitation"
  end.

Definition category_label (c : Spec.category) : string :=
  match c with
  | Spec.routine => "Routine"
  | Spec.caution => "Caution"
  | Spec.challenging => "Challenging"
  | Spec.hazardous => "Hazardous"
  | Spec.severe => "Severe"
  end.

Definition chokepoint_outlook_text (t : Spec.trend) : string :=
  match t with
  | Spec.deteriorating => "Conditions deteriorating over the next 6 hours."
  | Spec.improving => "Conditions improving over the next 6 hours."
  | Spec.mixed => "Mixed signals: some factors improving, others deteriorating."
  | Spec.stable => "Stable conditions expected over the next 6 hours."
  end.

Definition port_outlook_text (t : Spec.trend) : string :=
  match t with
  | Spec.deteriorating => "Deteriorating"
  | Spec.improving => "Improving"
  | Spec.mixed => "Mixed"
  | Spec.stable => "Stable"
  end.

(** The reading of one array of a forecast at one hour, when there is one. *)
Definition reading (array : option (list Q)) (i : nat) : option Q :=
  match array with
  | Some l => nth_error l i
  | None => None
  end.

(** ** Sample forecasts *)

(** A forecast with the three factor arrays given and as many time labels
    and temperatures as wind readings. *)
Definition forecast (winds vis precip : list Q) : hourly :=
  {| time := Some (repeat "2026-01-01T00:00" (List.length winds));
     temperature_2m := Some (repeat 20%Q (List.length winds));
     windspeed_10m := Some winds;
     visibility := Some vis;
     precipitation := Some precip |}.

(** Light wind, visibility between 5 and 10 km, no rain, all day: wind and
    visibility both contribute 5 under the chokepoint tables. *)
Definition tied_day : hourly :=
  forecast (repeat 10%Q 24) (repeat 8000%Q 24) (repeat 0%Q 24).

(** A calm clear day. *)
Definition calm_day : hourly :=
  forecast (repeat 10%Q 24) (repeat 20000%Q 24) (repeat 0%Q 24).

(** Steady wind while fog comes down from hour 3 on. *)
Definition fog_day : hourly :=
  forecast (repeat 10%Q 24) (repeat 20000%Q 3 ++ repeat 500%Q 21)%list (repeat 0%Q 24).

(** Twenty observations only. *)
Definition short_day : hourly :=
  forecast (repeat 10%Q 20) (repeat 20000%Q 20) (repeat 0%Q 20).

(** Twenty-five wind readings against twenty-four of the other factors. *)
Definition misaligned_day : hourly :=
  forecast (repeat 10%Q 25) (repeat 20000%Q 24) (repeat 0%Q 24).

(** The storm of the specification's scenario: wind 65, visibility 800,
    precipitation 12. *)
Definition storm_day : hourly :=
  forecast (repeat 65%Q 24) (repeat 800%Q 24) (repeat 12%Q 24).

(** ** Sample assessments *)

Definition no_conditions : current_conditions :=
  {| temperature_c := 0; wind_kmh := 0; visibility_m := 0; precip_mm := 0 |}.

(** A chokepoint entry carrying a given composite score. *)
Definition chokepoint_scoring (n : string) (s : Z) : Chokepoint.entry :=
  {| Chokepoint.name := n;
     Chokepoint.coords := (0%Q, 0%Q);
     Chokepoint.current := no_conditions;
     Chokepoint.forecast_24h := [];
     Chokepoint.risk_of :=
       {| Chokepoint.score := s;
          Chokepoint.level := Chokepoint.level_of s;
          Chokepoint.color := Chokepoint.color_of s;
          Chokepoint.tdi_score := Chokepoint.tdi_score_of s;
          Chokepoint.tdi_category :=
            Chokepoint.tdi_category_of (Chokepoint.tdi_score_of s);
          Chokepoint.outlook_6h :=
            "Stable conditions expected over the next 6 hours.";
          Chokepoint.dominant_driver := "Wind-driven risk";
          Chokepoint.hourly_risk_strip := [];
          Chokepoint.factors_of :=
            {| Chokepoint.factor_wind := s;
               Chokepoint.factor_visibility := 0;
               Chokepoint.factor_precipitation := 0 |} |} |}.

(** A port entry carrying a given composite score. *)
Definition port_scoring (n : string) (s : Z) : PortOps.entry :=
  {| PortOps.name := n;
     PortOps.coords := (0%Q, 0%Q);
     PortOps.current := no_conditions;
     PortOps.forecast_24h := [];
     PortOps.risk_of :=
       {| PortOps.score := s;
          PortOps.level := PortOps.level_of s;
          PortOps.color := PortOps.color_of s;
          PortOps.dominant_driver := "wind";
          PortOps.outlook_6h := "Stable";
          PortOps.hourly_risk_strip := [];
          PortOps.tdi_score := s;
          PortOps.tdi_category := capitalize (level_str (PortOps.level_of s)) |} |}.

(** The aggregation scenario: composite scores 10, 35 and 72; and a pair of
    locations sharing the largest score. *)
Definition three_chokepoints : list Chokepoint.entry :=
  [chokepoint_scoring "Suez Canal" 10; chokepoint_scoring "Panama Canal" 35;
   chokepoint_scoring "Danish Straits" 72].

Definition three_ports : list PortOps.entry :=
  [port_scoring "Port of Rotterdam" 10; port_scoring "Port of Antwerp" 35;
   port_scoring "Port of Hamburg" 72].

Definition tied_ports : list PortOps.entry :=
  [port_scoring "Port of Rotterdam" 35; port_scoring "Port of Antwerp" 72;
   port_scoring "Port of Hamburg" 72].

Definition three_maritime : list Maritime.ChokePoint :=
  [ {| Maritime.name := "Suez Canal"; Maritime.risk_score := 10;
       Maritime.transit_difficulty := 12 |};
    {| Maritime.name := "Panama Canal"; Maritime.risk_score := 35;
       Maritime.transit_difficulty := 44 |};
    {| Maritime.name := "Danish Straits"; Maritime.risk_score := 72;
       Maritime.transit_difficulty := 90 |} ].

(** ** Orders and tallies used to state the properties *)

(** Severity order of the three levels. *)
Definition level_rank (l : risk_level) : Z :=
  match l with
  | low => 0
  | moderate => 1
  | high => 2
  end.

Definition level_eqb (a b : risk_level) : bool :=
  match a, b with
  | low, low | moderate, moderate | high, high => true
  | _, _ => false
  end.

(** How many of the given levels are [l]. *)
Definition tally (l : risk_level) (levels : list risk_level) : Z :=
  Z.of_nat (List.length (filter (level_eqb l) levels)).

Definition maritime_rank (l : Maritime.RiskLevel) : Z :=
  match l with
  | Maritime.LOW => 0
  | Maritime.MODERATE => 1
  | Maritime.HIGH => 2
  | Maritime.CRITICAL => 3
  end.

Definition maritime_eqb (a b : Maritime.RiskLevel) : bool :=
  (maritime_rank a =? maritime_rank b).

Definition maritime_tally (l : Maritime.RiskLevel) (cps : list Maritime.ChokePoint) : Z :=
  Z.of_nat (List.length
    (filter (fun cp => maritime_eqb l (Maritime.get_risk_level cp)) cps)).

(** The fixed texts of the two impact assessments that report no impact. *)
Definition chokepoint_no_impact : string :=
  "No significant weather-driven operational impacts are expected at this chokepoint.".

Definition chokepoint_routine_caution : string :=
  "Weather conditions may require routine caution but are not assessed as significantly disruptive.".

Definition port_normal_conditions : string :=
  "Normal operating conditions with no significant weather‑related restrictions.".

(** Moderate wind and haze all day, with a shower in hour 5. *)
Definition rainy_day : hourly :=
  forecast (repeat 25%Q 24) (repeat 3000%Q 24)
    (repeat 0%Q 5 ++ [4%Q] ++ repeat 1%Q 18)%list.

(** The same wind and haze with precipitation readings below zero in every
    hour but the last. *)
Definition glitch_day : hourly :=
  forecast (repeat 25%Q 24) (repeat 3000%Q 24) (repeat (-1)%Q 23 ++ [0%Q])%list.

(** A week of hourly readings: more than the 24 the scripts look at. *)
Definition long_calm_week : hourly :=
  forecast (repeat 10%Q 24 ++ repeat 90%Q 144)%list
    (repeat 20000%Q 24 ++ repeat 100%Q 144)%list
    (repeat 0%Q 24 ++ repeat 30%Q 144)%list.

Definition tied_maritime : list Maritime.ChokePoint :=
  [ {| Maritime.name := "Bab el-Mandeb"; Maritime.risk_score := 30;
       Maritime.transit_difficulty := 38 |};
    {| Maritime.name := "Strait of Hormuz"; Maritime.risk_score := 20;
       Maritime.transit_difficulty := 25 |};
    {| Maritime.name := "Danish Straits"; Maritime.risk_score := 30;
       Maritime.transit_difficulty := 38 |} ].

(** * Properties *)

(** ** Comparisons and a tactic for the threshold chains *)

Lemma ltb_true_iff (x y : Q) : ltb x y = true <-> (x < y)%Q.
Proof.
  unfold ltb. rewrite negb_true_iff, <- not_true_iff_false, Qle_bool_iff.
  split; [apply Qnot_le_lt | apply Qlt_not_le].
Qed.

Lemma ltb_false_iff (x y : Q) : ltb x y = false <-> (y <= x)%Q.
Proof.
  unfold ltb. rewrite negb_false_iff. apply Qle_bool_iff.
Qed.

Lemma leb_true_iff (x y : Q) : leb x y = true <-> (x <= y)%Q.
Proof. apply Qle_bool_iff. Qed.

Lemma leb_false_iff (x y : Q) : leb x y = false <-> (y < x)%Q.
Proof.
  unfold leb. rewrite <- not_true_iff_false, Qle_bool_iff.
  split; [apply Qnot_le_lt | apply Qlt_not_le].
Qed.

Lemma eqb_true_iff (x y : Q) : eqb x y = true <-> (x == y)%Q.
Proof. apply Qeq_bool_iff. Qed.

Lemma eqb_false_iff (x y : Q) : eqb x y = false <-> ~ (x == y)%Q.
Proof.
  unfold eqb. rewrite <- not_true_iff_false, Qeq_bool_iff. tauto.
Qed.

#[global] Instance ltb_proper : Proper (Qeq ==> Qeq ==> eq) ltb.
Proof. intros x x' Hx y y' Hy. unfold ltb. now rewrite Hx, Hy. Qed.

#[global] Instance gtb_proper : Proper (Qeq ==> Qeq ==> eq) gtb.
Proof. intros x x' Hx y y' Hy. unfold gtb. now rewrite Hx, Hy. Qed.

(** Turn every comparison met along a chain into a fact about rationals. *)
Ltac chain_facts :=
  repeat match goal with
  | H : ltb _ _ = true |- _ => apply ltb_true_iff in H
  | H : ltb _ _ = false |- _ => apply ltb_false_iff in H
  | H : leb _ _ = true |- _ => apply leb_true_iff in H
  | H : leb _ _ = false |- _ => apply leb_false_iff in H
  | H : eqb _ _ = true |- _ => apply eqb_true_iff in H
  | H : eqb _ _ = false |- _ => apply eqb_false_iff in H
  end.

Ltac split_chain :=
  repeat match goal with
  | |- context [ltb ?a ?b] => destruct (ltb a b) eqn:?
  | |- context [leb ?a ?b] => destruct (leb a b) eqn:?
  | |- context [eqb ?a ?b] => destruct (eqb a b) eqn:?
  end.

Ltac chain := unfold gtb in *; split_chain; chain_facts; try lia; try lra.

(** ** The Python fragment *)

Example round_half_even : Py.round (25 # 2) = 12 /\ Py.round (75 # 2) = 38
  /\ Py.round (625 # 100) = 6 /\ Py.round (-(1 # 2)) = 0 /\ Py.round (3 # 2) = 2.
Proof. repeat split; reflexivity. Qed.

Example str_int_ex : Py.str_int 72 = "72" /\ Py.str_int 0 = "0".
Proof. split; reflexivity. Qed.

Example capitalize_ex : Py.capitalize "moderate" = "Moderate".
Proof. reflexivity. Qed.

(** ** Chokepoint step tables *)

Lemma wind_risk_mono (w1 w2 : Q) :
  (w1 <= w2)%Q -> Chokepoint.wind_risk_of w1 <= Chokepoint.wind_risk_of w2.
Proof. intros H. unfold Chokepoint.wind_risk_of. chain. Qed.

Lemma vis_risk_antimono (v1 v2 : Q) :
  (v1 <= v2)%Q -> Chokepoint.vis_risk_of v2 <= Chokepoint.vis_risk_of v1.
Proof. intros H. unfold Chokepoint.vis_risk_of. chain. Qed.

Lemma precip_risk_mono (p1 p2 : Q) :
  (0 <= p1)%Q -> (p1 <= p2)%Q ->
  Chokepoint.precip_risk_of p1 <= Chokepoint.precip_risk_of p2.
Proof. intros H0 H. unfold Chokepoint.precip_risk_of. chain. Qed.

Lemma wind_risk_range (w : Q) : 5 <= Chokepoint.wind_risk_of w <= 40.
Proof. unfold Chokepoint.wind_risk_of. chain. Qed.

Lemma vis_risk_range (v : Q) : 0 <= Chokepoint.vis_risk_of v <= 20.
Proof. unfold Chokepoint.vis_risk_of. chain. Qed.

Lemma precip_risk_range (p : Q) : 0 <= Chokepoint.precip_risk_of p <= 20.
Proof. unfold Chokepoint.precip_risk_of. chain. Qed.

(** A precipitation amount is never negative.  A reading below zero, which
    no forecast supplies, is not [== 0] and is [< 2], so it would score 5,
    above the score 0 of the reading 0: the condition [0 <= p] of the
    monotonicity statement below cannot be dropped. *)
Lemma precip_risk_not_monotone_below_zero :
  ~ (forall p1 p2 : Q, (p1 <= p2)%Q ->
       Chokepoint.precip_risk_of p1 <= Chokepoint.precip_risk_of p2).
Proof.
  intros H. specialize (H (-1)%Q 0%Q).
  assert (Hle : (-1 <= 0)%Q) by (unfold Qle; simpl; lia).
  apply H in Hle. vm_compute in Hle. apply Hle. reflexivity.
Qed.

(** C2: under the chokepoint tables every reading is scored by the stated
    step tables, with the stated scores at the boundary readings (wind 20
    scores 15 and 19.99 scores 5, wind 60 scores 40 and 59.99 scores 30,
    visibility 10000 scores 5 and 10000.01 scores 0, precipitation 0 scores 0
    and 0.01 scores 5); every score stays within its maximum (wind 40,
    visibility 20, precipitation 20); and each score is monotonic in the
    risk direction: the wind score does not decrease when wind rises, the
    visibility score does not decrease when visibility falls, the
    precipitation score does not decrease when the precipitation amount
    (never negative) rises. *)
Theorem chokepoint_factor_tables (w v p : Q) :
  (Chokepoint.wind_risk_of w
     = Spec.score (Spec.wind_table Spec.chokepoint_transit) w
   /\ Chokepoint.vis_risk_of v
     = Spec.score (Spec.visibility_table Spec.chokepoint_transit) v
   /\ Chokepoint.precip_risk_of p
     = if eqb p 0 then 0
       else Spec.score (Spec.precipitation_table Spec.chokepoint_transit) p)
  /\ (Chokepoint.wind_risk_of 20 = 15 /\ Chokepoint.wind_risk_of 19.99 = 5
      /\ Chokepoint.wind_risk_of 60 = 40 /\ Chokepoint.wind_risk_of 59.99 = 30
      /\ Chokepoint.vis_risk_of 10000 = 5 /\ Chokepoint.vis_risk_of 10000.01 = 0
      /\ Chokepoint.precip_risk_of 0 = 0 /\ Chokepoint.precip_risk_of 0.01 = 5)
  /\ (0 <= Chokepoint.wind_risk_of w <= 40
      /\ 0 <= Chokepoint.vis_risk_of v <= 20
      /\ 0 <= Chokepoint.precip_risk_of p <= 20)
  /\ (forall w' : Q, (w <= w')%Q ->
        Chokepoint.wind_risk_of w <= Chokepoint.wind_risk_of w')
  /\ (forall v' : Q, (v <= v')%Q ->
        Chokepoint.vis_risk_of v' <= Chokepoint.vis_risk_of v)
  /\ (forall p' : Q, (0 <= p)%Q -> (p <= p')%Q ->
        Chokepoint.precip_risk_of p <= Chokepoint.precip_risk_of p').
Proof.
  split; [ repeat split; reflexivity | ].
  split; [ repeat split; reflexivity | ].
  split.
  - pose proof (wind_risk_range w). pose proof (vis_risk_range v).
    pose proof (precip_risk_range p). lia.
  - split; [ intros w'; apply wind_risk_mono | ].
    split; [ intros v'; apply vis_risk_antimono | ].
    intros p'. apply precip_risk_mono.
Qed.

Lemma chokepoint_factor_tables_witness :
  Chokepoint.wind_risk_of 10 <= Chokepoint.wind_risk_of 30
  /\ Chokepoint.vis_risk_of 20000 <= Chokepoint.vis_risk_of 500
  /\ Chokepoint.precip_risk_of 0 <= Chokepoint.precip_risk_of 5.
Proof.
  destruct (chokepoint_factor_tables 10 500 0) as (_ & _ & _ & Hw & Hv & Hp).
  split; [ apply (Hw 30%Q); unfold Qle; simpl; lia | ].
  split; [ apply (Hv 20000%Q); unfold Qle; simpl; lia | ].
  apply (Hp 5%Q); unfold Qle; simpl; lia.
Defined.

(** ** Port operations step tables *)

Lemma wind_score_range (w : Q) : 0 <= PortOps.wind_score_of w <= 50.
Proof. unfold PortOps.wind_score_of. chain. Qed.

Lemma vis_score_range (v : Q) : 0 <= PortOps.vis_score_of v <= 30.
Proof. unfold PortOps.vis_score_of. chain. Qed.

Lemma precip_score_range (p : Q) : 0 <= PortOps.precip_score_of p <= 20.
Proof. unfold PortOps.precip_score_of. chain. Qed.

(** C3: under the port tables every reading is scored by the stated step
    tables (inclusive upper bounds for wind and precipitation, exclusive lower
    bounds for visibility), wind 15 scores 0 and 15.01 scores 10, wind 45
    scores 35 and 45.01 scores 50, and the scores stay within 50, 30, 20. *)
Theorem port_factor_tables (w v p : Q) :
  (PortOps.wind_score_of w
     = Spec.score (Spec.wind_table Spec.port_operations) w
   /\ PortOps.vis_score_of v
     = Spec.score (Spec.visibility_table Spec.port_operations) v
   /\ PortOps.precip_score_of p
     = Spec.score (Spec.precipitation_table Spec.port_operations) p)
  /\ (PortOps.wind_score_of 15 = 0 /\ PortOps.wind_score_of 15.01 = 10
      /\ PortOps.wind_score_of 45 = 35 /\ PortOps.wind_score_of 45.01 = 50)
  /\ (0 <= PortOps.wind_score_of w <= 50
      /\ 0 <= PortOps.vis_score_of v <= 30
      /\ 0 <= PortOps.precip_score_of p <= 20).
Proof.
  split; [ repeat split; reflexivity | ].
  split; [ repeat split; reflexivity | ].
  pose proof (wind_score_range w). pose proof (vis_score_range v).
  pose proof (precip_score_range p). lia.
Qed.

(** ** Dominant driver *)

Ltac no_branch t :=
  lazymatch t with
  | context [if _ then _ else _] => fail
  | _ => idtac
  end.

Ltac int_cases :=
  repeat (match goal with
  | |- context [Z.eqb ?a ?b] =>
      no_branch a; no_branch b; destruct (Z.eqb_spec a b)
  | |- context [Z.gtb ?a ?b] =>
      no_branch a; no_branch b; destruct (Z.gtb_spec a b)
  | |- context [Z.leb ?a ?b] =>
      no_branch a; no_branch b; destruct (Z.leb_spec a b)
  | |- context [Z.ltb ?a ?b] =>
      no_branch a; no_branch b; destruct (Z.ltb_spec a b)
  end; try subst; cbn [fst snd andb orb negb]);
  try reflexivity; try lia.

(** The port script resolves the driver as the specification asks: the
    largest score, and on equal largest scores wind before visibility before
    precipitation. *)
Lemma port_dominant_priority (w v p : Z) :
  PortOps.dominant_of w v p = Ok (port_driver_label (Spec.dominant w v p)).
Proof.
  unfold PortOps.dominant_of, PortOps.drivers, max_key, Spec.dominant.
  cbn. int_cases.
Qed.

(** The chokepoint script keys its dictionary by the scores, so a later
    factor with an equal score replaces the label of an earlier one: the
    label returned is that of the last factor holding the largest score. *)
Lemma chokepoint_dominant_last_wins (w v p : Z) :
  Chokepoint.dominant_driver_of w v p =
  Ok (if (w <=? p) && (v <=? p) then "Heavy precipitation"
      else if w <=? v then "Visibility degradation"
      else "Wind-driven risk").
Proof.
  unfold Chokepoint.dominant_driver_of, Chokepoint.driver_map, max_int, keys.
  do 4 (cbn; int_cases).
Qed.

Lemma chokepoint_dominant_strict (w v p : Z) :
  Chokepoint.dominant_driver_of w v p =
  Ok (chokepoint_driver_label (Spec.dominant w v p))
  <-> (w = Z.max w (Z.max v p) -> v < w /\ p < w)
      /\ (v = Z.max w (Z.max v p) -> p < v).
Proof.
  rewrite chokepoint_dominant_last_wins. unfold Spec.dominant.
  split.
  - int_cases; cbn; intros Heq; try discriminate; lia.
  - intros [Hw Hv]. int_cases; cbn; try reflexivity; exfalso; lia.
Qed.

(** C1: on the forecast [tied_day] the chokepoint script scores wind 5,
    visibility 5 and precipitation 0, and names visibility as the dominant
    driver, where the priority wind > visibility > precipitation names wind. *)
Theorem chokepoint_tie_names_visibility :
  exists r,
    Chokepoint.compute_risk tied_day = Ok r
    /\ Chokepoint.factors_of r
       = {| Chokepoint.factor_wind := 5; Chokepoint.factor_visibility := 5;
            Chokepoint.factor_precipitation := 0 |}
    /\ Chokepoint.dominant_driver r = "Visibility degradation"
    /\ chokepoint_driver_label (Spec.dominant 5 5 0) = "Wind-driven risk".
Proof.
  eexists. split; [ vm_compute; reflexivity | ]. repeat split.
Qed.

(** ** Unfolding a successful run *)

Lemma bind_ok {A B} (m : result A) (k : A -> result B) (b : B) :
  bind m k = Ok b -> exists a, m = Ok a /\ k a = Ok b.
Proof. destruct m as [a | e]; cbn; intros H; [ eauto | discriminate ]. Qed.

Lemma getkey_ok {A} (field : option A) (a : A) :
  getkey field = Ok a -> field = Some a.
Proof. destruct field; cbn; congruence. Qed.

Lemma getitem_ok {A} (l : list A) (i : nat) (a : A) :
  getitem l i = Ok a -> nth_error l i = Some a.
Proof. unfold getitem. destruct (nth_error l i); congruence. Qed.

Ltac unbind H :=
  let a := fresh "a" in
  let Ha := fresh "Ha" in
  apply bind_ok in H; destruct H as (a & Ha & H).

Lemma chokepoint_run (h : hourly) (r : Chokepoint.risk) :
  Chokepoint.compute_risk h = Ok r ->
  exists all_winds all_vis all_precip max_wind min_vis max_precip,
    let winds := slice all_winds 0 24 in
    let vis := slice all_vis 0 24 in
    let precip := slice all_precip 0 24 in
    let wind_risk := Chokepoint.wind_risk_of max_wind in
    let vis_risk := Chokepoint.vis_risk_of min_vis in
    let precip_risk := Chokepoint.precip_risk_of max_precip in
    windspeed_10m h = Some all_winds
    /\ visibility h = Some all_vis
    /\ precipitation h = Some all_precip
    /\ Py.max winds = Ok max_wind
    /\ Py.min vis = Ok min_vis
    /\ Py.max precip = Ok max_precip
    /\ Chokepoint.hourly_risk_strip_of winds vis precip
       = Ok (Chokepoint.hourly_risk_strip r)
    /\ Chokepoint.dominant_driver_of wind_risk vis_risk precip_risk
       = Ok (Chokepoint.dominant_driver r)
    /\ Chokepoint.factors_of r
       = {| Chokepoint.factor_wind := wind_risk;
            Chokepoint.factor_visibility := vis_risk;
            Chokepoint.factor_precipitation := precip_risk |}
    /\ Chokepoint.score r = wind_risk + vis_risk + precip_risk
    /\ Chokepoint.level r = Chokepoint.level_of (Chokepoint.score r)
    /\ Chokepoint.tdi_score r = Chokepoint.tdi_score_of (Chokepoint.score r)
    /\ Chokepoint.tdi_category r
       = Chokepoint.tdi_category_of (Chokepoint.tdi_score r)
    /\ Chokepoint.outlook_6h r = Chokepoint.outlook_of winds vis precip.
Proof.
  unfold Chokepoint.compute_risk. intros H.
  unbind H. unbind H. unbind H. unbind H. unbind H. unbind H. unbind H. unbind H.
  injection H as <-. cbn.
  repeat match goal with
         | K : getkey _ = Ok _ |- _ => apply getkey_ok in K
         end.
  do 6 eexists. repeat split; eassumption.
Qed.

Lemma port_run (h : hourly) (r : PortOps.risk) :
  PortOps.compute_risk h = Ok r ->
  exists wind vis precip wind_future,
    let wind_score := PortOps.wind_score_of wind in
    let vis_score := PortOps.vis_score_of vis in
    let precip_score := PortOps.precip_score_of precip in
    reading (windspeed_10m h) 0 = Some wind
    /\ reading (visibility h) 0 = Some vis
    /\ reading (precipitation h) 0 = Some precip
    /\ reading (windspeed_10m h) 6 = Some wind_future
    /\ PortOps.strip_of h = Ok (PortOps.hourly_risk_strip r)
    /\ PortOps.dominant_of wind_score vis_score precip_score
       = Ok (PortOps.dominant_driver r)
    /\ PortOps.score r = PortOps.score_of wind_score vis_score precip_score
    /\ PortOps.level r = PortOps.level_of (PortOps.score r)
    /\ PortOps.tdi_score r = PortOps.score r
    /\ PortOps.tdi_category r = capitalize (level_str (PortOps.level r))
    /\ PortOps.outlook_6h r = PortOps.outlook_of wind wind_future.
Proof.
  unfold PortOps.compute_risk. intros H.
  do 10 unbind H.
  injection H as <-.
  repeat match goal with
         | K : getkey _ = Ok _ |- _ => apply getkey_ok in K
         | K : getitem _ _ = Ok _ |- _ => apply getitem_ok in K
         end.
  match goal with
  | K1 : windspeed_10m h = Some ?x, K2 : windspeed_10m h = Some ?y |- _ =>
      rewrite K1 in K2; injection K2 as <-
  end.
  unfold reading.
  repeat match goal with
         | K : _ h = Some _ |- _ => rewrite K
         end.
  do 4 eexists. repeat split; first [ eassumption | reflexivity ].
Qed.

(** ** Composite score and level *)

Lemma level_in_bucket (s : Z) : Spec.in_bucket (Chokepoint.level_of s) s.
Proof. unfold Chokepoint.level_of. int_cases; cbn; lia. Qed.

Lemma bucket_is_level (l : risk_level) (s : Z) :
  Spec.in_bucket l s -> l = Chokepoint.level_of s.
Proof. unfold Chokepoint.level_of. destruct l; cbn; intros H; int_cases. Qed.

Lemma hr_score_range (w v p : Q) : 5 <= Chokepoint.hr_score_of w v p <= 80.
Proof.
  unfold Chokepoint.hr_score_of.
  pose proof (wind_risk_range w). pose proof (vis_risk_range v).
  pose proof (precip_risk_range p). lia.
Qed.

Lemma port_sum_range (w v p : Q) :
  0 <= PortOps.wind_score_of w + PortOps.vis_score_of v
       + PortOps.precip_score_of p <= 100.
Proof.
  pose proof (wind_score_range w). pose proof (vis_score_range v).
  pose proof (precip_score_range p). lia.
Qed.

(** C4: the composite of a run is the sum of its three contributions, which
    is also that sum clamped to [0, max_possible] (80 for the chokepoint
    tables, 100 for the port tables); the same holds for the score of any
    three readings; the level is low below 30, moderate below 60 and high
    from 60 on, so that every score lies in exactly one bucket, with 29 low,
    30 and 59 moderate and 60 high. *)
Theorem composite_and_level
  (hc hp : hourly) (rc : Chokepoint.risk) (rp : PortOps.risk) (w v p : Q) (s : Z) :
  Chokepoint.compute_risk hc = Ok rc ->
  PortOps.compute_risk hp = Ok rp ->
  (let f := Chokepoint.factors_of rc in
   Chokepoint.score rc
   = Spec.clamp 0 (Spec.max_possible Spec.chokepoint_transit)
       (Chokepoint.factor_wind f + Chokepoint.factor_visibility f
        + Chokepoint.factor_precipitation f)
   /\ Chokepoint.level rc = Chokepoint.level_of (Chokepoint.score rc))
  /\ (exists w0 v0 p0,
        reading (windspeed_10m hp) 0 = Some w0
        /\ reading (visibility hp) 0 = Some v0
        /\ reading (precipitation hp) 0 = Some p0
        /\ PortOps.score rp
           = Spec.clamp 0 (Spec.max_possible Spec.port_operations)
               (PortOps.wind_score_of w0 + PortOps.vis_score_of v0
                + PortOps.precip_score_of p0)
        /\ PortOps.level rp = PortOps.level_of (PortOps.score rp))
  /\ (Chokepoint.hr_score_of w v p
      = Spec.clamp 0 (Spec.max_possible Spec.chokepoint_transit)
          (Chokepoint.wind_risk_of w + Chokepoint.vis_risk_of v
           + Chokepoint.precip_risk_of p)
      /\ PortOps.score_of (PortOps.wind_score_of w) (PortOps.vis_score_of v)
           (PortOps.precip_score_of p)
         = Spec.clamp 0 (Spec.max_possible Spec.port_operations)
             (PortOps.wind_score_of w + PortOps.vis_score_of v
              + PortOps.precip_score_of p))
  /\ (PortOps.level_of s = Chokepoint.level_of s
      /\ Spec.in_bucket (Chokepoint.level_of s) s
      /\ forall l, Spec.in_bucket l s -> l = Chokepoint.level_of s)
  /\ (Chokepoint.level_of 29 = low /\ Chokepoint.level_of 30 = moderate
      /\ Chokepoint.level_of 59 = moderate /\ Chokepoint.level_of 60 = high).
Proof.
  intros Hc Hp.
  apply chokepoint_run in Hc.
  destruct Hc as (aw & av & ap & mw & mv & mp & Hc). cbn zeta in Hc.
  destruct Hc as (_ & _ & _ & _ & _ & _ & _ & _ & Hf & Hs & Hl & _).
  apply port_run in Hp.
  destruct Hp as (w0 & v0 & p0 & w6 & Hp). cbn zeta in Hp.
  destruct Hp as (Hw0 & Hv0 & Hp0 & _ & _ & _ & Hps & Hpl & _).
  unfold Spec.clamp. cbn [Spec.max_possible Spec.chokepoint_transit Spec.port_operations].
  split.
  { cbn zeta. rewrite Hf. cbn [Chokepoint.factor_wind Chokepoint.factor_visibility
                                 Chokepoint.factor_precipitation].
    split; [ | exact Hl ].
    rewrite Hs. pose proof (hr_score_range mw mv mp) as R.
    unfold Chokepoint.hr_score_of in R. lia. }
  split.
  { exists w0, v0, p0. repeat split; try assumption.
    rewrite Hps. unfold PortOps.score_of.
    pose proof (port_sum_range w0 v0 p0). lia. }
  split.
  { pose proof (hr_score_range w v p) as R. unfold Chokepoint.hr_score_of in *.
    pose proof (port_sum_range w v p). unfold PortOps.score_of. lia. }
  split.
  { split; [ reflexivity | ].
    split; [ apply level_in_bucket | intros l; apply bucket_is_level ]. }
  repeat split.
Qed.

Lemma composite_and_level_witness :
  exists rc rp,
    Chokepoint.compute_risk storm_day = Ok rc
    /\ PortOps.compute_risk calm_day = Ok rp
    /\ Chokepoint.score rc = 80 /\ Chokepoint.level rc = high
    /\ PortOps.score rp = 0 /\ PortOps.level rp = low
    /\ Chokepoint.level rc = Chokepoint.level_of (Chokepoint.score rc).
Proof.
  do 2 eexists.
  split; [ vm_compute; reflexivity | ].
  split; [ vm_compute; reflexivity | ].
  do 4 (split; [ reflexivity | ]).
  eapply (composite_and_level storm_day calm_day _ _ 0 0 0 29);
    vm_compute; reflexivity.
Defined.

(** ** Rounding and the transit difficulty index *)

#[global] Instance round_proper : Proper (Qeq ==> eq) Py.round.
Proof.
  intros x y Hxy. unfold Py.round.
  rewrite (Qfloor_comp x y Hxy).
  assert (Hd : (x - inject_Z (Qfloor y) == y - inject_Z (Qfloor y))%Q)
    by (rewrite Hxy; reflexivity).
  rewrite (ltb_proper _ _ Hd _ _ (Qeq_refl _)).
  rewrite (ltb_proper _ _ (Qeq_refl (1 # 2)) _ _ Hd).
  reflexivity.
Qed.

Lemma round_near (x : Q) :
  (inject_Z (Py.round x) - (1 # 2) <= x)%Q
  /\ (x <= inject_Z (Py.round x) + (1 # 2))%Q.
Proof.
  unfold Py.round.
  pose proof (Qfloor_le x) as Hlo. pose proof (Qlt_floor x) as Hhi.
  rewrite inject_Z_plus in Hhi. change (inject_Z 1) with 1%Q in Hhi.
  set (f := Qfloor x) in *.
  destruct (ltb (x - inject_Z f) (1 # 2)) eqn:E1;
    [ | destruct (ltb (1 # 2) (x - inject_Z f)) eqn:E2;
        [ | destruct (Z.even f) ] ];
    chain_facts;
    rewrite ?inject_Z_plus; change (inject_Z 1) with 1%Q; split; lra.
Qed.

Lemma round_mono (x y : Q) : (x <= y)%Q -> Py.round x <= Py.round y.
Proof.
  intros Hxy.
  destruct (Z.le_gt_cases (Py.round x) (Py.round y)) as [ | Hgt ]; [ assumption | ].
  exfalso.
  destruct (round_near x) as [Hx _]. destruct (round_near y) as [_ Hy].
  assert (Hstep : (inject_Z (Py.round y) + 1 <= inject_Z (Py.round x))%Q).
  { change 1%Q with (inject_Z 1). rewrite <- inject_Z_plus, <- Zle_Qle. lia. }
  assert (Heq : (x == y)%Q) by lra.
  rewrite Heq in Hgt. lia.
Qed.

Lemma round_int (n : Z) : Py.round (inject_Z n) = n.
Proof.
  unfold Py.round. rewrite Qfloor_Z.
  destruct (ltb (inject_Z n - inject_Z n) (1 # 2)) eqn:E; [ reflexivity | ].
  chain_facts. lra.
Qed.

Lemma tdi_score_mono (s t : Z) :
  s <= t -> Chokepoint.tdi_score_of s <= Chokepoint.tdi_score_of t.
Proof.
  intros H. unfold Chokepoint.tdi_score_of. apply round_mono.
  rewrite Zle_Qle in H. unfold Qdiv.
  repeat apply Qmult_le_compat_r; [ exact H | | ]; unfold Qle; simpl; lia.
Qed.

Lemma tdi_score_range (s : Z) :
  0 <= s <= 80 -> 0 <= Chokepoint.tdi_score_of s <= 100.
Proof.
  intros [H0 H80].
  apply tdi_score_mono in H0. apply tdi_score_mono in H80.
  change (Chokepoint.tdi_score_of 0) with 0 in H0.
  change (Chokepoint.tdi_score_of 80) with 100 in H80. lia.
Qed.

Lemma tdi_category_five_way (i : Z) :
  Chokepoint.tdi_category_of i = category_label (Spec.category_of i).
Proof. unfold Chokepoint.tdi_category_of, Spec.category_of. int_cases. Qed.

Lemma port_index_is_score (s : Z) :
  0 <= s <= 100 -> Spec.difficulty_index 100 s = s.
Proof.
  intros H. unfold Spec.difficulty_index, Spec.clamp.
  assert (E : (inject_Z s / inject_Z 100 * 100 == inject_Z s)%Q).
  { change (inject_Z 100) with 100%Q. field. }
  rewrite E, round_int. lia.
Qed.

Lemma chokepoint_score_range (h : hourly) (r : Chokepoint.risk) :
  Chokepoint.compute_risk h = Ok r -> 5 <= Chokepoint.score r <= 80.
Proof.
  intros H. apply chokepoint_run in H.
  destruct H as (aw & av & ap & mw & mv & mp & H). cbn zeta in H.
  destruct H as (_ & _ & _ & _ & _ & _ & _ & _ & _ & Hs & _).
  rewrite Hs. apply hr_score_range.
Qed.

Lemma port_score_range (h : hourly) (r : PortOps.risk) :
  PortOps.compute_risk h = Ok r -> 0 <= PortOps.score r <= 100.
Proof.
  intros H. apply port_run in H.
  destruct H as (w & v & p & w6 & H). cbn zeta in H.
  destruct H as (_ & _ & _ & _ & _ & _ & Hs & _).
  rewrite Hs. unfold PortOps.score_of.
  pose proof (port_sum_range w v p). lia.
Qed.

(** C5, as stated, fails for the port script: on a calm day the index is 0
    and the category it reports is the level label [Low], not the [Routine]
    of the five-way table. *)
Lemma port_category_is_not_five_way :
  exists r,
    PortOps.compute_risk calm_day = Ok r
    /\ PortOps.tdi_score r = 0
    /\ PortOps.tdi_category r = "Low"
    /\ PortOps.tdi_category r
       <> category_label (Spec.category_of (PortOps.tdi_score r)).
Proof.
  eexists. split; [ vm_compute; reflexivity | ].
  repeat split. cbn. discriminate.
Qed.

(** C5 (amended): in both scripts the difficulty index is
    [round(composite / max_possible * 100)] clamped to [0,100], does not
    decrease when the composite rises, is 0 exactly at composite 0 and 100
    exactly at the largest composite.  The chokepoint script derives the
    category from the index by the five-way table; the port script reports
    the capitalised risk level (Low, Moderate, High) as the category. *)
Theorem difficulty_index_and_category
  (s t : Z) (hc hp : hourly) (rc : Chokepoint.risk) (rp : PortOps.risk) :
  0 <= s -> s <= t -> t <= 80 ->
  Chokepoint.compute_risk hc = Ok rc ->
  PortOps.compute_risk hp = Ok rp ->
  (Chokepoint.tdi_score_of s
   = Spec.difficulty_index (Spec.max_possible Spec.chokepoint_transit) s
   /\ Chokepoint.tdi_score_of s <= Chokepoint.tdi_score_of t
   /\ (Chokepoint.tdi_score_of s = 0 <-> s = 0)
   /\ (Chokepoint.tdi_score_of s = 100 <-> s = 80)
   /\ Chokepoint.tdi_category_of (Chokepoint.tdi_score_of s)
      = category_label (Spec.category_of (Chokepoint.tdi_score_of s)))
  /\ (Chokepoint.tdi_score rc
      = Spec.difficulty_index (Spec.max_possible Spec.chokepoint_transit)
          (Chokepoint.score rc)
      /\ Chokepoint.tdi_category rc
         = category_label (Spec.category_of (Chokepoint.tdi_score rc)))
  /\ (PortOps.tdi_score rp
      = Spec.difficulty_index (Spec.max_possible Spec.port_operations)
          (PortOps.score rp)
      /\ PortOps.tdi_score rp = PortOps.score rp
      /\ PortOps.tdi_category rp = capitalize (level_str (PortOps.level rp))
      /\ In (PortOps.tdi_category rp) ["Low"; "Moderate"; "High"]).
Proof.
  intros Hs0 Hst Ht Hc Hp.
  assert (Hclamp : forall n, 0 <= n <= 80 ->
            Chokepoint.tdi_score_of n
            = Spec.difficulty_index (Spec.max_possible Spec.chokepoint_transit) n).
  { intros n Hn. pose proof (tdi_score_range n Hn) as R.
    unfold Spec.difficulty_index, Spec.clamp.
    change (Py.round (inject_Z n
              / inject_Z (Spec.max_possible Spec.chokepoint_transit) * 100)%Q)
      with (Chokepoint.tdi_score_of n).
    lia. }
  split; [ | split ].
  - split; [ apply Hclamp; lia | ].
    split; [ apply tdi_score_mono; assumption | ].
    split; [ | split ].
    + split; intros H.
      * destruct (Z.eq_dec s 0) as [ | Hne ]; [ assumption | exfalso ].
        assert (H1 : 1 <= s) by lia. apply tdi_score_mono in H1.
        change (Chokepoint.tdi_score_of 1) with 1 in H1. lia.
      * subst s. reflexivity.
    + split; intros H.
      * destruct (Z.eq_dec s 80) as [ | Hne ]; [ assumption | exfalso ].
        assert (H79 : s <= 79) by lia. apply tdi_score_mono in H79.
        change (Chokepoint.tdi_score_of 79) with 99 in H79. lia.
      * subst s. reflexivity.
    + apply tdi_category_five_way.
  - pose proof (chokepoint_score_range hc rc Hc) as R.
    apply chokepoint_run in Hc.
    destruct Hc as (aw & av & ap & mw & mv & mp & Hc). cbn zeta in Hc.
    destruct Hc as (_ & _ & _ & _ & _ & _ & _ & _ & _ & _ & _ & Hi & Hcat & _).
    split.
    + rewrite Hi. apply Hclamp. lia.
    + rewrite Hcat. apply tdi_category_five_way.
  - pose proof (port_score_range hp rp Hp) as R.
    apply port_run in Hp.
    destruct Hp as (w & v & p & w6 & Hp). cbn zeta in Hp.
    destruct Hp as (_ & _ & _ & _ & _ & _ & _ & _ & Hi & Hcat & _).
    split; [ | split; [ exact Hi | split; [ exact Hcat | ] ] ].
    + rewrite Hi. symmetry. apply port_index_is_score. exact R.
    + rewrite Hcat. destruct (PortOps.level rp); cbn; tauto.
Qed.

Lemma difficulty_index_and_category_witness :
  exists rc rp,
    Chokepoint.compute_risk storm_day = Ok rc
    /\ PortOps.compute_risk calm_day = Ok rp
    /\ Chokepoint.tdi_score_of 10 <= Chokepoint.tdi_score_of 30
    /\ Chokepoint.tdi_category rc
         = category_label (Spec.category_of (Chokepoint.tdi_score rc))
    /\ PortOps.tdi_category rp = capitalize (level_str (PortOps.level rp)).
Proof.
  do 2 eexists.
  split; [ vm_compute; reflexivity | ].
  split; [ vm_compute; reflexivity | ].
  assert (H := difficulty_index_and_category 10 30 storm_day calm_day _ _
                 ltac:(lia) ltac:(lia) ltac:(lia)
                 ltac:(vm_compute; reflexivity) ltac:(vm_compute; reflexivity)).
  split; [ apply H | ]. split; apply H.
Defined.

(** C9: under the chokepoint tables the wind contribution is at least 5, so
    the composite of every run and the score of every hour of the strip lie
    between 5 and 80, never 0, and the difficulty index of a run is never 0. *)
Theorem chokepoint_composite_never_zero
  (h : hourly) (r : Chokepoint.risk) (w v p : Q) :
  Chokepoint.compute_risk h = Ok r ->
  5 <= Chokepoint.wind_risk_of w
  /\ 5 <= Chokepoint.hr_score_of w v p <= 80
  /\ 5 <= Chokepoint.factor_wind (Chokepoint.factors_of r)
  /\ 5 <= Chokepoint.score r <= 80
  /\ Chokepoint.score r <> 0
  /\ 6 <= Chokepoint.tdi_score r
  /\ Chokepoint.tdi_score r <> 0.
Proof.
  intros H.
  pose proof (chokepoint_score_range h r H) as R.
  apply chokepoint_run in H.
  destruct H as (aw & av & ap & mw & mv & mp & H). cbn zeta in H.
  destruct H as (_ & _ & _ & _ & _ & _ & _ & _ & Hf & _ & _ & Hi & _).
  assert (T : 6 <= Chokepoint.tdi_score r).
  { rewrite Hi. change 6 with (Chokepoint.tdi_score_of 5).
    apply tdi_score_mono. lia. }
  rewrite Hf. cbn [Chokepoint.factor_wind].
  pose proof (wind_risk_range w). pose proof (wind_risk_range mw).
  pose proof (hr_score_range w v p). lia.
Qed.

Lemma chokepoint_composite_never_zero_witness :
  exists r,
    Chokepoint.compute_risk calm_day = Ok r
    /\ 5 <= Chokepoint.score r <= 80
    /\ Chokepoint.tdi_score r <> 0.
Proof.
  eexists. split; [ vm_compute; reflexivity | ].
  assert (H := chokepoint_composite_never_zero calm_day _ 0 0 0
                 ltac:(vm_compute; reflexivity)).
  split; apply H.
Defined.

(** ** Loops over the 24 hours *)

Lemma for_each_ok_inv {A B} (body : A -> result B) (xs : list A) (ys : list B) :
  for_each body xs = Ok ys -> Forall2 (fun x y => body x = Ok y) xs ys.
Proof.
  revert ys. induction xs as [ | x xs IH ]; cbn; intros ys H.
  - injection H as <-. constructor.
  - unbind H. unbind H. injection H as <-. constructor; auto.
Qed.

Lemma for_each_ok_intro {A B} (body : A -> result B) (xs : list A) :
  (forall x, In x xs -> exists y, body x = Ok y) ->
  exists ys, for_each body xs = Ok ys.
Proof.
  induction xs as [ | x xs IH ]; cbn; intros H.
  - eauto.
  - destruct (H x) as [y Hy]; [ auto | ].
    destruct IH as [ys Hys]; [ auto | ].
    rewrite Hy, Hys. cbn. eauto.
Qed.


Lemma for_each_length {A B} (body : A -> result B) (xs : list A) (ys : list B) :
  for_each body xs = Ok ys -> List.length ys = List.length xs.
Proof.
  intros H. apply for_each_ok_inv in H. symmetry. eapply Forall2_length, H.
Qed.

Lemma getitem_ok_iff {A} (l : list A) (i : nat) :
  (exists a, getitem l i = Ok a) <-> (i < List.length l)%nat.
Proof.
  unfold getitem. rewrite <- nth_error_Some.
  destruct (nth_error l i); split; intros H;
    try (destruct H; discriminate); try congruence; eauto.
Qed.


Lemma in_range (i n : nat) : In i (range n) <-> (i < n)%nat.
Proof. unfold range. rewrite in_seq. lia. Qed.

Lemma slice_0_length {A} (l : list A) (n : nat) :
  List.length (slice l 0 n) = Nat.min n (List.length l).
Proof. unfold slice. cbn. rewrite Nat.sub_0_r. apply length_firstn. Qed.

Lemma for_each_ok_all {A B} (body : A -> result B) (xs : list A) (ys : list B) :
  for_each body xs = Ok ys -> forall x, In x xs -> exists y, body x = Ok y.
Proof.
  revert ys. induction xs as [ | x xs IH ]; cbn; intros ys H x0 Hin.
  - contradiction.
  - unbind H. unbind H. destruct Hin as [<- | Hin]; eauto.
Qed.

Lemma chokepoint_strip_lengths (winds vis precip : list Q) (s : list risk_level) :
  Chokepoint.hourly_risk_strip_of winds vis precip = Ok s ->
  (24 <= List.length winds)%nat /\ (24 <= List.length vis)%nat
  /\ (24 <= List.length precip)%nat.
Proof.
  intros H. unfold Chokepoint.hourly_risk_strip_of in H.
  destruct (for_each_ok_all _ _ _ H 23%nat) as [y Hy];
    [ apply in_range; lia | ].
  unbind Hy. unbind Hy. unbind Hy.
  repeat match goal with
         | K : getitem _ _ = Ok _ |- _ =>
             apply (fun E => proj1 (getitem_ok_iff _ _) (ex_intro _ _ E)) in K
         end.
  lia.
Qed.

(** ** Six hour outlook *)

Lemma window_means (l : list Q) :
  (6 <= List.length l)%nat ->
  Chokepoint.avg (slice (slice l 0 24) 0 3) = Spec.window_mean l 0
  /\ Chokepoint.avg (slice (slice l 0 24) 3 6) = Spec.window_mean l 3.
Proof.
  intros H.
  destruct l as [ | a [ | b [ | c [ | d [ | e [ | f rest ] ] ] ] ] ];
    cbn [List.length] in H; try lia.
  unfold slice, Chokepoint.avg, Spec.window_mean, Spec.at_hour.
  cbn [firstn skipn Nat.sub nth Nat.add]. split; reflexivity.
Qed.

Lemma chokepoint_outlook_refines (aw av ap : list Q) :
  (6 <= List.length aw)%nat -> (6 <= List.length av)%nat ->
  (6 <= List.length ap)%nat ->
  Chokepoint.outlook_of (slice aw 0 24) (slice av 0 24) (slice ap 0 24)
  = chokepoint_outlook_text (Spec.outlook aw av ap).
Proof.
  intros Hw Hv Hp.
  destruct (window_means aw Hw) as [Ew0 Ew3].
  destruct (window_means av Hv) as [Ev0 Ev3].
  destruct (window_means ap Hp) as [Ep0 Ep3].
  unfold Chokepoint.outlook_of, Spec.outlook, gtb. cbv zeta.
  rewrite Ew0, Ew3, Ev0, Ev3, Ep0, Ep3.
  destruct (ltb 5 _), (ltb _ (-2000)), (ltb 2 _), (ltb _ (-5)), (ltb 2000 _),
    (ltb _ (-2)); reflexivity.
Qed.

Lemma port_outlook_refines (wind wind_future : Q) :
  PortOps.outlook_of wind wind_future
  = port_outlook_text (Spec.wind_only_outlook wind wind_future).
Proof.
  unfold PortOps.outlook_of, Spec.wind_only_outlook, gtb. cbv zeta.
  destruct (ltb 5 (fsub wind_future wind)); [ reflexivity | ].
  destruct (ltb (fsub wind_future wind) (-5)); reflexivity.
Qed.

(** C6, as stated, fails for the port script: on [fog_day] the wind is steady
    and visibility falls by 19500 m between the near and the mid window, so
    the multi-factor method says deteriorating, while the script, which
    compares wind at hour 0 and hour 6 only, reports [Stable]. *)
Lemma port_outlook_is_not_multi_factor :
  exists r winds vis precip,
    PortOps.compute_risk fog_day = Ok r
    /\ windspeed_10m fog_day = Some winds
    /\ visibility fog_day = Some vis
    /\ precipitation fog_day = Some precip
    /\ Spec.outlook winds vis precip = Spec.deteriorating
    /\ PortOps.outlook_6h r = "Stable"
    /\ PortOps.outlook_6h r <> port_outlook_text (Spec.outlook winds vis precip).
Proof.
  do 4 eexists. split; [ vm_compute; reflexivity | ].
  do 3 (split; [ reflexivity | ]).
  split; [ vm_compute; reflexivity | ].
  split; [ reflexivity | ].
  vm_compute. discriminate.
Qed.

(** C6 (amended): the chokepoint script computes the outlook of every run
    by the multi-factor method on the near window, hours [0,3), and the mid
    window, hours [3,6): per factor the two window averages and their
    difference are taken in floating point, as the script takes them;
    worsening holds when the wind delta exceeds 5 or the visibility delta is
    below -2000 or the precipitation delta exceeds 2, improving under the
    opposite thresholds, and the result is deteriorating, improving, mixed
    or stable accordingly.  The port script computes the outlook of every
    run by the single-factor comparison of wind at hour 0 and hour 6. *)
Theorem outlook_methods
  (hc hp : hourly) (rc : Chokepoint.risk) (rp : PortOps.risk) :
  Chokepoint.compute_risk hc = Ok rc ->
  PortOps.compute_risk hp = Ok rp ->
  (exists winds vis precip,
      windspeed_10m hc = Some winds
      /\ visibility hc = Some vis
      /\ precipitation hc = Some precip
      /\ Chokepoint.outlook_6h rc
         = chokepoint_outlook_text (Spec.outlook winds vis precip))
  /\ (exists wind wind_future,
        reading (windspeed_10m hp) 0 = Some wind
        /\ reading (windspeed_10m hp) 6 = Some wind_future
        /\ PortOps.outlook_6h rp
           = port_outlook_text (Spec.wind_only_outlook wind wind_future)).
Proof.
  intros Hc Hp. split.
  - apply chokepoint_run in Hc.
    destruct Hc as (aw & av & ap & mw & mv & mp & Hc). cbn zeta in Hc.
    destruct Hc as (Kw & Kv & Kp & _ & _ & _ & Hstrip & _ & _ & _ & _ & _ & _ & Ho).
    apply chokepoint_strip_lengths in Hstrip.
    rewrite !slice_0_length in Hstrip.
    exists aw, av, ap. repeat split; try assumption.
    rewrite Ho. apply chokepoint_outlook_refines; lia.
  - apply port_run in Hp.
    destruct Hp as (w & v & p & w6 & Hp). cbn zeta in Hp.
    destruct Hp as (K0 & _ & _ & K6 & _ & _ & _ & _ & _ & _ & Ho).
    exists w, w6. repeat split; try assumption.
    rewrite Ho. apply port_outlook_refines.
Qed.

Lemma outlook_methods_witness :
  exists rc rp,
    Chokepoint.compute_risk fog_day = Ok rc
    /\ PortOps.compute_risk fog_day = Ok rp
    /\ Chokepoint.outlook_6h rc
       = "Conditions deteriorating over the next 6 hours."
    /\ PortOps.outlook_6h rp = "Stable"
    /\ exists wind wind_future,
        reading (windspeed_10m fog_day) 0 = Some wind
        /\ reading (windspeed_10m fog_day) 6 = Some wind_future
        /\ PortOps.outlook_6h rp
           = port_outlook_text (Spec.wind_only_outlook wind wind_future).
Proof.
  do 2 eexists.
  split; [ vm_compute; reflexivity | ].
  split; [ vm_compute; reflexivity | ].
  do 2 (split; [ reflexivity | ]).
  eapply (outlook_methods fog_day fog_day); vm_compute; reflexivity.
Defined.

Lemma fl_proper (x y : Q) : (x == y)%Q -> fl x = fl y.
Proof.
  intros E. unfold fl. now rewrite (Qred_complete x y E).
Qed.

Lemma port_outlook_proper (a0 a6 b0 b6 : Q) :
  (a0 == b0)%Q -> (a6 == b6)%Q ->
  PortOps.outlook_of a0 a6 = PortOps.outlook_of b0 b6.
Proof.
  intros E0 E6. unfold PortOps.outlook_of, fsub.
  now rewrite (fl_proper a0 b0 E0), (fl_proper a6 b6 E6).
Qed.

(** C10: in the port script two forecasts whose wind readings at hour 0 and
    at hour 6 are equal get the same six hour outlook, whatever their other
    readings are. *)
Theorem port_outlook_depends_on_wind_only
  (h1 h2 : hourly) (r1 r2 : PortOps.risk) (a0 a6 b0 b6 : Q) :
  PortOps.compute_risk h1 = Ok r1 ->
  PortOps.compute_risk h2 = Ok r2 ->
  reading (windspeed_10m h1) 0 = Some a0 ->
  reading (windspeed_10m h2) 0 = Some b0 ->
  reading (windspeed_10m h1) 6 = Some a6 ->
  reading (windspeed_10m h2) 6 = Some b6 ->
  (a0 == b0)%Q -> (a6 == b6)%Q ->
  PortOps.outlook_6h r1 = PortOps.outlook_6h r2.
Proof.
  intros H1 H2 A0 B0 A6 B6 E0 E6.
  apply port_run in H1. destruct H1 as (w & v & p & w6 & H1). cbn zeta in H1.
  destruct H1 as (K0 & _ & _ & K6 & _ & _ & _ & _ & _ & _ & Ho1).
  apply port_run in H2. destruct H2 as (w' & v' & p' & w6' & H2). cbn zeta in H2.
  destruct H2 as (K0' & _ & _ & K6' & _ & _ & _ & _ & _ & _ & Ho2).
  rewrite Ho1, Ho2.
  assert (w = a0) by congruence. assert (w6 = a6) by congruence.
  assert (w' = b0) by congruence. assert (w6' = b6) by congruence.
  subst. apply port_outlook_proper; assumption.
Qed.

Lemma port_outlook_depends_on_wind_only_witness :
  exists r1 r2,
    PortOps.compute_risk calm_day = Ok r1
    /\ PortOps.compute_risk fog_day = Ok r2
    /\ visibility calm_day <> visibility fog_day
    /\ PortOps.outlook_6h r1 = PortOps.outlook_6h r2.
Proof.
  do 2 eexists.
  split; [ vm_compute; reflexivity | ].
  split; [ vm_compute; reflexivity | ].
  split; [ vm_compute; discriminate | ].
  eapply (port_outlook_depends_on_wind_only calm_day fog_day _ _ 10 10 10 10);
    vm_compute; reflexivity.
Defined.

(** ** The roll-up loop *)

Section ScanLoop.

Variables (E S : Type).
Variable score : E -> Z.
Variable step : S -> E -> S.
Variable best : S -> Z.
Variable top : S -> option E.

Hypothesis step_best : forall st e,
  best (step st e) = if score e >? best st then score e else best st.
Hypothesis step_top : forall st e,
  top (step st e) = if score e >? best st then Some e else top st.

(** Either no entry beats the starting maximum, or the loop ends on the
    first entry that carries the largest score. *)
Lemma scan_loop_spec (l : list E) : forall st,
  let st' := fold_left step l st in
  (best st' = best st /\ top st' = top st
   /\ forall e, In e l -> score e <= best st)
  \/ (exists i e,
        nth_error l i = Some e
        /\ top st' = Some e
        /\ best st' = score e
        /\ best st < score e
        /\ (forall j e', (j < i)%nat -> nth_error l j = Some e' ->
              score e' < score e)
        /\ (forall e', In e' l -> score e' <= score e)).
Proof.
  induction l as [ | x l IH ]; intros st; cbn [fold_left].
  - left. cbn. tauto.
  - specialize (IH (step st x)). cbn zeta in IH.
    rewrite step_best, step_top in IH.
    destruct (Z.gtb_spec (score x) (best st)) as [Hgt | Hle].
    + right. destruct IH as [(Hb & Ht & Hall) | (i & e & Hn & Ht & Hb & Hlt & Hearly & Hall)].
      * exists 0%nat, x. cbn. repeat split; try assumption.
        -- intros j e' Hj. lia.
        -- intros e' [<- | Hin]; [ lia | auto ].
      * exists (Datatypes.S i), e. cbn. repeat split; try assumption; try lia.
        -- intros [ | j ] e' Hj Hn'; cbn in Hn'.
           ++ injection Hn' as <-. lia.
           ++ apply (Hearly j); [ lia | assumption ].
        -- intros e' [<- | Hin]; [ lia | auto ].
    + destruct IH as [(Hb & Ht & Hall) | (i & e & Hn & Ht & Hb & Hlt & Hearly & Hall)].
      * left. repeat split; try assumption.
        intros e' [<- | Hin]; [ lia | auto ].
      * right. exists (Datatypes.S i), e. cbn. repeat split; try assumption.
        -- intros [ | j ] e' Hj Hn'; cbn in Hn'.
           ++ injection Hn' as <-. lia.
           ++ apply (Hearly j); [ lia | assumption ].
        -- intros e' [<- | Hin]; [ lia | auto ].
Qed.

End ScanLoop.

Lemma chokepoint_scan_spec (l : list Chokepoint.entry) :
  l <> [] ->
  Forall (fun e => 0 <= Chokepoint.score (Chokepoint.risk_of e)) l ->
  exists i e,
    nth_error l i = Some e
    /\ Chokepoint.highest_cp (Chokepoint.scan_all l) = Some e
    /\ Chokepoint.max_score (Chokepoint.scan_all l)
       = Chokepoint.score (Chokepoint.risk_of e)
    /\ (forall j e', (j < i)%nat -> nth_error l j = Some e' ->
          Chokepoint.score (Chokepoint.risk_of e')
          < Chokepoint.score (Chokepoint.risk_of e))
    /\ (forall e', In e' l ->
          Chokepoint.score (Chokepoint.risk_of e')
          <= Chokepoint.score (Chokepoint.risk_of e)).
Proof.
  intros Hne Hpos. unfold Chokepoint.scan_all.
  destruct (scan_loop_spec Chokepoint.entry Chokepoint.scan
              (fun e => Chokepoint.score (Chokepoint.risk_of e))
              Chokepoint.scan_step Chokepoint.max_score Chokepoint.highest_cp)
    with (l := l) (st := Chokepoint.scan_init)
    as [(_ & _ & Hall) | (i & e & Hn & Ht & Hb & _ & Hearly & Hall)].
  - intros st e. unfold Chokepoint.scan_step.
    destruct (_ >? _); reflexivity.
  - intros st e. unfold Chokepoint.scan_step.
    destruct (_ >? _); reflexivity.
  - destruct l as [ | x l ]; [ congruence | ].
    exfalso. specialize (Hall x (or_introl eq_refl)).
    apply Forall_inv in Hpos. cbn in Hall. lia.
  - exists i, e. repeat split; assumption.
Qed.

Lemma port_scan_spec (l : list PortOps.entry) :
  l <> [] ->
  Forall (fun e => 0 <= PortOps.score (PortOps.risk_of e)) l ->
  exists i e,
    nth_error l i = Some e
    /\ PortOps.highest (PortOps.scan_all l) = Some e
    /\ PortOps.max_score (PortOps.scan_all l)
       = PortOps.score (PortOps.risk_of e)
    /\ (forall j e', (j < i)%nat -> nth_error l j = Some e' ->
          PortOps.score (PortOps.risk_of e')
          < PortOps.score (PortOps.risk_of e))
    /\ (forall e', In e' l ->
          PortOps.score (PortOps.risk_of e')
          <= PortOps.score (PortOps.risk_of e)).
Proof.
  intros Hne Hpos. unfold PortOps.scan_all.
  destruct (scan_loop_spec PortOps.entry PortOps.scan
              (fun e => PortOps.score (PortOps.risk_of e))
              PortOps.scan_step PortOps.max_score PortOps.highest)
    with (l := l) (st := PortOps.scan_init)
    as [(_ & _ & Hall) | (i & e & Hn & Ht & Hb & _ & Hearly & Hall)].
  - intros st e. unfold PortOps.scan_step.
    destruct (_ >? _); reflexivity.
  - intros st e. unfold PortOps.scan_step.
    destruct (_ >? _); reflexivity.
  - destruct l as [ | x l ]; [ congruence | ].
    exfalso. specialize (Hall x (or_introl eq_refl)).
    apply Forall_inv in Hpos. cbn in Hall. lia.
  - exists i, e. repeat split; assumption.
Qed.

(** Composites computed by [compute_risk] are never negative, so lists of
    computed assessments meet the side condition of the roll-up. *)
Lemma assessed_scores_nonneg
  (cps : list Chokepoint.entry) (ports : list PortOps.entry) :
  Forall (fun e => exists h, Chokepoint.compute_risk h = Ok (Chokepoint.risk_of e)) cps ->
  Forall (fun e => exists h, PortOps.compute_risk h = Ok (PortOps.risk_of e)) ports ->
  Forall (fun e => 0 <= Chokepoint.score (Chokepoint.risk_of e)) cps
  /\ Forall (fun e => 0 <= PortOps.score (PortOps.risk_of e)) ports.
Proof.
  intros Hc Hp. split.
  - eapply Forall_impl; [ | exact Hc ]. intros e [h He].
    apply chokepoint_score_range in He. lia.
  - eapply Forall_impl; [ | exact Hp ]. intros e [h He].
    apply port_score_range in He. lia.
Qed.

(** C7: for a non-empty list of assessments (whose composites are never
    negative) both [compute_global_metrics] return as global index the
    largest composite of the list, as global level the level of that index
    under the <30 / <60 thresholds, and as highest-risk location the first
    entry of the list that carries the largest composite. *)
Theorem global_metrics_worst_case
  (cps : list Chokepoint.entry) (ports : list PortOps.entry) :
  cps <> [] -> ports <> [] ->
  Forall (fun e => 0 <= Chokepoint.score (Chokepoint.risk_of e)) cps ->
  Forall (fun e => 0 <= PortOps.score (PortOps.risk_of e)) ports ->
  (let g := Chokepoint.compute_global_metrics cps in
   exists i e,
     nth_error cps i = Some e
     /\ Chokepoint.global_index g = Chokepoint.score (Chokepoint.risk_of e)
     /\ (forall e', In e' cps ->
           Chokepoint.score (Chokepoint.risk_of e') <= Chokepoint.global_index g)
     /\ (forall j e', (j < i)%nat -> nth_error cps j = Some e' ->
           Chokepoint.score (Chokepoint.risk_of e') < Chokepoint.global_index g)
     /\ Chokepoint.highest_line g = Chokepoint.highest_line_of (Some e)
     /\ Chokepoint.global_level g = Chokepoint.level_of (Chokepoint.global_index g)
     /\ Spec.in_bucket (Chokepoint.global_level g) (Chokepoint.global_index g))
  /\ (let g := PortOps.compute_global_metrics ports in
      exists i e,
        nth_error ports i = Some e
        /\ PortOps.global_index g = PortOps.score (PortOps.risk_of e)
        /\ (forall e', In e' ports ->
              PortOps.score (PortOps.risk_of e') <= PortOps.global_index g)
        /\ (forall j e', (j < i)%nat -> nth_error ports j = Some e' ->
              PortOps.score (PortOps.risk_of e') < PortOps.global_index g)
        /\ PortOps.highest_name g = PortOps.name e
        /\ PortOps.global_level g = PortOps.level_of (PortOps.global_index g)
        /\ Spec.in_bucket (PortOps.global_level g) (PortOps.global_index g)).
Proof.
  intros Hc Hp Pc Pp. split; cbv zeta.
  - destruct (chokepoint_scan_spec cps Hc Pc)
      as (i & e & Hn & Ht & Hb & Hearly & Hall).
    exists i, e. unfold Chokepoint.compute_global_metrics.
    cbn [Chokepoint.global_index Chokepoint.global_level Chokepoint.highest_line].
    rewrite Ht, Hb.
    repeat split; try assumption. apply level_in_bucket.
  - destruct (port_scan_spec ports Hp Pp)
      as (i & e & Hn & Ht & Hb & Hearly & Hall).
    exists i, e. unfold PortOps.compute_global_metrics.
    cbn [PortOps.global_index PortOps.global_level PortOps.highest_name].
    rewrite Ht, Hb.
    repeat split; try assumption. apply level_in_bucket.
Qed.

Lemma global_metrics_worst_case_witness :
  Chokepoint.global_index (Chokepoint.compute_global_metrics three_chokepoints) = 72
  /\ Chokepoint.global_level (Chokepoint.compute_global_metrics three_chokepoints) = high
  /\ Chokepoint.highest_line (Chokepoint.compute_global_metrics three_chokepoints)
     = "Highest operational risk: Danish Straits (Score 72, high risk)."
  /\ PortOps.highest_name (PortOps.compute_global_metrics tied_ports)
     = "Port of Antwerp"
  /\ Spec.in_bucket
       (PortOps.global_level (PortOps.compute_global_metrics tied_ports))
       (PortOps.global_index (PortOps.compute_global_metrics tied_ports)).
Proof.
  do 4 (split; [ vm_compute; reflexivity | ]).
  assert (H := global_metrics_worst_case three_chokepoints tied_ports
                 ltac:(discriminate) ltac:(discriminate)
                 ltac:(repeat constructor; vm_compute; discriminate)
                 ltac:(repeat constructor; vm_compute; discriminate)).
  destruct H as [_ (i & e & H)]. apply H.
Defined.

(** The class-based dashboard of the chokepoint file rolls up by the average
    and its own thresholds: on the scores 10, 35, 72 its index is 39. *)
Lemma maritime_index_is_average :
  Maritime.get_global_risk_index three_maritime = 39
  /\ Maritime.get_global_risk_level three_maritime = Maritime.HIGH
  /\ option_map Maritime.name (Maritime.get_highest_risk_chokepoint three_maritime)
     = Some "Danish Straits".
Proof. repeat split; reflexivity. Qed.

(** ** Which exception, and when *)

Lemma bind_raise {A B} (m : result A) (k : A -> result B) (e : exn) :
  bind m k = Raise e -> m = Raise e \/ exists a, m = Ok a /\ k a = Raise e.
Proof. destruct m as [a | e']; cbn; intros H; [ eauto | left; congruence ]. Qed.

Lemma getkey_raise {A} (field : option A) (e : exn) :
  getkey field = Raise e -> e = KeyError /\ field = None.
Proof. destruct field; cbn; intros H; [ discriminate | ]. split; congruence. Qed.

Lemma getitem_raise_inv {A} (l : list A) (i : nat) (e : exn) :
  getitem l i = Raise e -> e = IndexError.
Proof. unfold getitem. destruct (nth_error l i); congruence. Qed.

Lemma max_by_raise {A} (gt : A -> A -> bool) (l : list A) (e : exn) :
  max_by gt l = Raise e -> e = ValueError.
Proof. destruct l; cbn; congruence. Qed.

Lemma min_by_raise {A} (lt : A -> A -> bool) (l : list A) (e : exn) :
  min_by lt l = Raise e -> e = ValueError.
Proof. destruct l; cbn; congruence. Qed.

Lemma for_each_raise_inv {A B} (body : A -> result B) (xs : list A) (e : exn) :
  for_each body xs = Raise e -> exists x, In x xs /\ body x = Raise e.
Proof.
  induction xs as [ | x xs IH ]; cbn; intros H; [ discriminate | ].
  apply bind_raise in H. destruct H as [H | (y & Hy & H)]; [ eauto | ].
  apply bind_raise in H. destruct H as [H | (ys & Hys & H)]; [ | discriminate ].
  destruct (IH H) as (x0 & Hin & Hx0). eauto.
Qed.

(** Split a failing sequence of steps into the step that raised. *)
Ltac which_step H :=
  repeat match type of H with
         | bind _ _ = Raise _ =>
             apply bind_raise in H; destruct H as [H | (?a & ?Ha & H)]
         end.

Ltac name_exception :=
  match goal with
  | H : getkey _ = Raise _ |- _ => apply getkey_raise in H; destruct H
  | H : getitem _ _ = Raise _ |- _ => apply getitem_raise_inv in H
  | H : Py.max _ = Raise _ |- _ => apply max_by_raise in H
  | H : Py.min _ = Raise _ |- _ => apply min_by_raise in H
  | H : Ok _ = Raise _ |- _ => discriminate H
  end.

Lemma port_strip_raises (h : hourly) (e : exn) :
  PortOps.strip_of h = Raise e ->
  e = IndexError
  \/ (e = KeyError
      /\ (windspeed_10m h = None \/ visibility h = None \/ precipitation h = None)).
Proof.
  intros H. apply for_each_raise_inv in H. destruct H as (i & _ & H).
  which_step H; name_exception; auto 6.
Qed.

Lemma port_raises (h : hourly) (e : exn) :
  PortOps.compute_risk h = Raise e ->
  e = IndexError
  \/ (e = KeyError
      /\ (windspeed_10m h = None \/ visibility h = None \/ precipitation h = None)).
Proof.
  unfold PortOps.compute_risk. intros H.
  which_step H;
    try (rewrite port_dominant_priority in H);
    try (apply port_strip_raises in H; assumption);
    name_exception; auto 6.
Qed.

Lemma chokepoint_raises (h : hourly) (e : exn) :
  Chokepoint.compute_risk h = Raise e ->
  e = IndexError \/ e = ValueError
  \/ (e = KeyError
      /\ (windspeed_10m h = None \/ visibility h = None \/ precipitation h = None)).
Proof.
  unfold Chokepoint.compute_risk. intros H.
  which_step H;
    try (rewrite chokepoint_dominant_last_wins in H);
    try (apply for_each_raise_inv in H; destruct H as (i & _ & H); which_step H);
    name_exception; auto 7.
Qed.

Lemma max_ok (l : list Q) : (0 < List.length l)%nat -> exists m, Py.max l = Ok m.
Proof. destruct l; cbn; intros H; [ lia | eauto ]. Qed.

Lemma min_ok (l : list Q) : (0 < List.length l)%nat -> exists m, Py.min l = Ok m.
Proof. destruct l; cbn; intros H; [ lia | eauto ]. Qed.

Ltac item_ok :=
  match goal with
  | |- context [getitem ?l ?i] =>
      let a := fresh "a" in
      let E := fresh "E" in
      destruct (proj2 (getitem_ok_iff l i)) as [a E];
      [ try rewrite slice_0_length; lia | rewrite E; cbn [bind] ]
  end.

Lemma port_ok_lengths (h : hourly) (r : PortOps.risk) :
  PortOps.compute_risk h = Ok r ->
  exists ws vs ps,
    windspeed_10m h = Some ws /\ visibility h = Some vs
    /\ precipitation h = Some ps
    /\ (24 <= List.length ws)%nat /\ (24 <= List.length vs)%nat
    /\ (24 <= List.length ps)%nat.
Proof.
  intros H. apply port_run in H.
  destruct H as (w & v & p & w6 & H). cbn zeta in H.
  destruct H as (_ & _ & _ & _ & Hstrip & _).
  unfold PortOps.strip_of in Hstrip.
  destruct (for_each_ok_all _ _ _ Hstrip 23%nat) as [y Hy];
    [ apply in_range; lia | ].
  do 6 unbind Hy.
  repeat match goal with
         | K : getkey _ = Ok _ |- _ => apply getkey_ok in K
         | K : getitem _ _ = Ok _ |- _ =>
             apply (fun E => proj1 (getitem_ok_iff _ _) (ex_intro _ _ E)) in K
         end.
  do 3 eexists. repeat split; try eassumption; lia.
Qed.

Lemma port_ok_intro (h : hourly) (ws vs ps : list Q) :
  windspeed_10m h = Some ws -> visibility h = Some vs ->
  precipitation h = Some ps ->
  (24 <= List.length ws)%nat -> (24 <= List.length vs)%nat ->
  (24 <= List.length ps)%nat ->
  exists r, PortOps.compute_risk h = Ok r.
Proof.
  intros Kw Kv Kp Lw Lv Lp.
  destruct (for_each_ok_intro
              (fun i =>
                 ws <- getkey (windspeed_10m h) ;; w <- getitem ws i ;;
                 vs <- getkey (visibility h) ;; v <- getitem vs i ;;
                 ps <- getkey (precipitation h) ;; p <- getitem ps i ;;
                 Ok (PortOps.strip_level_of w v p))
              (range 24)) as [strip Hstrip].
  { intros i Hi. apply in_range in Hi.
    rewrite Kw, Kv, Kp. cbn [getkey bind].
    do 3 item_ok. eauto. }
  unfold PortOps.compute_risk, PortOps.strip_of.
  rewrite Hstrip, Kw, Kv, Kp. cbn [getkey bind].
  do 3 item_ok. rewrite port_dominant_priority. cbn [bind].
  item_ok. eauto.
Qed.

Lemma chokepoint_ok_lengths (h : hourly) (r : Chokepoint.risk) :
  Chokepoint.compute_risk h = Ok r ->
  exists ws vs ps,
    windspeed_10m h = Some ws /\ visibility h = Some vs
    /\ precipitation h = Some ps
    /\ (24 <= List.length ws)%nat /\ (24 <= List.length vs)%nat
    /\ (24 <= List.length ps)%nat.
Proof.
  intros H. apply chokepoint_run in H.
  destruct H as (aw & av & ap & mw & mv & mp & H). cbn zeta in H.
  destruct H as (Kw & Kv & Kp & _ & _ & _ & Hstrip & _).
  apply chokepoint_strip_lengths in Hstrip.
  rewrite !slice_0_length in Hstrip.
  exists aw, av, ap. repeat split; try assumption; lia.
Qed.

Lemma chokepoint_ok_intro (h : hourly) (ws vs ps : list Q) :
  windspeed_10m h = Some ws -> visibility h = Some vs ->
  precipitation h = Some ps ->
  (24 <= List.length ws)%nat -> (24 <= List.length vs)%nat ->
  (24 <= List.length ps)%nat ->
  exists r, Chokepoint.compute_risk h = Ok r.
Proof.
  intros Kw Kv Kp Lw Lv Lp.
  destruct (for_each_ok_intro
              (fun i =>
                 w <- getitem (slice ws 0 24) i ;;
                 v <- getitem (slice vs 0 24) i ;;
                 p <- getitem (slice ps 0 24) i ;;
                 Ok (Chokepoint.level_of (Chokepoint.hr_score_of w v p)))
              (range 24)) as [strip Hstrip].
  { intros i Hi. apply in_range in Hi. do 3 item_ok. eauto. }
  destruct (max_ok (slice ws 0 24)) as [mw Hmw];
    [ rewrite slice_0_length; lia | ].
  destruct (min_ok (slice vs 0 24)) as [mv Hmv];
    [ rewrite slice_0_length; lia | ].
  destruct (max_ok (slice ps 0 24)) as [mp Hmp];
    [ rewrite slice_0_length; lia | ].
  unfold Chokepoint.compute_risk, Chokepoint.hourly_risk_strip_of.
  rewrite Kw, Kv, Kp. cbn [getkey bind].
  rewrite Hmw, Hmv, Hmp. cbn [bind].
  rewrite chokepoint_dominant_last_wins. cbn [bind].
  rewrite Hstrip. cbn [bind]. eauto.
Qed.

Lemma chokepoint_missing_key (h : hourly) :
  windspeed_10m h = None \/ visibility h = None \/ precipitation h = None ->
  Chokepoint.compute_risk h = Raise KeyError.
Proof.
  unfold Chokepoint.compute_risk.
  destruct (windspeed_10m h), (visibility h), (precipitation h);
    cbn [getkey bind]; intros [H | [H | H]]; try discriminate; reflexivity.
Qed.

Lemma extract_same (h : hourly) : PortOps.extract_24h h = Chokepoint.extract_24h h.
Proof. reflexivity. Qed.

Lemma extract_raises (h : hourly) (e : exn) :
  PortOps.extract_24h h = Raise e -> e = IndexError \/ e = KeyError.
Proof.
  intros H. apply for_each_raise_inv in H. destruct H as (i & _ & H).
  which_step H; name_exception; auto.
Qed.

Lemma extract_ok_lengths (h : hourly) (fc : list hour) :
  PortOps.extract_24h h = Ok fc ->
  List.length fc = 24%nat
  /\ exists ts temps ws vs ps,
       time h = Some ts /\ temperature_2m h = Some temps
       /\ windspeed_10m h = Some ws /\ visibility h = Some vs
       /\ precipitation h = Some ps
       /\ (24 <= List.length ts)%nat /\ (24 <= List.length temps)%nat
       /\ (24 <= List.length ws)%nat /\ (24 <= List.length vs)%nat
       /\ (24 <= List.length ps)%nat.
Proof.
  intros H. split; [ apply for_each_length in H; exact H | ].
  unfold PortOps.extract_24h in H.
  destruct (for_each_ok_all _ _ _ H 23%nat) as [y Hy];
    [ apply in_range; lia | ].
  do 10 unbind Hy.
  repeat match goal with
         | K : getkey _ = Ok _ |- _ => apply getkey_ok in K
         | K : getitem _ _ = Ok _ |- _ =>
             apply (fun E => proj1 (getitem_ok_iff _ _) (ex_intro _ _ E)) in K
         end.
  do 5 eexists. repeat split; try eassumption; lia.
Qed.

Lemma extract_ok_intro (h : hourly) (ts : list string) (temps ws vs ps : list Q) :
  time h = Some ts -> temperature_2m h = Some temps ->
  windspeed_10m h = Some ws -> visibility h = Some vs ->
  precipitation h = Some ps ->
  (24 <= List.length ts)%nat -> (24 <= List.length temps)%nat ->
  (24 <= List.length ws)%nat -> (24 <= List.length vs)%nat ->
  (24 <= List.length ps)%nat ->
  exists fc, PortOps.extract_24h h = Ok fc.
Proof.
  intros Kt Kx Kw Kv Kp Lt Lx Lw Lv Lp.
  apply for_each_ok_intro. intros i Hi. apply in_range in Hi.
  rewrite Kt, Kx, Kw, Kv, Kp. cbn [getkey bind].
  do 5 item_ok. eauto.
Qed.

(** C8, as stated, fails on both counts.  A forecast with 25 wind readings
    against 24 readings of visibility and precipitation is assessed by both
    scripts; a forecast of 20 observations stops both scripts with Python's
    own [IndexError], which is neither of the two named errors. *)
Lemma misaligned_is_assessed_short_is_index_error :
  (exists r, Chokepoint.compute_risk misaligned_day = Ok r)
  /\ (exists r, PortOps.compute_risk misaligned_day = Ok r)
  /\ (exists fc, PortOps.extract_24h misaligned_day = Ok fc)
  /\ Chokepoint.compute_risk short_day = Raise IndexError
  /\ PortOps.compute_risk short_day = Raise IndexError
  /\ PortOps.extract_24h short_day = Raise IndexError
  /\ exn_name IndexError <> Spec.InsufficientDataError
  /\ exn_name IndexError <> Spec.MalformedSeriesError.
Proof.
  split; [ eexists; vm_compute; reflexivity | ].
  split; [ eexists; vm_compute; reflexivity | ].
  split; [ eexists; vm_compute; reflexivity | ].
  do 3 (split; [ vm_compute; reflexivity | ]).
  split; vm_compute; discriminate.
Qed.

(** C8 (amended): an assessment produces a result exactly when the three
    factor arrays are present with at least 24 readings each, whether or not
    their lengths agree.  When a factor array is missing the chokepoint
    script stops with [KeyError] and the port script with [KeyError] or
    [IndexError]; when all are present and one has fewer than 24 readings the
    chokepoint script stops with [IndexError] or [ValueError] and the port
    script with [IndexError].  [extract_24h] likewise needs all five arrays
    with 24 entries and stops with [KeyError] or [IndexError] otherwise.  A
    run that stops returns no assessment. *)
Theorem assessment_failure_modes (h : hourly) :
  match windspeed_10m h, visibility h, precipitation h with
  | Some ws, Some vs, Some ps =>
      if ((24 <=? List.length ws) && (24 <=? List.length vs)
          && (24 <=? List.length ps))%nat
      then (exists r, Chokepoint.compute_risk h = Ok r)
           /\ (exists r, PortOps.compute_risk h = Ok r)
      else (Chokepoint.compute_risk h = Raise IndexError
            \/ Chokepoint.compute_risk h = Raise ValueError)
           /\ PortOps.compute_risk h = Raise IndexError
  | _, _, _ =>
      Chokepoint.compute_risk h = Raise KeyError
      /\ (PortOps.compute_risk h = Raise KeyError
          \/ PortOps.compute_risk h = Raise IndexError)
  end
  /\ match time h, temperature_2m h, windspeed_10m h, visibility h,
           precipitation h with
     | Some ts, Some temps, Some ws, Some vs, Some ps =>
         if ((24 <=? List.length ts) && (24 <=? List.length temps)
             && (24 <=? List.length ws) && (24 <=? List.length vs)
             && (24 <=? List.length ps))%nat
         then exists fc,
                PortOps.extract_24h h = Ok fc
                /\ Chokepoint.extract_24h h = Ok fc
                /\ List.length fc = 24%nat
         else PortOps.extract_24h h = Raise IndexError
              /\ Chokepoint.extract_24h h = Raise IndexError
     | _, _, _, _, _ =>
         (PortOps.extract_24h h = Raise KeyError
          \/ PortOps.extract_24h h = Raise IndexError)
         /\ Chokepoint.extract_24h h = PortOps.extract_24h h
     end.
Proof.
  split.
  - destruct (windspeed_10m h) as [ws | ] eqn:Kw;
      [ destruct (visibility h) as [vs | ] eqn:Kv;
        [ destruct (precipitation h) as [ps | ] eqn:Kp | ] | ].
    2-4: (split; [ apply chokepoint_missing_key; auto | ];
          destruct (PortOps.compute_risk h) as [r | e] eqn:Hr;
          [ apply port_ok_lengths in Hr;
            destruct Hr as (? & ? & ? & ? & ? & ? & _); congruence
          | apply port_raises in Hr; destruct Hr as [-> | [-> _]]; auto ]).
    destruct ((24 <=? List.length ws) && (24 <=? List.length vs)
              && (24 <=? List.length ps))%nat eqn:Hlen.
    + rewrite !andb_true_iff, !Nat.leb_le in Hlen.
      destruct Hlen as [[Lw Lv] Lp]. split.
      * eapply chokepoint_ok_intro; eassumption.
      * eapply port_ok_intro; eassumption.
    + rewrite !andb_false_iff, !Nat.leb_gt in Hlen. split.
      * destruct (Chokepoint.compute_risk h) as [r | e] eqn:Hr.
        -- apply chokepoint_ok_lengths in Hr.
           destruct Hr as (ws' & vs' & ps' & Ew & Ev & Ep & ? & ? & ?).
           assert (ws' = ws) by congruence. assert (vs' = vs) by congruence.
           assert (ps' = ps) by congruence. subst. lia.
        -- apply chokepoint_raises in Hr.
           destruct Hr as [-> | [-> | [_ [K | [K | K]]]]]; auto; congruence.
      * destruct (PortOps.compute_risk h) as [r | e] eqn:Hr.
        -- apply port_ok_lengths in Hr.
           destruct Hr as (ws' & vs' & ps' & Ew & Ev & Ep & ? & ? & ?).
           assert (ws' = ws) by congruence. assert (vs' = vs) by congruence.
           assert (ps' = ps) by congruence. subst. lia.
        -- apply port_raises in Hr.
           destruct Hr as [-> | [_ [K | [K | K]]]]; auto; congruence.
  - assert (Hcases : forall e, PortOps.extract_24h h = Raise e ->
              PortOps.extract_24h h = Raise KeyError
              \/ PortOps.extract_24h h = Raise IndexError).
    { intros e He. pose proof (extract_raises h e He) as [-> | ->]; auto. }
    assert (Hnone : (forall fc, PortOps.extract_24h h <> Ok fc) ->
              (PortOps.extract_24h h = Raise KeyError
               \/ PortOps.extract_24h h = Raise IndexError)
              /\ Chokepoint.extract_24h h = PortOps.extract_24h h).
    { intros Hno. split; [ | reflexivity ].
      destruct (PortOps.extract_24h h) as [fc | e] eqn:Hr;
        [ exfalso; eapply Hno; reflexivity | eapply Hcases; reflexivity ]. }
    assert (Hlens := extract_ok_lengths h).
    destruct (time h) as [ts | ] eqn:Kt;
      [ destruct (temperature_2m h) as [temps | ] eqn:Kx;
        [ destruct (windspeed_10m h) as [ws | ] eqn:Kw;
          [ destruct (visibility h) as [vs | ] eqn:Kv;
            [ destruct (precipitation h) as [ps | ] eqn:Kp | ] | ] | ] | ].
    2-6: (apply Hnone; intros fc Hfc; apply Hlens in Hfc;
          destruct Hfc as (_ & ? & ? & ? & ? & ? & ? & ? & ? & ? & ? & _);
          congruence).
    destruct ((24 <=? List.length ts) && (24 <=? List.length temps)
              && (24 <=? List.length ws) && (24 <=? List.length vs)
              && (24 <=? List.length ps))%nat eqn:Hlen.
    + rewrite !andb_true_iff, !Nat.leb_le in Hlen.
      destruct Hlen as [[[[Lt Lx] Lw] Lv] Lp].
      destruct (extract_ok_intro h ts temps ws vs ps) as [fc Hfc]; try assumption.
      exists fc. change (Chokepoint.extract_24h h) with (PortOps.extract_24h h).
      repeat split; try assumption. apply (Hlens fc Hfc).
    + rewrite !andb_false_iff, !Nat.leb_gt in Hlen.
      change (Chokepoint.extract_24h h) with (PortOps.extract_24h h).
      assert (PortOps.extract_24h h = Raise IndexError); [ | auto ].
      destruct (PortOps.extract_24h h) as [fc | e] eqn:Hr.
      * destruct (Hlens fc eq_refl)
          as (_ & ts' & temps' & ws' & vs' & ps' & E1 & E2 & E3 & E4 & E5 & Hl).
        injection E1 as ->. injection E2 as ->. injection E3 as ->.
        injection E4 as ->. injection E5 as ->. lia.
      * assert (Hk : e = IndexError \/ e = KeyError).
        { unfold PortOps.extract_24h in Hr.
          apply for_each_raise_inv in Hr. destruct Hr as (i & _ & Hr).
          which_step Hr; name_exception; auto. }
        destruct Hk as [-> | ->]; [ reflexivity | ].
        exfalso. unfold PortOps.extract_24h in Hr.
        apply for_each_raise_inv in Hr. destruct Hr as (i & _ & Hr).
        which_step Hr; name_exception; congruence.
Qed.

(** ** Entries and strips *)

Lemma chokepoint_entry_needs_both
  (n : string) (lat lon : Q) (h : hourly) (e : Chokepoint.entry) :
  Chokepoint.make_entry n lat lon h = Ok e ->
  Chokepoint.extract_24h h = Ok (Chokepoint.forecast_24h e)
  /\ Chokepoint.compute_risk h = Ok (Chokepoint.risk_of e).
Proof.
  unfold Chokepoint.make_entry. intros H. do 10 unbind H.
  injection H as <-. split; assumption.
Qed.

Lemma port_entry_needs_both
  (n : string) (lat lon : Q) (h : hourly) (e : PortOps.entry) :
  PortOps.make_entry n lat lon h = Ok e ->
  PortOps.extract_24h h = Ok (PortOps.forecast_24h e)
  /\ PortOps.compute_risk h = Ok (PortOps.risk_of e).
Proof.
  unfold PortOps.make_entry. intros H. do 10 unbind H.
  injection H as <-. split; assumption.
Qed.

Lemma strip_has_24_levels
  (h : hourly) (rc : Chokepoint.risk) (rp : PortOps.risk) :
  (Chokepoint.compute_risk h = Ok rc ->
   List.length (Chokepoint.hourly_risk_strip rc) = 24%nat)
  /\ (PortOps.compute_risk h = Ok rp ->
      List.length (PortOps.hourly_risk_strip rp) = 24%nat).
Proof.
  split; intros H.
  - apply chokepoint_run in H.
    destruct H as (aw & av & ap & mw & mv & mp & H). cbn zeta in H.
    destruct H as (_ & _ & _ & _ & _ & _ & Hstrip & _).
    apply for_each_length in Hstrip. exact Hstrip.
  - apply port_run in H.
    destruct H as (w & v & p & w6 & H). cbn zeta in H.
    destruct H as (_ & _ & _ & _ & Hstrip & _).
    apply for_each_length in Hstrip. exact Hstrip.
Qed.

(** * Further properties of the scripts *)

(** ** [max], [min] and the loops *)

Lemma max_spec (l : list Q) (m : Q) :
  Py.max l = Ok m -> In m l /\ forall x, In x l -> (x <= m)%Q.
Proof.
  destruct l as [ | a rest ]; cbn; [ discriminate | ].
  intros H. injection H as <-.
  assert (G : forall rest best,
             let r := fold_left (fun best y => if gtb y best then y else best)
                        rest best in
             (r = best \/ In r rest) /\ (best <= r)%Q
             /\ forall y, In y rest -> (y <= r)%Q).
  { clear. induction rest as [ | y rest IH ]; intros best; cbn.
    - split; [ auto | ]. split; [ apply Qle_refl | tauto ].
    - specialize (IH (if gtb y best then y else best)). cbn zeta in IH.
      destruct IH as (Hin & Hle & Hall).
      unfold gtb in *. destruct (ltb best y) eqn:E; chain_facts.
      + split; [ destruct Hin as [-> | ?]; auto | ].
        split; [ lra | ]. intros z [<- | Hz]; auto.
      + split; [ destruct Hin as [-> | ?]; auto | ].
        split; [ assumption | ]. intros z [<- | Hz]; [ lra | auto ]. }
  destruct (G rest a) as (Hin & Hle & Hall). cbn zeta in *.
  split; [ destruct Hin as [-> | ?]; auto | ].
  intros x [<- | Hx]; auto.
Qed.

Lemma min_spec (l : list Q) (m : Q) :
  Py.min l = Ok m -> In m l /\ forall x, In x l -> (m <= x)%Q.
Proof.
  destruct l as [ | a rest ]; cbn; [ discriminate | ].
  intros H. injection H as <-.
  assert (G : forall rest best,
             let r := fold_left (fun best y => if ltb y best then y else best)
                        rest best in
             (r = best \/ In r rest) /\ (r <= best)%Q
             /\ forall y, In y rest -> (r <= y)%Q).
  { clear. induction rest as [ | y rest IH ]; intros best; cbn.
    - split; [ auto | ]. split; [ apply Qle_refl | tauto ].
    - specialize (IH (if ltb y best then y else best)). cbn zeta in IH.
      destruct IH as (Hin & Hle & Hall).
      destruct (ltb y best) eqn:E; chain_facts.
      + split; [ destruct Hin as [-> | ?]; auto | ].
        split; [ lra | ]. intros z [<- | Hz]; auto.
      + split; [ destruct Hin as [-> | ?]; auto | ].
        split; [ assumption | ]. intros z [<- | Hz]; [ lra | auto ]. }
  destruct (G rest a) as (Hin & Hle & Hall). cbn zeta in *.
  split; [ destruct Hin as [-> | ?]; auto | ].
  intros x [<- | Hx]; auto.
Qed.

Lemma slice_0_firstn {A} (l : list A) (n : nat) : slice l 0 n = firstn n l.
Proof. unfold slice. cbn. now rewrite Nat.sub_0_r. Qed.

Lemma forall2_seq_nth {B} (P : nat -> B -> Prop) (n : nat) :
  forall (a : nat) (ys : list B) (i : nat),
    Forall2 P (seq a n) ys -> (i < n)%nat ->
    exists y, nth_error ys i = Some y /\ P (a + i)%nat y.
Proof.
  induction n as [ | n IH ]; intros a ys i H Hi; [ lia | ].
  cbn in H. inversion H as [ | x y xs ys' Hxy Hrest ]; subst.
  destruct i as [ | i ].
  - exists y. rewrite Nat.add_0_r. auto.
  - destruct (IH (Datatypes.S a) ys' i Hrest) as (y' & Hy' & Py'); [ lia | ].
    exists y'. split; [ exact Hy' | ].
    now replace (a + Datatypes.S i)%nat with (Datatypes.S a + i)%nat by lia.
Qed.

Lemma for_each_range_nth {B} (body : nat -> result B) (n : nat) (ys : list B) (i : nat) :
  for_each body (range n) = Ok ys -> (i < n)%nat ->
  exists y, nth_error ys i = Some y /\ body i = Ok y.
Proof.
  intros H Hi. apply for_each_ok_inv in H.
  destruct (forall2_seq_nth (fun x y => body x = Ok y) n 0%nat ys i H Hi)
    as (y & Hy & Py).
  eauto.
Qed.

Lemma getitem_firstn_ok {A} (l : list A) (n i : nat) (a : A) :
  getitem (firstn n l) i = Ok a -> nth_error l i = Some a /\ (i < n)%nat.
Proof.
  intros H. apply getitem_ok in H. rewrite nth_error_firstn in H.
  destruct (Nat.ltb_spec i n); [ auto | discriminate ].
Qed.

Lemma level_of_mono (s t : Z) :
  s <= t ->
  level_rank (Chokepoint.level_of s) <= level_rank (Chokepoint.level_of t).
Proof. intros H. unfold Chokepoint.level_of. int_cases; cbn; lia. Qed.

(** ** The hourly strip *)

Lemma chokepoint_strip_nth
  (h : hourly) (r : Chokepoint.risk) (ws vs ps : list Q) (i : nat) :
  Chokepoint.compute_risk h = Ok r ->
  windspeed_10m h = Some ws -> visibility h = Some vs ->
  precipitation h = Some ps -> (i < 24)%nat ->
  exists w v p,
    nth_error ws i = Some w /\ nth_error vs i = Some v
    /\ nth_error ps i = Some p
    /\ nth_error (Chokepoint.hourly_risk_strip r) i
       = Some (Chokepoint.level_of (Chokepoint.hr_score_of w v p)).
Proof.
  intros H Kw Kv Kp Hi. apply chokepoint_run in H.
  destruct H as (aw & av & ap & mw & mv & mp & H). cbn zeta in H.
  destruct H as (Kw' & Kv' & Kp' & _ & _ & _ & Hstrip & _).
  assert (aw = ws) by congruence. assert (av = vs) by congruence.
  assert (ap = ps) by congruence. subst aw av ap.
  unfold Chokepoint.hourly_risk_strip_of in Hstrip.
  destruct (for_each_range_nth _ _ _ i Hstrip Hi) as (y & Hy & Hbody).
  rewrite !slice_0_firstn in Hbody. do 3 unbind Hbody.
  injection Hbody as <-.
  repeat match goal with
         | K : getitem (firstn _ _) _ = Ok _ |- _ =>
             apply getitem_firstn_ok in K; destruct K as [K _]
         end.
  eauto 10.
Qed.

Lemma port_strip_nth
  (h : hourly) (r : PortOps.risk) (ws vs ps : list Q) (i : nat) :
  PortOps.compute_risk h = Ok r ->
  windspeed_10m h = Some ws -> visibility h = Some vs ->
  precipitation h = Some ps -> (i < 24)%nat ->
  exists w v p,
    nth_error ws i = Some w /\ nth_error vs i = Some v
    /\ nth_error ps i = Some p
    /\ nth_error (PortOps.hourly_risk_strip r) i
       = Some (PortOps.strip_level_of w v p).
Proof.
  intros H Kw Kv Kp Hi. apply port_run in H.
  destruct H as (w0 & v0 & p0 & w6 & H). cbn zeta in H.
  destruct H as (_ & _ & _ & _ & Hstrip & _).
  unfold PortOps.strip_of in Hstrip.
  destruct (for_each_range_nth _ _ _ i Hstrip Hi) as (y & Hy & Hbody).
  rewrite Kw, Kv, Kp in Hbody. cbn [getkey bind] in Hbody.
  do 3 unbind Hbody. injection Hbody as <-.
  repeat match goal with
         | K : getitem _ _ = Ok _ |- _ => apply getitem_ok in K
         end.
  eauto 10.
Qed.

Lemma port_strip_level_is_level (w v p : Q) :
  PortOps.strip_level_of w v p
  = PortOps.level_of
      (PortOps.score_of (PortOps.wind_score_of w) (PortOps.vis_score_of v)
         (PortOps.precip_score_of p)).
Proof.
  unfold PortOps.strip_level_of, PortOps.level_of, PortOps.score_of. cbv zeta.
  pose proof (port_sum_range w v p) as R.
  rewrite Z.min_l by lia. reflexivity.
Qed.

(** X1: a successful chokepoint run returns a strip of exactly 24 levels, and
    its entry for hour [i] is the level of the score of that hour's own wind,
    visibility and precipitation readings (not of the window aggregates). *)
Theorem chokepoint_strip_is_hourly
  (h : hourly) (r : Chokepoint.risk) (ws vs ps : list Q) (i : nat) :
  Chokepoint.compute_risk h = Ok r ->
  windspeed_10m h = Some ws -> visibility h = Some vs ->
  precipitation h = Some ps -> (i < 24)%nat ->
  List.length (Chokepoint.hourly_risk_strip r) = 24%nat
  /\ exists w v p,
       nth_error ws i = Some w /\ nth_error vs i = Some v
       /\ nth_error ps i = Some p
       /\ nth_error (Chokepoint.hourly_risk_strip r) i
          = Some (Chokepoint.level_of
                    (Chokepoint.wind_risk_of w + Chokepoint.vis_risk_of v
                     + Chokepoint.precip_risk_of p)).
Proof.
  intros H Kw Kv Kp Hi. split.
  - pose proof H as H'. apply chokepoint_run in H'.
    destruct H' as (aw & av & ap & mw & mv & mp & H'). cbn zeta in H'.
    destruct H' as (_ & _ & _ & _ & _ & _ & Hstrip & _).
    apply for_each_length in Hstrip. exact Hstrip.
  - exact (chokepoint_strip_nth h r ws vs ps i H Kw Kv Kp Hi).
Qed.

Lemma chokepoint_strip_is_hourly_witness :
  exists r,
    Chokepoint.compute_risk fog_day = Ok r
    /\ List.length (Chokepoint.hourly_risk_strip r) = 24%nat
    /\ nth_error (Chokepoint.hourly_risk_strip r) 2 = Some low
    /\ nth_error (Chokepoint.hourly_risk_strip r) 3 = Some low.
Proof.
  eexists. split; [ vm_compute; reflexivity | ].
  split; [ | split; reflexivity ].
  apply (chokepoint_strip_is_hourly fog_day _ _ _ _ 3
           ltac:(vm_compute; reflexivity) eq_refl eq_refl eq_refl ltac:(lia)).
Defined.

(** X2: a successful port run returns a strip of exactly 24 levels, and its
    entry for hour [i] is the level the script's scoring gives to that hour's
    own readings - the cap at 100 never changing it. *)
Theorem port_strip_is_hourly
  (h : hourly) (r : PortOps.risk) (ws vs ps : list Q) (i : nat) :
  PortOps.compute_risk h = Ok r ->
  windspeed_10m h = Some ws -> visibility h = Some vs ->
  precipitation h = Some ps -> (i < 24)%nat ->
  List.length (PortOps.hourly_risk_strip r) = 24%nat
  /\ exists w v p,
       nth_error ws i = Some w /\ nth_error vs i = Some v
       /\ nth_error ps i = Some p
       /\ nth_error (PortOps.hourly_risk_strip r) i
          = Some (PortOps.level_of
                    (PortOps.score_of (PortOps.wind_score_of w)
                       (PortOps.vis_score_of v) (PortOps.precip_score_of p))).
Proof.
  intros H Kw Kv Kp Hi. split.
  - pose proof H as H'. apply port_run in H'.
    destruct H' as (w0 & v0 & p0 & w6 & H'). cbn zeta in H'.
    destruct H' as (_ & _ & _ & _ & Hstrip & _).
    apply for_each_length in Hstrip. exact Hstrip.
  - destruct (port_strip_nth h r ws vs ps i H Kw Kv Kp Hi)
      as (w & v & p & Hw & Hv & Hp & Hn).
    exists w, v, p. rewrite <- port_strip_level_is_level. auto.
Qed.

Lemma port_strip_is_hourly_witness :
  exists r,
    PortOps.compute_risk storm_day = Ok r
    /\ List.length (PortOps.hourly_risk_strip r) = 24%nat
    /\ nth_error (PortOps.hourly_risk_strip r) 23 = Some high.
Proof.
  eexists. split; [ vm_compute; reflexivity | ].
  split; [ | reflexivity ].
  apply (port_strip_is_hourly storm_day _ _ _ _ 23
           ltac:(vm_compute; reflexivity) eq_refl eq_refl eq_refl ltac:(lia)).
Defined.

(** X3: in the port script the first cell of the strip always shows the
    headline level: both are computed from the readings of hour 0. *)
Theorem port_strip_starts_at_level (h : hourly) (r : PortOps.risk) :
  PortOps.compute_risk h = Ok r ->
  nth_error (PortOps.hourly_risk_strip r) 0 = Some (PortOps.level r).
Proof.
  intros H.
  destruct (port_ok_lengths h r H) as (ws & vs & ps & Kw & Kv & Kp & _).
  destruct (port_strip_nth h r ws vs ps 0 H Kw Kv Kp ltac:(lia))
    as (w & v & p & Hw & Hv & Hp & Hn).
  apply port_run in H.
  destruct H as (w0 & v0 & p0 & w6 & H). cbn zeta in H.
  destruct H as (R0 & R1 & R2 & _ & _ & _ & Hs & Hl & _).
  unfold reading in R0, R1, R2. rewrite Kw in R0. rewrite Kv in R1.
  rewrite Kp in R2.
  assert (w0 = w) by congruence. assert (v0 = v) by congruence.
  assert (p0 = p) by congruence. subst.
  rewrite Hn, Hl, Hs. now rewrite port_strip_level_is_level.
Qed.

Lemma port_strip_starts_at_level_witness :
  exists r,
    PortOps.compute_risk storm_day = Ok r
    /\ nth_error (PortOps.hourly_risk_strip r) 0 = Some (PortOps.level r).
Proof.
  eexists. split; [ vm_compute; reflexivity | ].
  apply (port_strip_starts_at_level storm_day). vm_compute. reflexivity.
Defined.

(** ** Window aggregates of the chokepoint script *)

Lemma nth_error_in_firstn {A} (l : list A) (n i : nat) (a : A) :
  nth_error l i = Some a -> (i < n)%nat -> In a (firstn n l).
Proof.
  intros H Hi. apply (nth_error_In _ i). rewrite nth_error_firstn.
  apply Nat.ltb_lt in Hi. now rewrite Hi.
Qed.

Lemma chokepoint_window (h : hourly) (r : Chokepoint.risk) (ws vs ps : list Q) :
  Chokepoint.compute_risk h = Ok r ->
  windspeed_10m h = Some ws -> visibility h = Some vs ->
  precipitation h = Some ps ->
  exists mw mv mp,
    (In mw (firstn 24 ws) /\ forall w, In w (firstn 24 ws) -> (w <= mw)%Q)
    /\ (In mv (firstn 24 vs) /\ forall v, In v (firstn 24 vs) -> (mv <= v)%Q)
    /\ (In mp (firstn 24 ps) /\ forall p, In p (firstn 24 ps) -> (p <= mp)%Q)
    /\ Chokepoint.factors_of r
       = {| Chokepoint.factor_wind := Chokepoint.wind_risk_of mw;
            Chokepoint.factor_visibility := Chokepoint.vis_risk_of mv;
            Chokepoint.factor_precipitation := Chokepoint.precip_risk_of mp |}
    /\ Chokepoint.score r
       = Chokepoint.wind_risk_of mw + Chokepoint.vis_risk_of mv
         + Chokepoint.precip_risk_of mp.
Proof.
  intros H Kw Kv Kp. apply chokepoint_run in H.
  destruct H as (aw & av & ap & mw & mv & mp & H). cbn zeta in H.
  destruct H as (Kw' & Kv' & Kp' & Hmw & Hmv & Hmp & _ & _ & Hf & Hs & _).
  assert (aw = ws) by congruence. assert (av = vs) by congruence.
  assert (ap = ps) by congruence. subst aw av ap.
  rewrite slice_0_firstn in Hmw, Hmv, Hmp.
  apply max_spec in Hmw. apply min_spec in Hmv. apply max_spec in Hmp.
  exists mw, mv, mp. auto.
Qed.

(** X4: the chokepoint composite is built from the largest wind reading, the
    smallest visibility reading and the largest precipitation reading among
    the first 24 hours of the forecast. *)
Theorem chokepoint_factors_from_window_extremes
  (h : hourly) (r : Chokepoint.risk) (ws vs ps : list Q) :
  Chokepoint.compute_risk h = Ok r ->
  windspeed_10m h = Some ws -> visibility h = Some vs ->
  precipitation h = Some ps ->
  exists mw mv mp,
    (In mw (firstn 24 ws) /\ forall w, In w (firstn 24 ws) -> (w <= mw)%Q)
    /\ (In mv (firstn 24 vs) /\ forall v, In v (firstn 24 vs) -> (mv <= v)%Q)
    /\ (In mp (firstn 24 ps) /\ forall p, In p (firstn 24 ps) -> (p <= mp)%Q)
    /\ Chokepoint.factors_of r
       = {| Chokepoint.factor_wind := Chokepoint.wind_risk_of mw;
            Chokepoint.factor_visibility := Chokepoint.vis_risk_of mv;
            Chokepoint.factor_precipitation := Chokepoint.precip_risk_of mp |}
    /\ Chokepoint.score r
       = Chokepoint.wind_risk_of mw + Chokepoint.vis_risk_of mv
         + Chokepoint.precip_risk_of mp.
Proof. apply chokepoint_window. Qed.

Lemma chokepoint_factors_from_window_extremes_witness :
  exists r,
    Chokepoint.compute_risk rainy_day = Ok r
    /\ Chokepoint.score r = 35
    /\ exists mw mv mp,
         Chokepoint.score r
         = Chokepoint.wind_risk_of mw + Chokepoint.vis_risk_of mv
           + Chokepoint.precip_risk_of mp.
Proof.
  eexists. split; [ vm_compute; reflexivity | ]. split; [ reflexivity | ].
  destruct (chokepoint_factors_from_window_extremes rainy_day _ _ _ _
              ltac:(vm_compute; reflexivity) eq_refl eq_refl eq_refl)
    as (mw & mv & mp & _ & _ & _ & _ & Hs).
  exists mw, mv, mp. exact Hs.
Defined.

(** X5: when no precipitation reading of the first 24 hours is negative, the
    headline level of a chokepoint run is at least as severe as every cell of
    its hourly strip. *)
Theorem chokepoint_level_covers_strip
  (h : hourly) (r : Chokepoint.risk) (ps : list Q) (l : risk_level) :
  Chokepoint.compute_risk h = Ok r ->
  precipitation h = Some ps ->
  (forall p, In p (firstn 24 ps) -> (0 <= p)%Q) ->
  In l (Chokepoint.hourly_risk_strip r) ->
  level_rank l <= level_rank (Chokepoint.level r).
Proof.
  intros H Kp Hpos Hin.
  destruct (chokepoint_ok_lengths h r H) as (ws & vs & ps' & Kw & Kv & Kp' & _).
  assert (ps' = ps) by congruence. subst ps'.
  destruct (chokepoint_window h r ws vs ps H Kw Kv Kp)
    as (mw & mv & mp & [_ Hw] & [_ Hv] & [_ Hp] & _ & Hs).
  apply In_nth_error in Hin. destruct Hin as [i Hi].
  assert (Hlt : (i < 24)%nat).
  { assert (L : List.length (Chokepoint.hourly_risk_strip r) = 24%nat).
    { pose proof H as H'. apply chokepoint_run in H'.
      destruct H' as (aw & av & ap & xw & xv & xp & H'). cbn zeta in H'.
      destruct H' as (_ & _ & _ & _ & _ & _ & Hstrip & _).
      apply for_each_length in Hstrip. exact Hstrip. }
    rewrite <- L. apply nth_error_Some. congruence. }
  destruct (chokepoint_strip_nth h r ws vs ps i H Kw Kv Kp Hlt)
    as (w & v & p & Nw & Nv & Np & Hn).
  rewrite Hi in Hn. injection Hn as ->.
  apply chokepoint_run in H.
  destruct H as (aw & av & ap & xw & xv & xp & H). cbn zeta in H.
  destruct H as (_ & _ & _ & _ & _ & _ & _ & _ & _ & _ & Hl & _).
  rewrite Hl. apply level_of_mono. rewrite Hs. unfold Chokepoint.hr_score_of.
  pose proof (wind_risk_mono w mw (Hw w (nth_error_in_firstn _ 24 _ _ Nw Hlt))).
  pose proof (vis_risk_antimono mv v (Hv v (nth_error_in_firstn _ 24 _ _ Nv Hlt))).
  pose proof (precip_risk_mono p mp
                (Hpos p (nth_error_in_firstn _ 24 _ _ Np Hlt))
                (Hp p (nth_error_in_firstn _ 24 _ _ Np Hlt))).
  lia.
Qed.

Lemma chokepoint_level_covers_strip_witness :
  exists r,
    Chokepoint.compute_risk rainy_day = Ok r
    /\ Chokepoint.level r = moderate
    /\ nth_error (Chokepoint.hourly_risk_strip r) 0 = Some low
    /\ level_rank low <= level_rank (Chokepoint.level r).
Proof.
  eexists. split; [ vm_compute; reflexivity | ].
  do 2 (split; [ reflexivity | ]).
  apply (chokepoint_level_covers_strip rainy_day _ _ low
           ltac:(vm_compute; reflexivity) eq_refl).
  - intros p Hp. vm_compute in Hp.
    repeat (destruct Hp as [<- | Hp]; [ vm_compute; discriminate | ]).
    contradiction.
  - vm_compute. auto.
Defined.

(** Without the condition on precipitation the strip can show a level above
    the headline: a reading below zero scores 5 where the window maximum 0
    scores 0. *)
Lemma chokepoint_strip_above_headline :
  exists r,
    Chokepoint.compute_risk glitch_day = Ok r
    /\ Chokepoint.level r = low
    /\ nth_error (Chokepoint.hourly_risk_strip r) 0 = Some moderate.
Proof. eexists. split; [ vm_compute; reflexivity | ]. split; reflexivity. Qed.

(** ** Only the first 24 hours are read *)

Lemma for_each_ext {A B} (f g : A -> result B) (xs : list A) :
  (forall x, In x xs -> f x = g x) -> for_each f xs = for_each g xs.
Proof.
  induction xs as [ | x xs IH ]; cbn; intros H; [ reflexivity | ].
  rewrite (H x) by auto. rewrite IH by auto. reflexivity.
Qed.

Lemma getitem_agree {A} (l1 l2 : list A) (n i : nat) :
  firstn n l1 = firstn n l2 -> (i < n)%nat -> getitem l1 i = getitem l2 i.
Proof.
  intros H Hi. unfold getitem.
  assert (E : nth_error (firstn n l1) i = nth_error (firstn n l2) i)
    by now rewrite H.
  rewrite !nth_error_firstn in E. apply Nat.ltb_lt in Hi. rewrite Hi in E.
  now rewrite E.
Qed.

Lemma some_eq {A} (a b : A) : Some a = Some b -> a = b.
Proof. congruence. Qed.

(** X6: both scripts read only the first 24 entries of the wind, visibility
    and precipitation arrays: two forecasts that agree there get the same
    result from [compute_risk] (the same assessment or the same exception),
    whatever else they contain. *)
Theorem first_24_hours_decide (h1 h2 : hourly) :
  option_map (firstn 24) (windspeed_10m h1)
  = option_map (firstn 24) (windspeed_10m h2) ->
  option_map (firstn 24) (visibility h1)
  = option_map (firstn 24) (visibility h2) ->
  option_map (firstn 24) (precipitation h1)
  = option_map (firstn 24) (precipitation h2) ->
  Chokepoint.compute_risk h1 = Chokepoint.compute_risk h2
  /\ PortOps.compute_risk h1 = PortOps.compute_risk h2.
Proof.
  intros Ew Ev Ep. split.
  - unfold Chokepoint.compute_risk.
    destruct (windspeed_10m h1) as [ws1 | ], (windspeed_10m h2) as [ws2 | ];
      try discriminate; cbn [getkey bind]; [ | reflexivity ].
    destruct (visibility h1) as [vs1 | ], (visibility h2) as [vs2 | ];
      try discriminate; cbn [getkey bind]; [ | reflexivity ].
    destruct (precipitation h1) as [ps1 | ], (precipitation h2) as [ps2 | ];
      try discriminate; cbn [getkey bind]; [ | reflexivity ].
    cbn [option_map] in Ew, Ev, Ep. apply some_eq in Ew. apply some_eq in Ev.
    apply some_eq in Ep. cbv zeta.
    rewrite !slice_0_firstn, Ew, Ev, Ep. reflexivity.
  - assert (Hstrip : PortOps.strip_of h1 = PortOps.strip_of h2).
    { unfold PortOps.strip_of. apply for_each_ext. intros i Hi.
      apply in_range in Hi.
      destruct (windspeed_10m h1) as [ws1 | ], (windspeed_10m h2) as [ws2 | ];
        try discriminate; cbn [getkey bind]; [ | reflexivity ].
      cbn [option_map] in Ew. apply some_eq in Ew. rewrite (getitem_agree ws1 ws2 24 i Ew Hi).
      destruct (getitem ws2 i); cbn [bind]; [ | reflexivity ].
      destruct (visibility h1) as [vs1 | ], (visibility h2) as [vs2 | ];
        try discriminate; cbn [getkey bind]; [ | reflexivity ].
      cbn [option_map] in Ev. apply some_eq in Ev. rewrite (getitem_agree vs1 vs2 24 i Ev Hi).
      destruct (getitem vs2 i); cbn [bind]; [ | reflexivity ].
      destruct (precipitation h1) as [ps1 | ], (precipitation h2) as [ps2 | ];
        try discriminate; cbn [getkey bind]; [ | reflexivity ].
      cbn [option_map] in Ep. apply some_eq in Ep. rewrite (getitem_agree ps1 ps2 24 i Ep Hi).
      reflexivity. }
    unfold PortOps.compute_risk. rewrite Hstrip.
    destruct (windspeed_10m h1) as [ws1 | ], (windspeed_10m h2) as [ws2 | ];
      try discriminate; cbn [getkey bind]; [ | reflexivity ].
    cbn [option_map] in Ew. apply some_eq in Ew.
    rewrite (getitem_agree ws1 ws2 24 0 Ew ltac:(lia)).
    rewrite (getitem_agree ws1 ws2 24 6 Ew ltac:(lia)).
    destruct (getitem ws2 0); cbn [bind]; [ | reflexivity ].
    destruct (visibility h1) as [vs1 | ], (visibility h2) as [vs2 | ];
      try discriminate; cbn [getkey bind]; [ | reflexivity ].
    cbn [option_map] in Ev. apply some_eq in Ev.
    rewrite (getitem_agree vs1 vs2 24 0 Ev ltac:(lia)).
    destruct (getitem vs2 0); cbn [bind]; [ | reflexivity ].
    destruct (precipitation h1) as [ps1 | ], (precipitation h2) as [ps2 | ];
      try discriminate; cbn [getkey bind]; [ | reflexivity ].
    cbn [option_map] in Ep. apply some_eq in Ep.
    rewrite (getitem_agree ps1 ps2 24 0 Ep ltac:(lia)).
    reflexivity.
Qed.

Lemma first_24_hours_decide_witness :
  Chokepoint.compute_risk long_calm_week = Chokepoint.compute_risk calm_day
  /\ PortOps.compute_risk long_calm_week = PortOps.compute_risk calm_day.
Proof.
  apply (first_24_hours_decide long_calm_week calm_day); reflexivity.
Defined.

(** ** The distribution of levels in the roll-up *)

Lemma tally_cons (l x : risk_level) (xs : list risk_level) :
  tally l (x :: xs) = (if level_eqb l x then 1 else 0) + tally l xs.
Proof.
  unfold tally. cbn [filter]. destruct (level_eqb l x); cbn [List.length]; lia.
Qed.

Lemma tally_total (xs : list risk_level) :
  tally low xs + tally moderate xs + tally high xs = Z.of_nat (List.length xs).
Proof.
  induction xs as [ | x xs IH ]; [ reflexivity | ].
  rewrite !tally_cons. cbn [List.length]. destruct x; cbn [level_eqb]; lia.
Qed.

Lemma count_incr_tally (c : level_counts) (x : risk_level) (xs : list risk_level) :
  {| count_low := count_low (count_incr c x) + tally low xs;
     count_moderate := count_moderate (count_incr c x) + tally moderate xs;
     count_high := count_high (count_incr c x) + tally high xs |}
  = {| count_low := count_low c + tally low (x :: xs);
       count_moderate := count_moderate c + tally moderate (x :: xs);
       count_high := count_high c + tally high (x :: xs) |}.
Proof.
  rewrite !tally_cons. destruct x; cbn [count_incr count_low count_moderate
    count_high level_eqb]; f_equal; lia.
Qed.

Lemma chokepoint_counts (l : list Chokepoint.entry) : forall st,
  Chokepoint.counts (fold_left Chokepoint.scan_step l st)
  = let levels := map (fun e => Chokepoint.level (Chokepoint.risk_of e)) l in
    {| count_low := count_low (Chokepoint.counts st) + tally low levels;
       count_moderate := count_moderate (Chokepoint.counts st) + tally moderate levels;
       count_high := count_high (Chokepoint.counts st) + tally high levels |}.
Proof.
  induction l as [ | e l IH ]; intros st; cbn [fold_left map]; cbv zeta.
  - unfold tally. cbn. destruct (Chokepoint.counts st). cbn. f_equal; lia.
  - rewrite IH. cbv zeta. rewrite <- count_incr_tally.
    unfold Chokepoint.scan_step. destruct (_ >? _); reflexivity.
Qed.

Lemma port_counts (l : list PortOps.entry) : forall st,
  PortOps.counts (fold_left PortOps.scan_step l st)
  = let levels := map (fun e => PortOps.level (PortOps.risk_of e)) l in
    {| count_low := count_low (PortOps.counts st) + tally low levels;
       count_moderate := count_moderate (PortOps.counts st) + tally moderate levels;
       count_high := count_high (PortOps.counts st) + tally high levels |}.
Proof.
  induction l as [ | e l IH ]; intros st; cbn [fold_left map]; cbv zeta.
  - unfold tally. cbn. destruct (PortOps.counts st). cbn. f_equal; lia.
  - rewrite IH. cbv zeta. rewrite <- count_incr_tally.
    unfold PortOps.scan_step. destruct (_ >? _); reflexivity.
Qed.

(** X7: the risk distribution of both [compute_global_metrics] counts every
    entry exactly once under its own level: each printed or returned count is
    the number of entries with that level, and the three counts add up to the
    number of entries. *)
Theorem distribution_counts_every_entry
  (cps : list Chokepoint.entry) (ports : list PortOps.entry) :
  let clevels := map (fun e => Chokepoint.level (Chokepoint.risk_of e)) cps in
  let plevels := map (fun e => PortOps.level (PortOps.risk_of e)) ports in
  Chokepoint.counts_line (Chokepoint.compute_global_metrics cps)
  = ("Risk distribution: " ++ str_int (tally low clevels) ++ " low, "
     ++ str_int (tally moderate clevels) ++ " moderate, "
     ++ str_int (tally high clevels) ++ " high.")%string
  /\ tally low clevels + tally moderate clevels + tally high clevels
     = Z.of_nat (List.length cps)
  /\ PortOps.global_counts (PortOps.compute_global_metrics ports)
     = {| count_low := tally low plevels;
          count_moderate := tally moderate plevels;
          count_high := tally high plevels |}
  /\ (let c := PortOps.global_counts (PortOps.compute_global_metrics ports) in
      count_low c + count_moderate c + count_high c
      = Z.of_nat (List.length ports)).
Proof.
  cbv zeta.
  assert (Hp : PortOps.global_counts (PortOps.compute_global_metrics ports)
               = {| count_low := tally low
                      (map (fun e => PortOps.level (PortOps.risk_of e)) ports);
                    count_moderate := tally moderate
                      (map (fun e => PortOps.level (PortOps.risk_of e)) ports);
                    count_high := tally high
                      (map (fun e => PortOps.level (PortOps.risk_of e)) ports) |}).
  { unfold PortOps.compute_global_metrics, PortOps.scan_all.
    cbn [PortOps.global_counts]. rewrite port_counts. reflexivity. }
  split; [ | split; [ | split ] ].
  - unfold Chokepoint.compute_global_metrics, Chokepoint.scan_all.
    cbn [Chokepoint.counts_line]. rewrite chokepoint_counts. reflexivity.
  - rewrite tally_total. now rewrite length_map.
  - exact Hp.
  - rewrite Hp. cbn [count_low count_moderate count_high].
    rewrite tally_total. now rewrite length_map.
Qed.

(** ** The roll-up with nothing to report *)

(** X8: when the list is empty (or no entry has a non-negative score) both
    roll-ups report index -1 and level low, and name no location: the
    chokepoint script prints [No chokepoints currently assessed.], the port
    script returns [N/A]. *)
Theorem rollup_of_nothing
  (cps : list Chokepoint.entry) (ports : list PortOps.entry) :
  Forall (fun e => Chokepoint.score (Chokepoint.risk_of e) < 0) cps ->
  Forall (fun e => PortOps.score (PortOps.risk_of e) < 0) ports ->
  (let g := Chokepoint.compute_global_metrics cps in
   Chokepoint.global_index g = -1 /\ Chokepoint.global_level g = low
   /\ Chokepoint.highest_line g = "No chokepoints currently assessed.")
  /\ (let g := PortOps.compute_global_metrics ports in
      PortOps.global_index g = -1 /\ PortOps.global_level g = low
      /\ PortOps.highest_name g = "N/A").
Proof.
  intros Hc Hp. rewrite Forall_forall in Hc, Hp. split; cbv zeta.
  - unfold Chokepoint.compute_global_metrics, Chokepoint.scan_all.
    cbn [Chokepoint.global_index Chokepoint.global_level Chokepoint.highest_line].
    destruct (scan_loop_spec Chokepoint.entry Chokepoint.scan
                (fun e => Chokepoint.score (Chokepoint.risk_of e))
                Chokepoint.scan_step Chokepoint.max_score Chokepoint.highest_cp)
      with (l := cps) (st := Chokepoint.scan_init)
      as [(Hb & Ht & _) | (i & e & Hn & _ & _ & Hlt & _)].
    + intros st e. unfold Chokepoint.scan_step. destruct (_ >? _); reflexivity.
    + intros st e. unfold Chokepoint.scan_step. destruct (_ >? _); reflexivity.
    + rewrite Hb, Ht. repeat split.
    + exfalso. apply nth_error_In in Hn. apply Hc in Hn. cbn in Hlt. lia.
  - unfold PortOps.compute_global_metrics, PortOps.scan_all.
    cbn [PortOps.global_index PortOps.global_level PortOps.highest_name].
    destruct (scan_loop_spec PortOps.entry PortOps.scan
                (fun e => PortOps.score (PortOps.risk_of e))
                PortOps.scan_step PortOps.max_score PortOps.highest)
      with (l := ports) (st := PortOps.scan_init)
      as [(Hb & Ht & _) | (i & e & Hn & _ & _ & Hlt & _)].
    + intros st e. unfold PortOps.scan_step. destruct (_ >? _); reflexivity.
    + intros st e. unfold PortOps.scan_step. destruct (_ >? _); reflexivity.
    + rewrite Hb, Ht. repeat split.
    + exfalso. apply nth_error_In in Hn. apply Hp in Hn. cbn in Hlt. lia.
Qed.

Lemma rollup_of_nothing_witness :
  Chokepoint.global_index (Chokepoint.compute_global_metrics []) = -1
  /\ PortOps.highest_name (PortOps.compute_global_metrics []) = "N/A".
Proof.
  destruct (rollup_of_nothing [] [] (Forall_nil _) (Forall_nil _))
    as [(Hc & _) (_ & _ & Hp)].
  split; [ exact Hc | exact Hp ].
Defined.

(** ** Operational impact texts *)

Lemma wind_risk_values (w : Q) :
  Chokepoint.wind_risk_of w = 5 \/ Chokepoint.wind_risk_of w = 15
  \/ Chokepoint.wind_risk_of w = 30 \/ Chokepoint.wind_risk_of w = 40.
Proof. unfold Chokepoint.wind_risk_of. split_chain; auto. Qed.

Lemma vis_risk_values (v : Q) :
  Chokepoint.vis_risk_of v = 0 \/ Chokepoint.vis_risk_of v = 5
  \/ Chokepoint.vis_risk_of v = 10 \/ Chokepoint.vis_risk_of v = 20.
Proof. unfold Chokepoint.vis_risk_of, gtb. split_chain; auto. Qed.

Lemma precip_risk_values (p : Q) :
  Chokepoint.precip_risk_of p = 0 \/ Chokepoint.precip_risk_of p = 5
  \/ Chokepoint.precip_risk_of p = 10 \/ Chokepoint.precip_risk_of p = 20.
Proof. unfold Chokepoint.precip_risk_of. split_chain; auto. Qed.

(** X9: for an entry whose risk block was computed by [compute_risk], the
    chokepoint impact text is the [No significant ... impacts] sentence
    exactly when the composite is 5 (wind 5, visibility 0, precipitation 0),
    and it is never the [routine caution] sentence: that branch needs no
    impact sentence and a level other than low, which the tables exclude. *)
Theorem chokepoint_impact_fallbacks (h : hourly) (cp : Chokepoint.entry) :
  Chokepoint.compute_risk h = Ok (Chokepoint.risk_of cp) ->
  Chokepoint.assess_operational_impact cp <> chokepoint_routine_caution
  /\ (Chokepoint.assess_operational_impact cp = chokepoint_no_impact
      <-> Chokepoint.score (Chokepoint.risk_of cp) = 5).
Proof.
  intros H. apply chokepoint_run in H.
  destruct H as (aw & av & ap & mw & mv & mp & H). cbn zeta in H.
  destruct H as (_ & _ & _ & _ & _ & _ & _ & _ & Hf & Hs & Hl & _).
  unfold Chokepoint.assess_operational_impact. cbv zeta.
  rewrite Hf, Hl, Hs.
  cbn [Chokepoint.factor_wind Chokepoint.factor_visibility
       Chokepoint.factor_precipitation].
  destruct (wind_risk_values mw) as [-> | [-> | [-> | ->]]];
    destruct (vis_risk_values mv) as [-> | [-> | [-> | ->]]];
    destruct (precip_risk_values mp) as [-> | [-> | [-> | ->]]];
    vm_compute;
    (split; [ discriminate | split; intros E; first [ reflexivity | discriminate E ] ]).
Qed.

Lemma chokepoint_impact_fallbacks_witness :
  exists cp,
    Chokepoint.make_entry "Suez Canal" 30.585 32.265 calm_day = Ok cp
    /\ Chokepoint.assess_operational_impact cp <> chokepoint_routine_caution.
Proof.
  eexists. split; [ vm_compute; reflexivity | ].
  apply (chokepoint_impact_fallbacks calm_day). vm_compute. reflexivity.
Defined.

Lemma port_entry_current
  (n : string) (lat lon : Q) (h : hourly) (e : PortOps.entry) :
  PortOps.make_entry n lat lon h = Ok e ->
  reading (windspeed_10m h) 0 = Some (wind_kmh (PortOps.current e))
  /\ reading (visibility h) 0 = Some (visibility_m (PortOps.current e))
  /\ reading (precipitation h) 0 = Some (precip_mm (PortOps.current e))
  /\ PortOps.compute_risk h = Ok (PortOps.risk_of e).
Proof.
  unfold PortOps.make_entry. intros H. do 10 unbind H.
  injection H as <-. cbn [PortOps.current PortOps.risk_of wind_kmh visibility_m
                          precip_mm].
  repeat match goal with
         | K : getkey _ = Ok _ |- _ => apply getkey_ok in K
         | K : getitem _ _ = Ok _ |- _ => apply getitem_ok in K
         end.
  unfold reading.
  repeat match goal with
         | K : _ h = Some _ |- _ => rewrite K
         end.
  auto.
Qed.

Lemma port_impact_normal_iff (e : PortOps.entry) :
  PortOps.assess_operational_impact e = port_normal_conditions
  <-> (wind_kmh (PortOps.current e) <= 15)%Q
      /\ (2000 <= visibility_m (PortOps.current e))%Q
      /\ (precip_mm (PortOps.current e) <= 1)%Q.
Proof.
  unfold PortOps.assess_operational_impact, gtb. cbv zeta.
  split_chain; chain_facts; cbn [app];
    (split;
     [ intros E; first [ (vm_compute in E; discriminate E) | (repeat split; lra) ]
     | intros (E1 & E2 & E3); first [ reflexivity | (exfalso; lra) ] ]).
Qed.

(** X10: the port impact text is the [Normal operating conditions] sentence
    exactly when the current wind is at most 15 km/h, visibility at least
    2000 m and precipitation at most 1 mm; and for an entry built by the main
    loop that sentence only appears with a composite of at most 25, hence
    with level low. *)
Theorem port_normal_conditions_mean_low
  (n : string) (lat lon : Q) (h : hourly) (e : PortOps.entry) :
  PortOps.make_entry n lat lon h = Ok e ->
  (PortOps.assess_operational_impact e = port_normal_conditions
   <-> (wind_kmh (PortOps.current e) <= 15)%Q
       /\ (2000 <= visibility_m (PortOps.current e))%Q
       /\ (precip_mm (PortOps.current e) <= 1)%Q)
  /\ (PortOps.assess_operational_impact e = port_normal_conditions ->
      PortOps.score (PortOps.risk_of e) <= 25
      /\ PortOps.level (PortOps.risk_of e) = low).
Proof.
  intros H. split; [ apply port_impact_normal_iff | ].
  intros E. apply port_impact_normal_iff in E. destruct E as (Ew & Ev & Ep).
  apply port_entry_current in H. destruct H as (Rw & Rv & Rp & H).
  apply port_run in H. destruct H as (w & v & p & w6 & H). cbn zeta in H.
  destruct H as (Rw' & Rv' & Rp' & _ & _ & _ & Hs & Hl & _).
  assert (w = wind_kmh (PortOps.current e)) by congruence.
  assert (v = visibility_m (PortOps.current e)) by congruence.
  assert (p = precip_mm (PortOps.current e)) by congruence. subst w v p.
  assert (S : PortOps.score (PortOps.risk_of e) <= 25).
  { rewrite Hs. unfold PortOps.score_of, PortOps.wind_score_of,
      PortOps.vis_score_of, PortOps.precip_score_of, gtb.
    split_chain; chain_facts; try lia; exfalso; lra. }
  split; [ exact S | ]. rewrite Hl. unfold PortOps.level_of.
  destruct (Z.ltb_spec (PortOps.score (PortOps.risk_of e)) 30);
    [ reflexivity | lia ].
Qed.

Lemma port_normal_conditions_mean_low_witness :
  exists e,
    PortOps.make_entry "Port of Rotterdam" 51.9526 4.1339 calm_day = Ok e
    /\ PortOps.assess_operational_impact e = port_normal_conditions
    /\ PortOps.level (PortOps.risk_of e) = low.
Proof.
  eexists. split; [ vm_compute; reflexivity | ]. split; [ reflexivity | ].
  apply (port_normal_conditions_mean_low "Port of Rotterdam" 51.9526 4.1339
           calm_day _ ltac:(vm_compute; reflexivity)).
  reflexivity.
Defined.

(** ** Dominant driver of a run *)

Lemma some_eq_ok {A} (a b : A) : Ok a = Ok b -> a = b.
Proof. congruence. Qed.

(** X11: in a successful chokepoint run the dominant driver is the label of
    the last of wind, visibility, precipitation (in that order) whose score
    is the largest; it is [Wind-driven risk] exactly when the wind score is
    strictly above both other scores. *)
Theorem chokepoint_driver_of_run (h : hourly) (r : Chokepoint.risk) :
  Chokepoint.compute_risk h = Ok r ->
  let w := Chokepoint.factor_wind (Chokepoint.factors_of r) in
  let v := Chokepoint.factor_visibility (Chokepoint.factors_of r) in
  let p := Chokepoint.factor_precipitation (Chokepoint.factors_of r) in
  Chokepoint.dominant_driver r
  = (if (w <=? p) && (v <=? p) then "Heavy precipitation"
     else if w <=? v then "Visibility degradation"
     else "Wind-driven risk")
  /\ (Chokepoint.dominant_driver r = "Wind-driven risk" <-> v < w /\ p < w).
Proof.
  intros H. apply chokepoint_run in H.
  destruct H as (aw & av & ap & mw & mv & mp & H). cbn zeta in H.
  destruct H as (_ & _ & _ & _ & _ & _ & _ & Hd & Hf & _).
  rewrite chokepoint_dominant_last_wins in Hd. apply some_eq_ok in Hd.
  cbv zeta. rewrite Hf.
  cbn [Chokepoint.factor_wind Chokepoint.factor_visibility
       Chokepoint.factor_precipitation].
  rewrite <- Hd. split; [ reflexivity | ].
  int_cases; cbn [andb]; split; intros E; try discriminate E; try lia;
    try reflexivity; exfalso; lia.
Qed.

Lemma chokepoint_driver_of_run_witness :
  exists r,
    Chokepoint.compute_risk rainy_day = Ok r
    /\ Chokepoint.dominant_driver r = "Wind-driven risk".
Proof.
  eexists. split; [ vm_compute; reflexivity | ].
  apply (chokepoint_driver_of_run rainy_day _ ltac:(vm_compute; reflexivity)).
  vm_compute. split; reflexivity.
Defined.

(** X12: in a successful port run the dominant driver is the first of wind,
    visibility, precipitation (in that order) whose score, computed from the
    readings of hour 0, is the largest; when all three scores are 0 it is
    [wind]. *)
Theorem port_driver_of_run (h : hourly) (r : PortOps.risk) :
  PortOps.compute_risk h = Ok r ->
  exists wind vis precip,
    reading (windspeed_10m h) 0 = Some wind
    /\ reading (visibility h) 0 = Some vis
    /\ reading (precipitation h) 0 = Some precip
    /\ let w := PortOps.wind_score_of wind in
       let v := PortOps.vis_score_of vis in
       let p := PortOps.precip_score_of precip in
       PortOps.dominant_driver r
       = (if (v <=? w) && (p <=? w) then "wind"
          else if p <=? v then "visibility"
          else "precipitation")
       /\ (PortOps.score r = 0 -> PortOps.dominant_driver r = "wind").
Proof.
  intros H. pose proof (port_score_range h r H) as R. apply port_run in H.
  destruct H as (wind & vis & precip & w6 & H). cbn zeta in H.
  destruct H as (Rw & Rv & Rp & _ & _ & Hd & Hs & _).
  rewrite port_dominant_priority in Hd. apply some_eq_ok in Hd.
  exists wind, vis, precip. repeat split; try assumption.
  - rewrite <- Hd. unfold Spec.dominant.
    destruct ((_ <=? _) && (_ <=? _)); [ reflexivity | ].
    destruct (_ <=? _); reflexivity.
  - intros Z0. rewrite <- Hd. rewrite Hs in Z0. unfold PortOps.score_of in Z0.
    pose proof (wind_score_range wind). pose proof (vis_score_range vis).
    pose proof (precip_score_range precip).
    unfold Spec.dominant. int_cases.
Qed.

Lemma port_driver_of_run_witness :
  exists r,
    PortOps.compute_risk calm_day = Ok r
    /\ PortOps.score r = 0 /\ PortOps.dominant_driver r = "wind".
Proof.
  eexists. split; [ vm_compute; reflexivity | ]. split; [ reflexivity | ].
  destruct (port_driver_of_run calm_day _ ltac:(vm_compute; reflexivity))
    as (w & v & p & _ & _ & _ & _ & Hz).
  apply Hz. reflexivity.
Defined.

(** ** Difficulty category against level, and the grain of the scores *)

(** X13: in a successful chokepoint run the difficulty category agrees with
    the level: level low comes with [Routine] or [Caution], level moderate
    with [Caution], [Challenging] or [Hazardous], level high with
    [Hazardous] or [Severe]. *)
Theorem chokepoint_category_follows_level (h : hourly) (r : Chokepoint.risk) :
  Chokepoint.compute_risk h = Ok r ->
  match Chokepoint.level r with
  | low => In (Chokepoint.tdi_category r) ["Routine"; "Caution"]
  | moderate => In (Chokepoint.tdi_category r) ["Caution"; "Challenging"; "Hazardous"]
  | high => In (Chokepoint.tdi_category r) ["Hazardous"; "Severe"]
  end.
Proof.
  intros H. pose proof (chokepoint_score_range h r H) as R.
  apply chokepoint_run in H.
  destruct H as (aw & av & ap & mw & mv & mp & H). cbn zeta in H.
  destruct H as (_ & _ & _ & _ & _ & _ & _ & _ & _ & _ & Hl & Hi & Hc & _).
  rewrite Hl, Hc, Hi. unfold Chokepoint.level_of.
  set (s := Chokepoint.score r) in *.
  destruct (Z.ltb_spec s 30) as [L30 | G30];
    [ | destruct (Z.ltb_spec s 60) as [L60 | G60] ].
  - assert (B : Chokepoint.tdi_score_of s <= Chokepoint.tdi_score_of 29)
      by (apply tdi_score_mono; lia).
    change (Chokepoint.tdi_score_of 29) with 36 in B.
    unfold Chokepoint.tdi_category_of. int_cases; cbn; auto.
  - assert (B1 : Chokepoint.tdi_score_of 30 <= Chokepoint.tdi_score_of s)
      by (apply tdi_score_mono; lia).
    assert (B2 : Chokepoint.tdi_score_of s <= Chokepoint.tdi_score_of 59)
      by (apply tdi_score_mono; lia).
    change (Chokepoint.tdi_score_of 30) with 38 in B1.
    change (Chokepoint.tdi_score_of 59) with 74 in B2.
    unfold Chokepoint.tdi_category_of. int_cases; cbn; auto.
  - assert (B : Chokepoint.tdi_score_of 60 <= Chokepoint.tdi_score_of s)
      by (apply tdi_score_mono; lia).
    change (Chokepoint.tdi_score_of 60) with 75 in B.
    unfold Chokepoint.tdi_category_of. int_cases; cbn; auto.
Qed.

Lemma chokepoint_category_follows_level_witness :
  exists r,
    Chokepoint.compute_risk rainy_day = Ok r
    /\ Chokepoint.level r = moderate
    /\ In (Chokepoint.tdi_category r) ["Caution"; "Challenging"; "Hazardous"].
Proof.
  eexists. split; [ vm_compute; reflexivity | ]. split; [ reflexivity | ].
  apply (chokepoint_category_follows_level rainy_day _
           ltac:(vm_compute; reflexivity)).
Defined.

(** X14: every composite either script computes is a multiple of 5, and so
    is every factor score it is built from. *)
Theorem composites_are_multiples_of_five
  (hc hp : hourly) (rc : Chokepoint.risk) (rp : PortOps.risk) (w v p : Q) :
  Chokepoint.compute_risk hc = Ok rc ->
  PortOps.compute_risk hp = Ok rp ->
  (Chokepoint.score rc mod 5 = 0 /\ PortOps.score rp mod 5 = 0)
  /\ (Chokepoint.wind_risk_of w mod 5 = 0 /\ Chokepoint.vis_risk_of v mod 5 = 0
      /\ Chokepoint.precip_risk_of p mod 5 = 0)
  /\ (PortOps.wind_score_of w mod 5 = 0 /\ PortOps.vis_score_of v mod 5 = 0
      /\ PortOps.precip_score_of p mod 5 = 0).
Proof.
  intros Hc Hp.
  assert (Fc : forall w v p,
             Chokepoint.wind_risk_of w mod 5 = 0
             /\ Chokepoint.vis_risk_of v mod 5 = 0
             /\ Chokepoint.precip_risk_of p mod 5 = 0).
  { intros w' v' p'.
    destruct (wind_risk_values w') as [-> | [-> | [-> | ->]]];
      destruct (vis_risk_values v') as [-> | [-> | [-> | ->]]];
      destruct (precip_risk_values p') as [-> | [-> | [-> | ->]]];
      repeat split. }
  assert (Fp : forall w v p,
             PortOps.wind_score_of w mod 5 = 0
             /\ PortOps.vis_score_of v mod 5 = 0
             /\ PortOps.precip_score_of p mod 5 = 0).
  { intros w' v' p'.
    unfold PortOps.wind_score_of, PortOps.vis_score_of,
      PortOps.precip_score_of, gtb.
    split_chain; repeat split. }
  split; [ | split; [ apply Fc | apply Fp ] ].
  apply chokepoint_run in Hc.
  destruct Hc as (aw & av & ap & mw & mv & mp & Hc). cbn zeta in Hc.
  destruct Hc as (_ & _ & _ & _ & _ & _ & _ & _ & _ & Hs & _).
  apply port_run in Hp.
  destruct Hp as (w0 & v0 & p0 & w6 & Hp). cbn zeta in Hp.
  destruct Hp as (_ & _ & _ & _ & _ & _ & Hps & _).
  split.
  - rewrite Hs. destruct (Fc mw mv mp) as (A & B & C).
    rewrite Z.add_mod, (Z.add_mod (Chokepoint.wind_risk_of mw)), A, B, C by lia.
    reflexivity.
  - rewrite Hps. unfold PortOps.score_of.
    destruct (Fp w0 v0 p0) as (A & B & C).
    pose proof (port_sum_range w0 v0 p0).
    rewrite Z.min_l by lia.
    rewrite Z.add_mod, (Z.add_mod (PortOps.wind_score_of w0)), A, B, C by lia.
    reflexivity.
Qed.

Lemma composites_are_multiples_of_five_witness :
  exists rc rp,
    Chokepoint.compute_risk rainy_day = Ok rc
    /\ PortOps.compute_risk storm_day = Ok rp
    /\ Chokepoint.score rc mod 5 = 0 /\ PortOps.score rp mod 5 = 0.
Proof.
  do 2 eexists.
  split; [ vm_compute; reflexivity | ].
  split; [ vm_compute; reflexivity | ].
  apply (composites_are_multiples_of_five rainy_day storm_day _ _ 0 0 0
           ltac:(vm_compute; reflexivity) ltac:(vm_compute; reflexivity)).
Defined.

(** ** Colours *)

Lemma chokepoint_color_of_run (h : hourly) (r : Chokepoint.risk) :
  Chokepoint.compute_risk h = Ok r ->
  Chokepoint.color r = Chokepoint.color_of (Chokepoint.score r)
  /\ Chokepoint.level r = Chokepoint.level_of (Chokepoint.score r).
Proof.
  unfold Chokepoint.compute_risk. intros H. do 8 unbind H.
  injection H as <-. split; reflexivity.
Qed.

Lemma port_color_of_run (h : hourly) (r : PortOps.risk) :
  PortOps.compute_risk h = Ok r ->
  PortOps.color r = PortOps.color_of (PortOps.score r)
  /\ PortOps.level r = PortOps.level_of (PortOps.score r).
Proof.
  unfold PortOps.compute_risk. intros H. do 10 unbind H.
  injection H as <-. split; reflexivity.
Qed.

(** X15: the colour a run returns for its headline badge is the colour the
    page generator gives to a strip cell of the same level (green for low,
    yellow for moderate, red for high), in both scripts. *)
Theorem badge_colour_matches_strip_cells
  (hc hp : hourly) (rc : Chokepoint.risk) (rp : PortOps.risk) :
  Chokepoint.compute_risk hc = Ok rc ->
  PortOps.compute_risk hp = Ok rp ->
  Chokepoint.color rc = Chokepoint.strip_color (Chokepoint.level rc)
  /\ PortOps.color rp = PortOps.strip_color (PortOps.level rp).
Proof.
  intros Hc Hp.
  apply chokepoint_color_of_run in Hc. destruct Hc as [-> ->].
  apply port_color_of_run in Hp. destruct Hp as [-> ->].
  unfold Chokepoint.color_of, Chokepoint.level_of, PortOps.color_of,
    PortOps.level_of.
  split; int_cases.
Qed.

Lemma badge_colour_matches_strip_cells_witness :
  exists rc rp,
    Chokepoint.compute_risk rainy_day = Ok rc
    /\ PortOps.compute_risk storm_day = Ok rp
    /\ Chokepoint.color rc = "#F1C40F" /\ PortOps.color rp = "#E74C3C"
    /\ Chokepoint.color rc = Chokepoint.strip_color (Chokepoint.level rc).
Proof.
  do 2 eexists.
  split; [ vm_compute; reflexivity | ].
  split; [ vm_compute; reflexivity | ].
  do 2 (split; [ reflexivity | ]).
  apply (badge_colour_matches_strip_cells rainy_day storm_day _ _
           ltac:(vm_compute; reflexivity) ltac:(vm_compute; reflexivity)).
Defined.

(** ** The 24-hour table *)

Lemma extract_nth (h : hourly) (fc : list hour)
  (ts : list string) (temps ws vs ps : list Q) (i : nat) :
  PortOps.extract_24h h = Ok fc ->
  time h = Some ts -> temperature_2m h = Some temps ->
  windspeed_10m h = Some ws -> visibility h = Some vs ->
  precipitation h = Some ps -> (i < 24)%nat ->
  exists t temp w v p,
    nth_error ts i = Some t /\ nth_error temps i = Some temp
    /\ nth_error ws i = Some w /\ nth_error vs i = Some v
    /\ nth_error ps i = Some p
    /\ nth_error fc i
       = Some {| hour_time := t; hour_temp := temp; hour_wind := w;
                 hour_vis := v; hour_precip := p |}.
Proof.
  intros H Kt Kx Kw Kv Kp Hi. unfold PortOps.extract_24h in H.
  destruct (for_each_range_nth _ _ _ i H Hi) as (y & Hy & Hbody).
  rewrite Kt, Kx, Kw, Kv, Kp in Hbody. cbn [getkey bind] in Hbody.
  do 5 unbind Hbody. injection Hbody as <-.
  repeat match goal with
         | K : getitem _ _ = Ok _ |- _ => apply getitem_ok in K
         end.
  eauto 12.
Qed.

(** X16: [extract_24h] (the same function in both scripts) returns exactly 24
    rows, and row [i] carries the time label, temperature, wind, visibility
    and precipitation found at position [i] of the five arrays: the columns of
    the table are the first 24 entries of the arrays, in order. *)
Theorem extract_24h_keeps_readings (h : hourly) (fc : list hour)
  (ts : list string) (temps ws vs ps : list Q) :
  PortOps.extract_24h h = Ok fc ->
  time h = Some ts -> temperature_2m h = Some temps ->
  windspeed_10m h = Some ws -> visibility h = Some vs ->
  precipitation h = Some ps ->
  Chokepoint.extract_24h h = Ok fc
  /\ List.length fc = 24%nat
  /\ map hour_time fc = firstn 24 ts
  /\ map hour_temp fc = firstn 24 temps
  /\ map hour_wind fc = firstn 24 ws
  /\ map hour_vis fc = firstn 24 vs
  /\ map hour_precip fc = firstn 24 ps.
Proof.
  intros H Kt Kx Kw Kv Kp.
  assert (L : List.length fc = 24%nat) by (apply for_each_length in H; exact H).
  assert (G : forall {B} (f : hour -> B) (l : list B),
             (forall i t temp w v p, (i < 24)%nat ->
                nth_error ts i = Some t -> nth_error temps i = Some temp ->
                nth_error ws i = Some w -> nth_error vs i = Some v ->
                nth_error ps i = Some p ->
                nth_error l i
                = Some (f {| hour_time := t; hour_temp := temp; hour_wind := w;
                             hour_vis := v; hour_precip := p |})) ->
             map f fc = firstn 24 l).
  { intros B f l Hl. apply nth_error_ext. intros i.
    rewrite nth_error_map, nth_error_firstn.
    destruct (Nat.ltb_spec i 24) as [Hi | Hi].
    - destruct (extract_nth h fc ts temps ws vs ps i H Kt Kx Kw Kv Kp Hi)
        as (t & temp & w & v & p & Nt & Nx & Nw & Nv & Np & Nf).
      rewrite Nf. cbn [option_map]. symmetry. eapply Hl; eassumption.
    - assert (N : nth_error fc i = None) by (apply nth_error_None; lia).
      rewrite N. reflexivity. }
  split; [ exact H | ]. split; [ exact L | ].
  repeat split; apply G; intros; cbn; assumption.
Qed.

Lemma extract_24h_keeps_readings_witness :
  exists fc,
    PortOps.extract_24h fog_day = Ok fc
    /\ map hour_vis fc = (repeat 20000%Q 3 ++ repeat 500%Q 21)%list.
Proof.
  eexists. split; [ vm_compute; reflexivity | ].
  destruct (extract_24h_keeps_readings fog_day _ _ _ _ _ _
              ltac:(vm_compute; reflexivity) eq_refl eq_refl eq_refl eq_refl
              eq_refl) as (_ & _ & _ & _ & _ & Hv & _).
  exact Hv.
Defined.

(** ** The class-based dashboard *)

Lemma maritime_level_intervals (s : Z) :
  match Maritime.risk_level_for s with
  | Maritime.LOW => s <= 5
  | Maritime.MODERATE => 5 < s <= 30
  | Maritime.HIGH => 30 < s <= 70
  | Maritime.CRITICAL => 70 < s
  end.
Proof.
  unfold Maritime.risk_level_for. cbn [find Maritime.threshold].
  int_cases; lia.
Qed.

Lemma maritime_level_mono (s t : Z) :
  s <= t ->
  maritime_rank (Maritime.risk_level_for s)
  <= maritime_rank (Maritime.risk_level_for t).
Proof.
  intros H. pose proof (maritime_level_intervals s) as A.
  pose proof (maritime_level_intervals t) as B.
  destruct (Maritime.risk_level_for s), (Maritime.risk_level_for t);
    cbn in *; lia.
Qed.

Lemma maritime_highest_spec (cps : list Maritime.ChokePoint) :
  match Maritime.get_highest_risk_chokepoint cps with
  | None => cps = []
  | Some top =>
      exists i,
        nth_error cps i = Some top
        /\ (forall c, In c cps -> Maritime.risk_score c <= Maritime.risk_score top)
        /\ (forall j c, (j < i)%nat -> nth_error cps j = Some c ->
              Maritime.risk_score c < Maritime.risk_score top)
  end.
Proof.
  destruct cps as [ | cp rest ]; cbn [Maritime.get_highest_risk_chokepoint];
    [ reflexivity | ].
  destruct (scan_loop_spec Maritime.ChokePoint Maritime.ChokePoint
              Maritime.risk_score
              (fun best c =>
                 if Maritime.risk_score c >? Maritime.risk_score best
                 then c else best)
              Maritime.risk_score (fun best => Some best))
    with (l := rest) (st := cp)
    as [(Hb & Ht & Hall) | (i & e & Hn & Ht & Hb & Hlt & Hearly & Hall)].
  - intros st e. destruct (_ >? _); reflexivity.
  - intros st e. destruct (_ >? _); reflexivity.
  - injection Ht as Ht. rewrite Ht. exists 0%nat. split; [ reflexivity | ].
    split.
    + intros c [<- | Hc]; [ lia | auto ].
    + intros j c Hj. lia.
  - injection Ht as Ht. rewrite Ht. exists (Datatypes.S i).
    split; [ exact Hn | ]. split.
    + intros c [<- | Hc]; [ lia | auto ].
    + intros [ | j ] c Hj Hc; cbn in Hc.
      * injection Hc as <-. lia.
      * apply (Hearly j); [ lia | assumption ].
Qed.

(** X17: [get_highest_risk_chokepoint] returns nothing only for an empty
    dashboard; otherwise it returns a chokepoint whose risk score is the
    largest of all, and among equals the one added first. *)
Theorem maritime_highest_is_first_largest (cps : list Maritime.ChokePoint) :
  match Maritime.get_highest_risk_chokepoint cps with
  | None => cps = []
  | Some top =>
      exists i,
        nth_error cps i = Some top
        /\ (forall c, In c cps -> Maritime.risk_score c <= Maritime.risk_score top)
        /\ (forall j c, (j < i)%nat -> nth_error cps j = Some c ->
              Maritime.risk_score c < Maritime.risk_score top)
  end.
Proof. apply maritime_highest_spec. Qed.

Lemma sum_scores_bound (M : Z) (l : list Maritime.ChokePoint) : forall a,
  (forall c, In c l -> Maritime.risk_score c <= M) ->
  fold_left Z.add (map Maritime.risk_score l) a
  <= a + Z.of_nat (List.length l) * M.
Proof.
  induction l as [ | c l IH ]; intros a H; cbn [map fold_left List.length].
  - lia.
  - specialize (IH (a + Maritime.risk_score c) (fun x Hx => H x (or_intror Hx))).
    specialize (H c (or_introl eq_refl)). lia.
Qed.

(** X18: the global index of the class-based dashboard, an average, never
    exceeds the risk score of its highest-risk chokepoint, and the global
    level is never more severe than that chokepoint's level: one severe
    location cannot raise the global level above its own, and usually shows
    less. *)
Theorem maritime_average_below_peak
  (cps : list Maritime.ChokePoint) (top : Maritime.ChokePoint) :
  Maritime.get_highest_risk_chokepoint cps = Some top ->
  Maritime.get_global_risk_index cps <= Maritime.risk_score top
  /\ maritime_rank (Maritime.get_global_risk_level cps)
     <= maritime_rank (Maritime.get_risk_level top).
Proof.
  intros H. pose proof (maritime_highest_spec cps) as S. rewrite H in S.
  destruct S as (i & _ & Hall & _).
  assert (I : Maritime.get_global_risk_index cps <= Maritime.risk_score top).
  { unfold Maritime.get_global_risk_index.
    destruct cps as [ | c rest ] eqn:E; [ discriminate H | ]. rewrite <- E in *.
    pose proof (sum_scores_bound (Maritime.risk_score top) cps 0 Hall) as B.
    assert (P : 0 < Z.of_nat (List.length cps)) by (rewrite E; cbn; lia).
    rewrite <- (Z.quot_mul (Maritime.risk_score top) (Z.of_nat (List.length cps)))
      by lia.
    apply Z.quot_le_mono; lia. }
  split; [ exact I | ].
  unfold Maritime.get_global_risk_level, Maritime.get_risk_level.
  apply maritime_level_mono. exact I.
Qed.

Lemma maritime_average_below_peak_witness :
  Maritime.get_global_risk_index three_maritime = 39
  /\ Maritime.get_global_risk_index three_maritime <= 72.
Proof.
  split; [ reflexivity | ].
  apply (maritime_average_below_peak three_maritime
           {| Maritime.name := "Danish Straits"; Maritime.risk_score := 72;
              Maritime.transit_difficulty := 90 |} eq_refl).
Defined.

Lemma maritime_tally_cons (l : Maritime.RiskLevel) (c : Maritime.ChokePoint)
  (cs : list Maritime.ChokePoint) :
  maritime_tally l (c :: cs)
  = (if maritime_eqb l (Maritime.get_risk_level c) then 1 else 0)
    + maritime_tally l cs.
Proof.
  unfold maritime_tally. cbn [filter].
  destruct (maritime_eqb l (Maritime.get_risk_level c)); cbn [List.length]; lia.
Qed.

Lemma maritime_distribution_fold (cs : list Maritime.ChokePoint) : forall d,
  fold_left Maritime.distribution_step cs d
  = {| Maritime.dist_low := Maritime.dist_low d + maritime_tally Maritime.LOW cs;
       Maritime.dist_moderate :=
         Maritime.dist_moderate d + maritime_tally Maritime.MODERATE cs;
       Maritime.dist_high := Maritime.dist_high d + maritime_tally Maritime.HIGH cs;
       Maritime.dist_critical :=
         Maritime.dist_critical d + maritime_tally Maritime.CRITICAL cs |}.
Proof.
  induction cs as [ | c cs IH ]; intros d; cbn [fold_left].
  - unfold maritime_tally. cbn. destruct d. cbn. f_equal; lia.
  - rewrite IH, !maritime_tally_cons. unfold Maritime.distribution_step.
    destruct (Maritime.get_risk_level c); unfold maritime_eqb;
      cbn [maritime_rank Z.eqb Pos.eqb Maritime.dist_low Maritime.dist_moderate
           Maritime.dist_high Maritime.dist_critical];
      f_equal; lia.
Qed.

Lemma maritime_tally_total (cs : list Maritime.ChokePoint) :
  maritime_tally Maritime.LOW cs + maritime_tally Maritime.MODERATE cs
  + maritime_tally Maritime.HIGH cs + maritime_tally Maritime.CRITICAL cs
  = Z.of_nat (List.length cs).
Proof.
  induction cs as [ | c cs IH ]; [ reflexivity | ].
  rewrite !maritime_tally_cons. cbn [List.length].
  destruct (Maritime.get_risk_level c); unfold maritime_eqb;
    cbn [maritime_rank Z.eqb Pos.eqb]; lia.
Qed.

(** X19: [get_risk_distribution] files every chokepoint under exactly one of
    low, moderate, high, critical - the level [get_risk_level] gives it - so
    each count is the number of chokepoints of that level and the four counts
    add up to the number of chokepoints. *)
Theorem maritime_distribution_counts_all (cps : list Maritime.ChokePoint) :
  Maritime.get_risk_distribution cps
  = {| Maritime.dist_low := maritime_tally Maritime.LOW cps;
       Maritime.dist_moderate := maritime_tally Maritime.MODERATE cps;
       Maritime.dist_high := maritime_tally Maritime.HIGH cps;
       Maritime.dist_critical := maritime_tally Maritime.CRITICAL cps |}
  /\ (let d := Maritime.get_risk_distribution cps in
      Maritime.dist_low d + Maritime.dist_moderate d + Maritime.dist_high d
      + Maritime.dist_critical d = Z.of_nat (List.length cps)).
Proof.
  assert (E : Maritime.get_risk_distribution cps
              = {| Maritime.dist_low := maritime_tally Maritime.LOW cps;
                   Maritime.dist_moderate := maritime_tally Maritime.MODERATE cps;
                   Maritime.dist_high := maritime_tally Maritime.HIGH cps;
                   Maritime.dist_critical := maritime_tally Maritime.CRITICAL cps |}).
  { unfold Maritime.get_risk_distribution. rewrite maritime_distribution_fold.
    reflexivity. }
  split; [ exact E | ]. cbv zeta. rewrite E.
  cbn [Maritime.dist_low Maritime.dist_moderate Maritime.dist_high
       Maritime.dist_critical].
  apply maritime_tally_total.
Qed.

Example maritime_tie_goes_to_first :
  option_map Maritime.name (Maritime.get_highest_risk_chokepoint tied_maritime)
  = Some "Bab el-Mandeb".
Proof. reflexivity. Qed.

(** ** The chokepoint outlook reads six hours *)

Lemma outlook_six_hours (l1 l2 : list Q) :
  (6 <= List.length l1)%nat -> (6 <= List.length l2)%nat ->
  firstn 6 l1 = firstn 6 l2 ->
  slice (slice l1 0 24) 0 3 = slice (slice l2 0 24) 0 3
  /\ slice (slice l1 0 24) 3 6 = slice (slice l2 0 24) 3 6.
Proof.
  intros L1 L2 E.
  destruct l1 as [ | a1 [ | b1 [ | c1 [ | d1 [ | e1 [ | f1 r1 ] ] ] ] ] ];
    cbn [List.length] in L1; try lia.
  destruct l2 as [ | a2 [ | b2 [ | c2 [ | d2 [ | e2 [ | f2 r2 ] ] ] ] ] ];
    cbn [List.length] in L2; try lia.
  cbn [firstn] in E. injection E as -> -> -> -> -> ->.
  unfold slice. cbn [firstn skipn Nat.sub]. split; reflexivity.
Qed.

(** X20: the six hour outlook of the chokepoint script is decided by hours 0
    to 5 alone: two forecasts whose wind, visibility and precipitation arrays
    agree on their first six entries get the same outlook text. *)
Theorem chokepoint_outlook_reads_six_hours
  (h1 h2 : hourly) (r1 r2 : Chokepoint.risk) :
  Chokepoint.compute_risk h1 = Ok r1 ->
  Chokepoint.compute_risk h2 = Ok r2 ->
  option_map (firstn 6) (windspeed_10m h1)
  = option_map (firstn 6) (windspeed_10m h2) ->
  option_map (firstn 6) (visibility h1)
  = option_map (firstn 6) (visibility h2) ->
  option_map (firstn 6) (precipitation h1)
  = option_map (firstn 6) (precipitation h2) ->
  Chokepoint.outlook_6h r1 = Chokepoint.outlook_6h r2.
Proof.
  intros H1 H2 Ew Ev Ep.
  destruct (chokepoint_ok_lengths h1 r1 H1)
    as (ws1 & vs1 & ps1 & Kw1 & Kv1 & Kp1 & Lw1 & Lv1 & Lp1).
  destruct (chokepoint_ok_lengths h2 r2 H2)
    as (ws2 & vs2 & ps2 & Kw2 & Kv2 & Kp2 & Lw2 & Lv2 & Lp2).
  rewrite Kw1, Kw2 in Ew. rewrite Kv1, Kv2 in Ev. rewrite Kp1, Kp2 in Ep.
  cbn [option_map] in Ew, Ev, Ep.
  apply some_eq in Ew. apply some_eq in Ev. apply some_eq in Ep.
  apply chokepoint_run in H1.
  destruct H1 as (aw & av & ap & mw & mv & mp & H1). cbn zeta in H1.
  destruct H1 as (Kw & Kv & Kp & _ & _ & _ & _ & _ & _ & _ & _ & _ & _ & Ho1).
  assert (aw = ws1) by congruence. assert (av = vs1) by congruence.
  assert (ap = ps1) by congruence. subst aw av ap. clear Kw Kv Kp.
  apply chokepoint_run in H2.
  destruct H2 as (aw & av & ap & mw' & mv' & mp' & H2). cbn zeta in H2.
  destruct H2 as (Kw & Kv & Kp & _ & _ & _ & _ & _ & _ & _ & _ & _ & _ & Ho2).
  assert (aw = ws2) by congruence. assert (av = vs2) by congruence.
  assert (ap = ps2) by congruence. subst aw av ap.
  rewrite Ho1, Ho2. unfold Chokepoint.outlook_of.
  destruct (outlook_six_hours ws1 ws2 ltac:(lia) ltac:(lia) Ew) as [-> ->].
  destruct (outlook_six_hours vs1 vs2 ltac:(lia) ltac:(lia) Ev) as [-> ->].
  destruct (outlook_six_hours ps1 ps2 ltac:(lia) ltac:(lia) Ep) as [-> ->].
  reflexivity.
Qed.

Lemma chokepoint_outlook_reads_six_hours_witness :
  exists r1 r2,
    Chokepoint.compute_risk calm_day = Ok r1
    /\ Chokepoint.compute_risk long_calm_week = Ok r2
    /\ Chokepoint.outlook_6h r1 = Chokepoint.outlook_6h r2.
Proof.
  do 2 eexists.
  split; [ vm_compute; reflexivity | ].
  split; [ vm_compute; reflexivity | ].
  apply (chokepoint_outlook_reads_six_hours calm_day long_calm_week _ _
           ltac:(vm_compute; reflexivity) ltac:(vm_compute; reflexivity)
           eq_refl eq_refl eq_refl).
Defined.

(** ** The current block and the first row of the table *)

Lemma first_row_is_current (h : hourly) (fc : list hour) (t0 w0 v0 p0 : Q)
  (temps ws vs ps : list Q) :
  getkey (temperature_2m h) = Ok temps -> getitem temps 0 = Ok t0 ->
  getkey (windspeed_10m h) = Ok ws -> getitem ws 0 = Ok w0 ->
  getkey (visibility h) = Ok vs -> getitem vs 0 = Ok v0 ->
  getkey (precipitation h) = Ok ps -> getitem ps 0 = Ok p0 ->
  PortOps.extract_24h h = Ok fc ->
  exists t,
    nth_error fc 0
    = Some {| hour_time := t; hour_temp := t0; hour_wind := w0;
              hour_vis := v0; hour_precip := p0 |}.
Proof.
  intros Kx Gx Kw Gw Kv Gv Kp Gp H.
  apply getkey_ok in Kx, Kw, Kv, Kp. apply getitem_ok in Gx, Gw, Gv, Gp.
  destruct (extract_ok_lengths h fc H) as (_ & ts & _ & _ & _ & _ & Kt & _).
  destruct (extract_nth h fc ts temps ws vs ps 0 H Kt Kx Kw Kv Kp ltac:(lia))
    as (t & temp & w & v & p & Nt & Nx & Nw & Nv & Np & Nf).
  exists t. rewrite Nf. congruence.
Qed.

(** X21: in an entry built by either main loop, the [current] block shows
    the same temperature, wind, visibility and precipitation as the first row
    of the entry's 24-hour table. *)
Theorem current_block_is_first_row
  (n : string) (lat lon : Q) (h : hourly)
  (ec : Chokepoint.entry) (ep : PortOps.entry) :
  Chokepoint.make_entry n lat lon h = Ok ec ->
  PortOps.make_entry n lat lon h = Ok ep ->
  (exists t,
     nth_error (Chokepoint.forecast_24h ec) 0
     = Some {| hour_time := t;
               hour_temp := temperature_c (Chokepoint.current ec);
               hour_wind := wind_kmh (Chokepoint.current ec);
               hour_vis := visibility_m (Chokepoint.current ec);
               hour_precip := precip_mm (Chokepoint.current ec) |})
  /\ (exists t,
        nth_error (PortOps.forecast_24h ep) 0
        = Some {| hour_time := t;
                  hour_temp := temperature_c (PortOps.current ep);
                  hour_wind := wind_kmh (PortOps.current ep);
                  hour_vis := visibility_m (PortOps.current ep);
                  hour_precip := precip_mm (PortOps.current ep) |}).
Proof.
  intros Hc Hp. split.
  - unfold Chokepoint.make_entry in Hc. do 10 unbind Hc.
    injection Hc as <-.
    cbn [Chokepoint.forecast_24h Chokepoint.current temperature_c wind_kmh
         visibility_m precip_mm].
    eapply first_row_is_current; eassumption.
  - unfold PortOps.make_entry in Hp. do 10 unbind Hp.
    injection Hp as <-.
    cbn [PortOps.forecast_24h PortOps.current temperature_c wind_kmh
         visibility_m precip_mm].
    eapply first_row_is_current; eassumption.
Qed.

Lemma current_block_is_first_row_witness :
  exists ec ep,
    Chokepoint.make_entry "Suez Canal" 30.585 32.265 storm_day = Ok ec
    /\ PortOps.make_entry "Suez Canal" 30.585 32.265 storm_day = Ok ep
    /\ exists t,
         nth_error (PortOps.forecast_24h ep) 0
         = Some {| hour_time := t;
                   hour_temp := temperature_c (PortOps.current ep);
                   hour_wind := wind_kmh (PortOps.current ep);
                   hour_vis := visibility_m (PortOps.current ep);
                   hour_precip := precip_mm (PortOps.current ep) |}.
Proof.
  do 2 eexists.
  split; [ vm_compute; reflexivity | ].
  split; [ vm_compute; reflexivity | ].
  apply (current_block_is_first_row "Suez Canal" 30.585 32.265 storm_day _ _
           ltac:(vm_compute; reflexivity) ltac:(vm_compute; reflexivity)).
Defined.

(** ** No high level without wind *)

(** X22: neither script rates a location high on visibility and
    precipitation alone.  A chokepoint run with level high has a wind reading
    of at least 40 km/h among its first 24 hours; a port run with level high
    has a wind reading above 15 km/h at hour 0. *)
Theorem high_level_needs_wind
  (hc hp : hourly) (rc : Chokepoint.risk) (rp : PortOps.risk) :
  Chokepoint.compute_risk hc = Ok rc ->
  PortOps.compute_risk hp = Ok rp ->
  (Chokepoint.level rc = high ->
   exists ws w,
     windspeed_10m hc = Some ws /\ In w (firstn 24 ws) /\ (40 <= w)%Q)
  /\ (PortOps.level rp = high ->
      exists w, reading (windspeed_10m hp) 0 = Some w /\ (15 < w)%Q).
Proof.
  intros Hc Hp. split; intros Hl.
  - destruct (chokepoint_ok_lengths hc rc Hc) as (ws & vs & ps & Kw & Kv & Kp & _).
    destruct (chokepoint_window hc rc ws vs ps Hc Kw Kv Kp)
      as (mw & mv & mp & [Hin _] & _ & _ & _ & Hs).
    apply chokepoint_color_of_run in Hc. destruct Hc as [_ Hlv].
    rewrite Hlv in Hl. unfold Chokepoint.level_of in Hl.
    exists ws, mw. split; [ exact Kw | ]. split; [ exact Hin | ].
    pose proof (vis_risk_range mv). pose proof (precip_risk_range mp).
    assert (W : 20 <= Chokepoint.wind_risk_of mw).
    { destruct (Z.ltb_spec (Chokepoint.score rc) 30); [ discriminate | ].
      destruct (Z.ltb_spec (Chokepoint.score rc) 60); [ discriminate | ]. lia. }
    revert W. unfold Chokepoint.wind_risk_of. split_chain; chain_facts;
      intros W; try lia; assumption.
  - apply port_run in Hp.
    destruct Hp as (w & v & p & w6 & Hp). cbn zeta in Hp.
    destruct Hp as (Rw & _ & _ & _ & _ & _ & Hs & Hlv & _).
    rewrite Hlv in Hl. unfold PortOps.level_of in Hl.
    exists w. split; [ exact Rw | ].
    pose proof (vis_score_range v). pose proof (precip_score_range p).
    assert (W : 10 <= PortOps.wind_score_of w).
    { destruct (Z.ltb_spec (PortOps.score rp) 30); [ discriminate | ].
      destruct (Z.ltb_spec (PortOps.score rp) 60); [ discriminate | ].
      rewrite Hs in *. unfold PortOps.score_of in *. lia. }
    revert W. unfold PortOps.wind_score_of. split_chain; chain_facts;
      intros W; try lia; lra.
Qed.

Lemma high_level_needs_wind_witness :
  exists rc rp,
    Chokepoint.compute_risk storm_day = Ok rc
    /\ PortOps.compute_risk storm_day = Ok rp
    /\ Chokepoint.level rc = high /\ PortOps.level rp = high
    /\ exists w, reading (windspeed_10m storm_day) 0 = Some w /\ (15 < w)%Q.
Proof.
  do 2 eexists.
  split; [ vm_compute; reflexivity | ].
  split; [ vm_compute; reflexivity | ].
  do 2 (split; [ reflexivity | ]).
  apply (high_level_needs_wind storm_day storm_day _ _
           ltac:(vm_compute; reflexivity) ltac:(vm_compute; reflexivity)).
  reflexivity.
Defined.
